(** * linda-salon-api: availability and booking scheduling engine

    A shallow embedding of the Go handlers and repositories that decide
    bookable slots, create bookings and change booking status, together with
    the properties they satisfy.

    Conventions.
    - Go [int] and [int64] are 64-bit: values are [Z] and every arithmetic
      operation that can leave the range is wrapped with [Go.wrap64].
    - Go strings are byte strings: [string], ordered bytewise
      ([String.ltb], [String.leb]); SQL comparisons on the [varchar(5)] time
      columns use the same order.
    - The database is an in-memory [Store.t]; a query never fails with an
      I/O error, so the [err != nil] branches that answer 500 for a failed
      query are not reachable in the model.  GORM's soft delete is the
      [DeletedAt] flag every query filters on. *)

From Stdlib Require Import ZArith List String Ascii Bool Lia Sorted.
Import ListNotations.
Open Scope string_scope.
Open Scope Z_scope.

(* ------------------------------------------------------------------ *)
(** ** Go primitives *)

Module Go.

Definition MaxInt64 : Z := 2 ^ 63 - 1.
Definition MinInt64 : Z := - 2 ^ 63.

(** Two's complement wrap-around of 64-bit signed arithmetic. *)
Definition wrap64 (z : Z) : Z := (z + 2 ^ 63) mod 2 ^ 64 - 2 ^ 63.

Definition in_int64 (z : Z) : Prop := MinInt64 <= z <= MaxInt64.

Definition add (a b : Z) : Z := wrap64 (a + b).
Definition mul (a b : Z) : Z := wrap64 (a * b).
(** [a / b] and [a % b] truncate toward zero. *)
Definition quo (a b : Z) : Z := wrap64 (Z.quot a b).
Definition rem (a b : Z) : Z := Z.rem a b.

(** [s[lo:hi]]: panics ([None]) when [hi] exceeds the length. *)
Definition slice (s : string) (lo hi : nat) : option string :=
  if (hi <=? String.length s)%nat && (lo <=? hi)%nat
  then Some (substring lo (hi - lo) s)
  else None.

Definition isDigit (c : ascii) : bool :=
  ((48 <=? nat_of_ascii c) && (nat_of_ascii c <=? 57))%nat.

Definition digitVal (c : ascii) : Z := Z.of_nat (nat_of_ascii c) - 48.

Definition digitChar (d : Z) : ascii := ascii_of_nat (Z.to_nat (48 + d)).

(** Value of a run of decimal digits, [None] on any other byte. *)
Fixpoint digits (acc : Z) (s : string) : option Z :=
  match s with
  | EmptyString => Some acc
  | String c rest =>
      if isDigit c then digits (acc * 10 + digitVal c) rest else None
  end.

(** [strconv.Atoi]: optional sign, then at least one digit; a syntax error
    gives [(0, false)], a value out of range gives the nearest bound and
    [false]. *)
Definition Atoi (s : string) : Z * bool :=
  let parse (neg : bool) (body : string) :=
    match body with
    | EmptyString => (0, false)
    | _ =>
        match digits 0 body with
        | None => (0, false)
        | Some n =>
            let v := if neg then - n else n in
            if v <? MinInt64 then (MinInt64, false)
            else if MaxInt64 <? v then (MaxInt64, false)
            else (v, true)
        end
    end in
  match s with
  | EmptyString => (0, false)
  | String "-" body => parse true body
  | String "+" body => parse false body
  | _ => parse false s
  end.

(** [strconv.ParseUint(s, 10, 32)]: digits only, value below [2^32]. *)
Definition ParseUint32 (s : string) : option Z :=
  match s with
  | EmptyString => None
  | _ =>
      match digits 0 s with
      | Some n => if n <? 2 ^ 32 then Some n else None
      | None => None
      end
  end.

(** Two decimal digits, as [%02d] prints a value in [0, 100). *)
Definition pad2 (n : Z) : string :=
  String (digitChar (n / 10)) (String (digitChar (n mod 10)) EmptyString).

Definition pad4 (n : Z) : string :=
  pad2 (n / 100) ++ pad2 (n mod 100).

(** Decimal rendering of a non-negative integer ([%d]). *)
Fixpoint itoa_aux (fuel : nat) (n : Z) (acc : string) : string :=
  match fuel with
  | O => acc
  | S fuel' =>
      let acc' := String (digitChar (n mod 10)) acc in
      if n <? 10 then acc' else itoa_aux fuel' (n / 10) acc'
  end.

Definition itoa (n : Z) : string := itoa_aux (S (Z.to_nat (Z.log2 n))) n EmptyString.

End Go.

(* ------------------------------------------------------------------ *)
(** ** The parts of Go's [time] package the handlers use *)

Module time.

(** [time.Duration]: a count of nanoseconds in an [int64]. *)
Definition Duration := Z.
Definition Second : Duration := 1000000000.
Definition Minute : Duration := 60 * Second.
Definition Hour : Duration := 60 * Minute.
Definition Day : Duration := 24 * Hour.

(** [time.Duration(n) * time.Minute], an [int64] product. *)
Definition Minutes (n : Z) : Duration := Go.mul n Minute.

(** A [time.Time] in UTC, as nanoseconds since 0000-01-01T00:00:00Z.  The
    instants the handlers build stay within a few centuries of that
    origin, far from the limits of the representation. *)
Definition Time := Z.

(** The zero [Time] is 0001-01-01T00:00:00Z; year 0 is a leap year. *)
Definition zero : Time := 366 * Day.

Definition Add (t : Time) (d : Duration) : Time := t + d.
Definition Before (t u : Time) : bool := t <? u.
Definition After (t u : Time) : bool := u <? t.

(** [t.Format("15:04")]. *)
Definition Format_clock (t : Time) : string :=
  Go.pad2 ((t / Hour) mod 24) ++ ":" ++ Go.pad2 ((t / Minute) mod 60).

(** [time.Parse("15:04", s)]: one or two hour digits, a colon, two minute
    digits, nothing else; hour below 24 and minute below 60.  A success is
    that clock time on 0000-01-01; a failure is the zero [Time] and an
    error ([false]). *)
Definition Parse_clock (s : string) : Time * bool :=
  match s with
  | String c0 rest0 =>
      if Go.isDigit c0 then
        let '(hour, rest) :=
          match rest0 with
          | String c1 rest1 =>
              if Go.isDigit c1
              then (Go.digitVal c0 * 10 + Go.digitVal c1, rest1)
              else (Go.digitVal c0, rest0)
          | EmptyString => (Go.digitVal c0, rest0)
          end in
        if 24 <=? hour then (zero, false)
        else
          match rest with
          | String ":" (String m0 (String m1 EmptyString)) =>
              if Go.isDigit m0 && Go.isDigit m1 then
                let min := Go.digitVal m0 * 10 + Go.digitVal m1 in
                if 60 <=? min then (zero, false)
                else (hour * Hour + min * Minute, true)
              else (zero, false)
          | _ => (zero, false)
          end
      else (zero, false)
  | EmptyString => (zero, false)
  end.

(** [time.Date(0, 0, 0, hour, min, 0, 0, time.UTC)]: month 0 and day 0
    normalise to 30 November of year -1, that is 32 days before the
    origin; hours and minutes outside their usual ranges carry over. *)
Definition Date_clock (hour min : Z) : Time :=
  - 32 * Day + hour * Hour + min * Minute.

(** A calendar date: the [time.Time] values that [time.Parse] builds from
    the layout [2006-01-02] (midnight UTC of that day). *)
Record Date : Type := mkDate { year : Z; month : Z; day : Z }.

Definition Date_eqb (a b : Date) : bool :=
  (year a =? year b) && (month a =? month b) && (day a =? day b).

Definition isLeap (y : Z) : bool :=
  (y mod 4 =? 0) && (negb (y mod 100 =? 0) || (y mod 400 =? 0)).

Definition daysIn (m y : Z) : Z :=
  if m =? 2 then (if isLeap y then 29 else 28)
  else if (m =? 4) || (m =? 6) || (m =? 9) || (m =? 11) then 30
  else 31.

(** Days of the year before the first of month [m]. *)
Fixpoint daysBefore_aux (k : nat) (y : Z) : Z :=
  match k with
  | O => 0
  | S k' => daysBefore_aux k' y + daysIn (Z.of_nat k) y
  end.

Definition daysBefore (m y : Z) : Z := daysBefore_aux (Z.to_nat (m - 1)) y.

(** Days from 0000-01-01 to the date, for a year that is not negative. *)
Definition daysSinceOrigin (d : Date) : Z :=
  let y := year d in
  365 * y + (y + 3) / 4 - (y + 99) / 100 + (y + 399) / 400
  + daysBefore (month d) y + (day d - 1).

(** [int(date.Weekday())], 0 = Sunday; 0000-01-01 is a Saturday. *)
Definition Weekday (d : Date) : Z := (6 + daysSinceOrigin d) mod 7.

(** [date.Format("2006-01-02")]. *)
Definition Format_date (d : Date) : string :=
  Go.pad4 (year d) ++ "-" ++ Go.pad2 (month d) ++ "-" ++ Go.pad2 (day d).

(** [time.Parse("2006-01-02", s)]: four, two and two digits separated by
    dashes, month in 1..12 and day within the month. *)
Definition Parse_date (s : string) : option Date :=
  match s with
  | String y0 (String y1 (String y2 (String y3
      (String "-" (String m0 (String m1
      (String "-" (String d0 (String d1 EmptyString))))))))) =>
      if Go.isDigit y0 && Go.isDigit y1 && Go.isDigit y2 && Go.isDigit y3
         && Go.isDigit m0 && Go.isDigit m1 && Go.isDigit d0 && Go.isDigit d1
      then
        let y := ((Go.digitVal y0 * 10 + Go.digitVal y1) * 10
                  + Go.digitVal y2) * 10 + Go.digitVal y3 in
        let m := Go.digitVal m0 * 10 + Go.digitVal m1 in
        let d := Go.digitVal d0 * 10 + Go.digitVal d1 in
        if (m <=? 0) || (12 <? m) then None
        else if (d <? 1) || (daysIn m y <? d) then None
        else Some (mkDate y m d)
      else None
  | _ => None
  end.

End time.

(* ------------------------------------------------------------------ *)
(** ** Data model (package [model]) *)

Module model.

Module BookingServiceItem.
Record t : Type := mk
  { ID : Z; Name : string; Price : Z; Duration : Z }.
End BookingServiceItem.

Module Service.
Record t : Type := mk
  { ID : Z; DeletedAt : bool;
    Name : string; Price : Z; Duration : Z; IsActive : bool }.
End Service.

Module User.
(** [Phone] is read through a pointer by the booking handler. *)
Record t : Type := mk
  { ID : Z; DeletedAt : bool;
    Name : string; Email : string; Phone : option string;
    Role : string }.
End User.

Module Stylist.
Record t : Type := mk
  { ID : Z; DeletedAt : bool; Name : string; IsActive : bool }.
End Stylist.

Module StylistSchedule.
Record t : Type := mk
  { ID : Z; DeletedAt : bool;
    StylistID : Z;
    DayOfWeek : Z;          (* 0=Sunday, 1=Monday, ..., 6=Saturday *)
    StartTime : string;     (* HH:MM format *)
    EndTime : string;       (* HH:MM format *)
    IsActive : bool }.
End StylistSchedule.

Module Booking.
Record t : Type := mk
  { ID : Z; DeletedAt : bool;
    UserID : Z;
    StylistID : Z;
    Services : list BookingServiceItem.t;
    BookingDate : time.Date;
    StartTime : string;     (* HH:MM *)
    EndTime : string;       (* HH:MM *)
    Duration : Z;           (* minutes *)
    Price : Z;
    Status : string;        (* pending, confirmed, completed, cancelled *)
    Notes : string;
    CustomerName : string;
    CustomerPhone : string;
    CustomerEmail : string }.

Definition with_ID (id : Z) (b : t) : t :=
  mk id (DeletedAt b) (UserID b) (StylistID b) (Services b)
     (BookingDate b) (StartTime b) (EndTime b) (Duration b) (Price b)
     (Status b) (Notes b) (CustomerName b) (CustomerPhone b)
     (CustomerEmail b).

Definition with_Status (status : string) (b : t) : t :=
  mk (ID b) (DeletedAt b) (UserID b) (StylistID b) (Services b)
     (BookingDate b) (StartTime b) (EndTime b) (Duration b) (Price b)
     status (Notes b) (CustomerName b) (CustomerPhone b)
     (CustomerEmail b).
End Booking.

Definition BookingStatusPending : string := "pending".
Definition BookingStatusConfirmed : string := "confirmed".
Definition BookingStatusCompleted : string := "completed".
Definition BookingStatusCancelled : string := "cancelled".

(** [IsCancellable] checks if booking can be cancelled. *)
Definition IsCancellable (b : Booking.t) : bool :=
  String.eqb (Booking.Status b) BookingStatusPending
  || String.eqb (Booking.Status b) BookingStatusConfirmed.

End model.

Import model.

(* ------------------------------------------------------------------ *)
(** ** The database *)

Module Store.
Record t : Type := mk
  { users : list User.t;
    services : list Service.t;
    stylists : list Stylist.t;
    schedules : list StylistSchedule.t;
    bookings : list Booking.t }.

Definition with_bookings (bs : list Booking.t) (db : t) : t :=
  mk (users db) (services db) (stylists db) (schedules db) bs.
End Store.

(** What GORM's query builder does with a table. *)
Module gorm.

(** The element with the least key, the earliest one among equals. *)
Fixpoint least {A : Type} (key : A -> Z) (rows : list A) : option A :=
  match rows with
  | [] => None
  | x :: rest =>
      match least key rest with
      | Some y => if key y <? key x then Some y else Some x
      | None => Some x
      end
  end.

(** [First]: the matching row with the least primary key. *)
Definition First {A : Type} (id : A -> Z) (rows : list A) : option A :=
  least id rows.

Fixpoint insert_by {A : Type} (le : A -> A -> bool) (x : A) (rows : list A)
  : list A :=
  match rows with
  | [] => [x]
  | y :: rest => if le x y then x :: rows else y :: insert_by le x rest
  end.

(** [Order]: a stable sort. *)
Definition Order {A : Type} (le : A -> A -> bool) (rows : list A) : list A :=
  fold_right (insert_by le) [] rows.

(** [Limit(n)]: no clause for a negative [n]. *)
Definition Limit {A : Type} (n : Z) (rows : list A) : list A :=
  if n <? 0 then rows else firstn (Z.to_nat n) rows.

(** [Offset(n)]: no clause unless [n] is positive. *)
Definition Offset {A : Type} (n : Z) (rows : list A) : list A :=
  if 0 <? n then skipn (Z.to_nat n) rows else rows.

(** Next value of a table's primary-key sequence. *)
Definition nextID {A : Type} (id : A -> Z) (rows : list A) : Z :=
  1 + fold_right (fun r acc => Z.max (id r) acc) 0 rows.

(** A [booking_date = ?] condition whose argument is a [YYYY-MM-DD]
    string. *)
Definition date_is (d : time.Date) (dateStr : string) : bool :=
  String.eqb (time.Format_date d) dateStr.

(** A calendar date as an instant, for [<=] between dates. *)
Definition date_leb (a b : time.Date) : bool :=
  time.daysSinceOrigin a <=? time.daysSinceOrigin b.

End gorm.

(* ------------------------------------------------------------------ *)
(** ** Repositories (package [repository]) *)

Module repository.

Module UserRepository.
(** Modelled from the spec: the user repository is not among the sources;
    the customer profile lookup, [GetCustomer(id)] giving the profile or
    not found, is the live row with that key, as the other repositories
    write [GetByID]. *)
Definition GetByID (db : Store.t) (id : Z) : option User.t :=
  gorm.First User.ID
    (filter (fun u => negb (User.DeletedAt u) && (User.ID u =? id))
            (Store.users db)).
End UserRepository.

Module ServiceRepository.
Definition GetByID (db : Store.t) (id : Z) : option Service.t :=
  gorm.First Service.ID
    (filter (fun s => negb (Service.DeletedAt s) && (Service.ID s =? id))
            (Store.services db)).
End ServiceRepository.

Module StylistRepository.

Definition GetByID (db : Store.t) (id : Z) : option Stylist.t :=
  gorm.First Stylist.ID
    (filter (fun s => negb (Stylist.DeletedAt s) && (Stylist.ID s =? id))
            (Store.stylists db)).

Definition schedule_le (a b : StylistSchedule.t) : bool :=
  (StylistSchedule.DayOfWeek a <? StylistSchedule.DayOfWeek b)
  || ((StylistSchedule.DayOfWeek a =? StylistSchedule.DayOfWeek b)
      && String.leb (StylistSchedule.StartTime a)
                    (StylistSchedule.StartTime b)).

Definition GetSchedulesByStylistID (db : Store.t) (stylistID : Z)
  : list StylistSchedule.t :=
  gorm.Order schedule_le
    (filter (fun s => negb (StylistSchedule.DeletedAt s)
                      && (StylistSchedule.StylistID s =? stylistID)
                      && Bool.eqb (StylistSchedule.IsActive s) true)
            (Store.schedules db)).

(** The schedule row [IsAvailable] looks up: the first live, active one of
    the stylist for the weekday. *)
Definition first_schedule (db : Store.t) (stylistID dayOfWeek : Z)
  : option StylistSchedule.t :=
  gorm.First StylistSchedule.ID
    (filter (fun s => negb (StylistSchedule.DeletedAt s)
                      && (StylistSchedule.StylistID s =? stylistID)
                      && (StylistSchedule.DayOfWeek s =? dayOfWeek)
                      && Bool.eqb (StylistSchedule.IsActive s) true)
            (Store.schedules db)).

(** The rows the conflict query of [IsAvailable] counts. *)
Definition conflicting (db : Store.t) (stylistID : Z) (date : time.Date)
           (startTime endTime : string) : list Booking.t :=
  filter (fun b =>
            negb (Booking.DeletedAt b)
            && (Booking.StylistID b =? stylistID)
            && gorm.date_is (Booking.BookingDate b) (time.Format_date date)
            && (String.eqb (Booking.Status b) "pending"
                || String.eqb (Booking.Status b) "confirmed")
            && negb (String.leb (Booking.EndTime b) startTime
                     || String.leb endTime (Booking.StartTime b)))
         (Store.bookings db).

(** Check if stylist is available at given time. *)
Definition IsAvailable (db : Store.t) (stylistID : Z) (date : time.Date)
           (startTime endTime : string) : bool :=
  let dayOfWeek := time.Weekday date in
  (* Check if stylist has schedule for this day *)
  match first_schedule db stylistID dayOfWeek with
  | None => false
  | Some schedule =>
      (* Check if requested time is within schedule *)
      if String.ltb startTime (StylistSchedule.StartTime schedule)
         || String.ltb (StylistSchedule.EndTime schedule) endTime
      then false
      else
        (* Check for conflicting bookings *)
        let count :=
          Z.of_nat (List.length
                      (conflicting db stylistID date startTime endTime)) in
        count =? 0
  end.

End StylistRepository.

Module BookingRepository.

(** [Create]: the row gets the next primary key and is appended. *)
Definition Create (db : Store.t) (booking : Booking.t)
  : Store.t * Booking.t :=
  let row :=
    Booking.with_ID (gorm.nextID Booking.ID (Store.bookings db)) booking in
  (Store.with_bookings (Store.bookings db ++ [row]) db, row).

Definition GetByID (db : Store.t) (id : Z) : option Booking.t :=
  gorm.First Booking.ID
    (filter (fun b => negb (Booking.DeletedAt b) && (Booking.ID b =? id))
            (Store.bookings db)).

(** [booking_date DESC, start_time DESC]. *)
Definition list_le (a b : Booking.t) : bool :=
  let da := time.daysSinceOrigin (Booking.BookingDate a) in
  let db := time.daysSinceOrigin (Booking.BookingDate b) in
  (db <? da)
  || ((da =? db) && String.leb (Booking.StartTime b) (Booking.StartTime a)).

Definition List (db : Store.t) (userID : option Z) (status : string)
           (startDate endDate : option time.Date) (limit offset : Z)
  : list Booking.t * Z :=
  let query :=
    filter (fun b =>
              negb (Booking.DeletedAt b)
              && match userID with
                 | Some u => Booking.UserID b =? u
                 | None => true
                 end
              && (if String.eqb status EmptyString then true
                  else String.eqb (Booking.Status b) status)
              && match startDate with
                 | Some d => gorm.date_leb d (Booking.BookingDate b)
                 | None => true
                 end
              && match endDate with
                 | Some d => gorm.date_leb (Booking.BookingDate b) d
                 | None => true
                 end)
           (Store.bookings db) in
  let total := Z.of_nat (List.length query) in
  (gorm.Offset offset (gorm.Limit limit (gorm.Order list_le query)), total).

Definition GetByStylistAndDateString (db : Store.t) (stylistID : Z)
           (dateStr : string) : list Booking.t :=
  gorm.Order
    (fun a b => String.leb (Booking.StartTime a) (Booking.StartTime b))
    (filter (fun b =>
               negb (Booking.DeletedAt b)
               && (Booking.StylistID b =? stylistID)
               && gorm.date_is (Booking.BookingDate b) dateStr
               && (String.eqb (Booking.Status b) BookingStatusPending
                   || String.eqb (Booking.Status b) BookingStatusConfirmed))
            (Store.bookings db)).

(** [UpdateStatus]: every live row with that key gets the status; no
    row at all is not an error. *)
Definition UpdateStatus (db : Store.t) (id : Z) (status : string)
  : Store.t :=
  Store.with_bookings
    (map (fun b =>
            if negb (Booking.DeletedAt b) && (Booking.ID b =? id)
            then Booking.with_Status status b
            else b)
         (Store.bookings db))
    db.

End BookingRepository.

End repository.

Import repository.

(* ------------------------------------------------------------------ *)
(** ** Handlers (package [handler]) *)

Module http.
Definition StatusOK : Z := 200.
Definition StatusCreated : Z := 201.
Definition StatusBadRequest : Z := 400.
Definition StatusForbidden : Z := 403.
Definition StatusNotFound : Z := 404.
Definition StatusConflict : Z := 409.
Definition StatusInternalServerError : Z := 500.
End http.

(** What a handler does with its request: [c.JSON(code, body)],
    [c.JSON(code, gin.H{"error": msg})], a run-time panic, or no return at
    all. *)
Inductive Response (A : Type) : Type :=
| JSON (code : Z) (body : A)
| Error (code : Z) (error : string)
| Panic
| Diverges.

Arguments JSON {A} code body.
Arguments Error {A} code error.
Arguments Panic {A}.
Arguments Diverges {A}.

(** The caller, as the authentication middleware leaves it in the context. *)
Record Context : Type := mkContext { UserID : Z; UserRole : string }.

(** Text of a request-binding error (produced by the validator). *)
Definition binding_error : string := "binding".

Module BookingHandler.

Record CreateBookingRequest : Type := mkCreateBookingRequest
  { ServiceIDs : list Z;
    StylistID : Z;
    Date : string;           (* YYYY-MM-DD *)
    StartTime : string;      (* HH:MM *)
    Notes : string;
    CustomerName : string;
    CustomerPhone : string;
    CustomerEmail : string }.

Record ListQuery : Type := mkListQuery
  { q_status : string;
    q_start_date : string;
    q_end_date : string;
    q_limit : option string;
    q_offset : option string }.

Record ListBody : Type := mkListBody
  { bookings : list Booking.t; total : Z; limit : Z; offset : Z }.

Definition DefaultQuery (q : option string) (default : string) : string :=
  match q with Some v => v | None => default end.

(** [t, _ := time.Parse("2006-01-02", s)]: the zero [Time] on error. *)
Definition parse_or_zero (s : string) : time.Date :=
  match time.Parse_date s with
  | Some d => d
  | None => time.mkDate 1 1 1
  end.

Definition ListBookings (db : Store.t) (c : Context) (q : ListQuery)
  : Response ListBody :=
  let userID := UserID c in
  let role := UserRole c in
  let status := q_status q in
  let limit := fst (Go.Atoi (DefaultQuery (q_limit q) "20")) in
  let offset := fst (Go.Atoi (DefaultQuery (q_offset q) "0")) in
  let startDate :=
    if String.eqb (q_start_date q) EmptyString then None
    else Some (parse_or_zero (q_start_date q)) in
  let endDate :=
    if String.eqb (q_end_date q) EmptyString then None
    else Some (parse_or_zero (q_end_date q)) in
  (* Non-admin users can only see their own bookings *)
  let userIDPtr :=
    if negb (String.eqb role "admin") then Some userID else None in
  let '(bookings, total) :=
    BookingRepository.List db userIDPtr status startDate endDate
                           limit offset in
  JSON http.StatusOK (mkListBody bookings total limit offset).

Definition GetBooking (db : Store.t) (c : Context) (idParam : string)
  : Response Booking.t :=
  match Go.ParseUint32 idParam with
  | None => Error http.StatusBadRequest "Invalid booking ID"
  | Some id =>
      match BookingRepository.GetByID db id with
      | None => Error http.StatusNotFound "Booking not found"
      | Some booking =>
          (* Check authorization *)
          let userID := UserID c in
          let role := UserRole c in
          if negb (String.eqb role "admin")
             && negb (Booking.UserID booking =? userID)
          then Error http.StatusForbidden "Access denied"
          else JSON http.StatusOK booking
      end
  end.

(** The [binding] tags of [CreateBookingRequest]. *)
Definition bind_CreateBookingRequest (req : CreateBookingRequest) : bool :=
  (1 <=? List.length (ServiceIDs req))%nat
  && negb (StylistID req =? 0)
  && negb (String.eqb (Date req) EmptyString)
  && negb (String.eqb (StartTime req) EmptyString).

(** Get all services info and calculate total duration and price; the
    left result is the first service ID that does not resolve. *)
Fixpoint resolve_services (db : Store.t) (serviceIDs : list Z)
         (services : list BookingServiceItem.t)
         (totalDuration totalPrice : Z)
  : Z + (list BookingServiceItem.t * Z * Z) :=
  match serviceIDs with
  | [] => inr (services, totalDuration, totalPrice)
  | serviceID :: rest =>
      match ServiceRepository.GetByID db serviceID with
      | None => inl serviceID
      | Some service =>
          resolve_services db rest
            (services ++ [BookingServiceItem.mk
                            (Service.ID service) (Service.Name service)
                            (Service.Price service)
                            (Service.Duration service)])
            (Go.add totalDuration (Service.Duration service))
            (Go.add totalPrice (Service.Price service))
      end
  end.

(** Calculate end time based on total duration; [None] is the panic of a
    slice out of range. *)
Definition end_time (startTime : string) (totalDuration : Z)
  : option string :=
  match Go.slice startTime 0 2 with
  | None => None
  | Some hh =>
      let startHour := fst (Go.Atoi hh) in
      match Go.slice startTime 3 5 with
      | None => None
      | Some mm =>
          let startMin := fst (Go.Atoi mm) in
          let endMin := Go.add startMin totalDuration in
          let endHour := Go.add startHour (Go.quo endMin 60) in
          let endMin := Go.rem endMin 60 in
          Some (time.Format_clock (time.Date_clock endHour endMin))
      end
  end.

(** [CreateBooking] up to the booking it is about to insert: every step
    before [bookingRepo.Create], none of which writes. *)
Definition CreateBooking_check (db : Store.t) (c : Context)
           (req : CreateBookingRequest)
  : Response (option Booking.t) + Booking.t :=
  if negb (bind_CreateBookingRequest req)
  then inl (Error http.StatusBadRequest binding_error)
  else
    let userID := UserID c in
    (* Get user info *)
    match UserRepository.GetByID db userID with
    | None => inl (Error http.StatusInternalServerError "Failed to fetch user")
    | Some user =>
        match resolve_services db (ServiceIDs req) [] 0 0 with
        | inl serviceID =>
            inl (Error http.StatusBadRequest
                       ("Invalid service ID: " ++ Go.itoa serviceID))
        | inr (services, totalDuration, totalPrice) =>
            (* Get stylist info *)
            match StylistRepository.GetByID db (StylistID req) with
            | None => inl (Error http.StatusBadRequest "Invalid stylist")
            | Some stylist =>
                (* Parse booking date *)
                match time.Parse_date (Date req) with
                | None =>
                    inl (Error http.StatusBadRequest "Invalid date format")
                | Some bookingDate =>
                    match end_time (StartTime req) totalDuration with
                    | None => inl Panic
                    | Some endTime =>
                        (* Check stylist availability *)
                        let available :=
                          StylistRepository.IsAvailable
                            db (StylistID req) bookingDate
                            (StartTime req) endTime in
                        if negb available
                        then inl (Error http.StatusConflict
                                    "Stylist is not available at this time")
                        else
                          let customerName :=
                            if String.eqb (CustomerName req) EmptyString
                            then User.Name user else CustomerName req in
                          let customerPhone :=
                            if String.eqb (CustomerPhone req) EmptyString
                            then match User.Phone user with
                                 | Some p => p
                                 | None => CustomerPhone req
                                 end
                            else CustomerPhone req in
                          let customerEmail :=
                            if String.eqb (CustomerEmail req) EmptyString
                            then User.Email user else CustomerEmail req in
                          inr (Booking.mk
                                 0 false userID (StylistID req) services
                                 bookingDate (StartTime req) endTime
                                 totalDuration totalPrice
                                 BookingStatusPending (Notes req)
                                 customerName customerPhone customerEmail)
                    end
                end
            end
        end
    end.

(** [bookingRepo.Create], then the answer with the stored row. *)
Definition CreateBooking_insert (db : Store.t) (booking : Booking.t)
  : Response (option Booking.t) * Store.t :=
  let '(db', row) := BookingRepository.Create db booking in
  (* Fetch complete booking with relations *)
  (JSON http.StatusCreated (BookingRepository.GetByID db' (Booking.ID row)),
   db').

Definition CreateBooking (db : Store.t) (c : Context)
           (req : CreateBookingRequest)
  : Response (option Booking.t) * Store.t :=
  match CreateBooking_check db c req with
  | inl response => (response, db)
  | inr booking => CreateBooking_insert db booking
  end.

Definition validStatuses (status : string) : bool :=
  String.eqb status BookingStatusPending
  || String.eqb status BookingStatusConfirmed
  || String.eqb status BookingStatusCompleted
  || String.eqb status BookingStatusCancelled.

(** [status] is the [status] member of the request body, empty when the
    member is absent. *)
Definition UpdateBookingStatus (db : Store.t) (idParam : string)
           (status : string)
  : Response (option Booking.t) * Store.t :=
  match Go.ParseUint32 idParam with
  | None => (Error http.StatusBadRequest "Invalid booking ID", db)
  | Some id =>
      if String.eqb status EmptyString
      then (Error http.StatusBadRequest binding_error, db)
      else if negb (validStatuses status)
      then (Error http.StatusBadRequest "Invalid status", db)
      else
        let db' := BookingRepository.UpdateStatus db id status in
        (JSON http.StatusOK (BookingRepository.GetByID db' id), db')
  end.

Definition CancelBooking (db : Store.t) (c : Context) (idParam : string)
  : Response (option Booking.t) * Store.t :=
  match Go.ParseUint32 idParam with
  | None => (Error http.StatusBadRequest "Invalid booking ID", db)
  | Some id =>
      match BookingRepository.GetByID db id with
      | None => (Error http.StatusNotFound "Booking not found", db)
      | Some booking =>
          (* Check authorization *)
          let userID := UserID c in
          let role := UserRole c in
          if negb (String.eqb role "admin")
             && negb (Booking.UserID booking =? userID)
          then (Error http.StatusForbidden "Access denied", db)
          else if negb (IsCancellable booking)
          then (Error http.StatusBadRequest "Booking cannot be cancelled", db)
          else
            let db' :=
              BookingRepository.UpdateStatus db id BookingStatusCancelled in
            (JSON http.StatusOK (BookingRepository.GetByID db' id), db')
      end
  end.

End BookingHandler.

Module StylistHandler.

(** [TimeSlot] represents an available time slot. *)
Record TimeSlot : Type := mkTimeSlot { Time : string; Available : bool }.

Section GetAvailableSlots.

(** [GetAvailableSlots] reads a booking's start through
    [booking.BookingTime] and its length through
    [booking.Service.Duration]; the declaration of these two members is
    not among the sources, so the handler takes the two readers as
    parameters. *)
Variable BookingTime : Booking.t -> string.
Variable Service_Duration : Booking.t -> Z.

(** Start and end of a booking as the handler computes them. *)
Definition bookingTime (booking : Booking.t) : time.Time :=
  fst (time.Parse_clock (BookingTime booking)).

Definition bookingEnd (booking : Booking.t) : time.Time :=
  time.Add (bookingTime booking)
           (time.Minutes (Service_Duration booking)).

(** Check if this slot conflicts with existing bookings: the value of
    [available] after the inner loop. *)
Fixpoint slot_available (existingBookings : list Booking.t)
         (currentTime slotEnd : time.Time) : bool :=
  match existingBookings with
  | [] => true
  | booking :: rest =>
      if String.eqb (Booking.Status booking) "cancelled"
      then slot_available rest currentTime slotEnd
      else
        (* Check for overlap *)
        if time.Before currentTime (bookingEnd booking)
           && time.After slotEnd (bookingTime booking)
        then false
        else slot_available rest currentTime slotEnd
  end.

(** Generate time slots (30-minute intervals): the [for] loop, [None]
    when [fuel] iterations did not reach its end. *)
Fixpoint slots_loop (fuel : nat) (existingBookings : list Booking.t)
         (duration : Z) (endTime currentTime : time.Time)
  : option (list TimeSlot) :=
  match fuel with
  | O => None
  | S fuel' =>
      if time.Before currentTime endTime then
        let timeStr := time.Format_clock currentTime in
        (* Check if this slot has enough time for the service *)
        let slotEnd := time.Add currentTime (time.Minutes duration) in
        if time.After slotEnd endTime
        then Some []  (* Not enough time before end of work day *)
        else
          let available :=
            slot_available existingBookings currentTime slotEnd in
          match slots_loop fuel' existingBookings duration endTime
                           (time.Add currentTime (30 * time.Minute)) with
          | Some slots => Some (mkTimeSlot timeStr available :: slots)
          | None => None
          end
      else Some []
  end.

(** More iterations than the loop can make between the two instants. *)
Definition slots_fuel (startTime endTime : time.Time) : nat :=
  S (Z.to_nat ((endTime - startTime) / (30 * time.Minute) + 1)).

(** Find schedule for this day of week. *)
Definition find_daySchedule (schedules : list StylistSchedule.t)
           (dayOfWeek : Z) : option StylistSchedule.t :=
  find (fun s => (StylistSchedule.DayOfWeek s =? dayOfWeek)
                 && StylistSchedule.IsActive s)
       schedules.

(** [bookingRepo] tells whether the handler was built with a booking
    repository ([NewStylistHandlerWithBooking]). *)
Definition GetAvailableSlots (bookingRepo : bool) (db : Store.t)
           (idParam dateStr durationStr : string)
  : Response (list TimeSlot) :=
  match Go.ParseUint32 idParam with
  | None => Error http.StatusBadRequest "Invalid stylist ID"
  | Some stylistID =>
      if String.eqb dateStr EmptyString
      then Error http.StatusBadRequest "Date is required"
      else if String.eqb durationStr EmptyString
      then Error http.StatusBadRequest "Duration is required"
      else
        let '(duration, ok) := Go.Atoi durationStr in
        if negb ok || (duration <=? 0)
        then Error http.StatusBadRequest "Invalid duration"
        else
          (* Parse date *)
          match time.Parse_date dateStr with
          | None =>
              Error http.StatusBadRequest
                    "Invalid date format, use YYYY-MM-DD"
          | Some date =>
              (* Get day of week (0=Sunday, 6=Saturday) *)
              let dayOfWeek := time.Weekday date in
              (* Get stylist's schedule for this day *)
              let schedules :=
                StylistRepository.GetSchedulesByStylistID db stylistID in
              match find_daySchedule schedules dayOfWeek with
              | None =>
                  (* If no schedule for this day, return empty slots *)
                  JSON http.StatusOK []
              | Some daySchedule =>
                  (* Get existing bookings for this stylist on this date *)
                  let existingBookings :=
                    if bookingRepo
                    then BookingRepository.GetByStylistAndDateString
                           db stylistID dateStr
                    else [] in
                  (* Parse schedule times *)
                  let startTime :=
                    fst (time.Parse_clock
                           (StylistSchedule.StartTime daySchedule)) in
                  let endTime :=
                    fst (time.Parse_clock
                           (StylistSchedule.EndTime daySchedule)) in
                  match slots_loop (slots_fuel startTime endTime)
                                   existingBookings duration
                                   endTime startTime with
                  | Some slots => JSON http.StatusOK slots
                  | None => Diverges
                  end
              end
          end
  end.

End GetAvailableSlots.

End StylistHandler.

(* ------------------------------------------------------------------ *)
(** ** Two booking requests served at the same time

    Each request is served by its own goroutine; the database is the only
    thing they share and each statement sent to it is atomic.  Of the
    statements [CreateBooking] sends, only the conflict count of
    [IsAvailable] reads the bookings table and only [Create] writes it, and
    no booking request writes another table: a request is therefore two
    atomic steps, the check (everything up to and including the conflict
    count) and the insert. *)

Module Concurrent.

Import BookingHandler.

Inductive Proc : Type :=
| Start (c : Context) (req : CreateBookingRequest)
| Checked (booking : Booking.t)
| Done (response : Response (option Booking.t)).

Definition proc_step (db : Store.t) (p : Proc) : option (Store.t * Proc) :=
  match p with
  | Start c req =>
      match CreateBooking_check db c req with
      | inl response => Some (db, Done response)
      | inr booking => Some (db, Checked booking)
      end
  | Checked booking =>
      let '(response, db') := CreateBooking_insert db booking in
      Some (db', Done response)
  | Done _ => None
  end.

Record Sys : Type := mkSys { db : Store.t; left : Proc; right : Proc }.

Inductive step : Sys -> Sys -> Prop :=
| step_left db p q db' p' :
    proc_step db p = Some (db', p') ->
    step (mkSys db p q) (mkSys db' p' q)
| step_right db p q db' q' :
    proc_step db q = Some (db', q') ->
    step (mkSys db p q) (mkSys db' p q').

Inductive steps : Sys -> Sys -> Prop :=
| steps_refl s : steps s s
| steps_cons s t u : step s t -> steps t u -> steps s u.

(** The request was answered [201 Created]. *)
Definition created (response : Response (option Booking.t)) : bool :=
  match response with
  | JSON code _ => code =? http.StatusCreated
  | _ => false
  end.

(** The request was answered [409 Conflict]. *)
Definition SlotUnavailable (response : Response (option Booking.t)) : bool :=
  match response with
  | Error code _ => code =? http.StatusConflict
  | _ => false
  end.

(** Half-open overlap of two bookings' stored intervals, in the order of
    the stored strings. *)
Definition overlap (a b : Booking.t) : bool :=
  String.ltb (Booking.StartTime a) (Booking.EndTime b)
  && String.ltb (Booking.StartTime b) (Booking.EndTime a).

End Concurrent.

(* ------------------------------------------------------------------ *)
(** ** A small salon, for examples *)

Module Example_salon.

Definition alice : User.t :=
  User.mk 1 false "Alice" "alice@example.com" (Some "0911") "customer".
Definition bob : User.t :=
  User.mk 2 false "Bob" "bob@example.com" None "customer".
Definition root : User.t :=
  User.mk 3 false "Root" "root@example.com" None "admin".

Definition cut : Service.t := Service.mk 1 false "Cut" 500 30 true.
Definition perm : Service.t := Service.mk 2 false "Perm" 1500 45 true.
Definition spa : Service.t := Service.mk 3 false "Spa" 3000 480 true.
Definition hour_cut : Service.t := Service.mk 4 false "Long cut" 800 60 true.

Definition linda : Stylist.t := Stylist.mk 1 false "Linda" true.

(** 2024-01-01 is a Monday. *)
Definition monday : StylistSchedule.t :=
  StylistSchedule.mk 1 false 1 1 "09:00" "17:00" true.
(** Tuesdays until just before midnight. *)
Definition tuesday : StylistSchedule.t :=
  StylistSchedule.mk 2 false 1 2 "09:00" "23:59" true.

Definition db0 : Store.t :=
  Store.mk [alice; bob; root] [cut; perm; spa; hour_cut] [linda]
           [monday; tuesday] [].

Definition booking_10_11 (status : string) : Booking.t :=
  Booking.mk 1 false 1 1 [BookingServiceItem.mk 4 "Long cut" 800 60]
             (time.mkDate 2024 1 1) "10:00" "11:00" 60 800 status
             EmptyString "Alice" "0911" "alice@example.com".

Definition db1 (status : string) : Store.t :=
  Store.with_bookings [booking_10_11 status] db0.

Definition request (c : Context) (ids : list Z) (date start : string)
  : BookingHandler.CreateBookingRequest :=
  BookingHandler.mkCreateBookingRequest
    ids 1 date start EmptyString EmptyString EmptyString EmptyString.

Definition as_alice : Context := mkContext 1 "customer".
Definition as_bob : Context := mkContext 2 "customer".
Definition as_admin : Context := mkContext 3 "admin".

(** The slot handler, reading a booking's start and length from its
    [StartTime] and [Duration]. *)
Definition slots (db : Store.t) (date duration : string)
  : Response (list StylistHandler.TimeSlot) :=
  StylistHandler.GetAvailableSlots Booking.StartTime Booking.Duration
                                   true db "1" date duration.

End Example_salon.

(* ------------------------------------------------------------------ *)
(** ** Vocabulary of the specification *)

Module Spec.

(** The wall-clock string [HH:MM] of a minute of the day. *)
Definition clock (minute : Z) : string :=
  Go.pad2 (minute / 60) ++ ":" ++ Go.pad2 (minute mod 60).

(** Sum of a list of integers. *)
Definition sum (l : list Z) : Z := fold_right Z.add 0 l.

(** The transition table: the pairs of current and requested status the
    specification allows. *)
Definition allowed_transition (current requested : string) : bool :=
  (String.eqb current "pending" && String.eqb requested "confirmed")
  || (String.eqb current "pending" && String.eqb requested "cancelled")
  || (String.eqb current "confirmed" && String.eqb requested "completed")
  || (String.eqb current "confirmed" && String.eqb requested "cancelled").

(** The snapshot of a catalog service a booking keeps. *)
Definition snapshot (service : Service.t) : BookingServiceItem.t :=
  BookingServiceItem.mk (Service.ID service) (Service.Name service)
                        (Service.Price service) (Service.Duration service).

(** The candidate slot starts of a working window, in minutes of the day:
    the window start and every further multiple of the granularity after it
    whose slot still ends within the window. *)
Definition candidates (windowStart windowEnd duration granularity : Z)
  : list Z :=
  map (fun k => windowStart + granularity * Z.of_nat k)
      (seq 0 (Z.to_nat ((windowEnd - duration - windowStart) / granularity + 1))).

(** Largest number of minutes whose nanosecond count fits an [int64]. *)
Definition max_minutes : Z := 153722867.

End Spec.

(* ------------------------------------------------------------------ *)
(** ** Vocabulary for slots *)

Module Slot.

Section Slot.

Variable BookingTime : Booking.t -> string.
Variable Service_Duration : Booking.t -> Z.

(** The slot the outer loop of [GetAvailableSlots] emits for a candidate
    start. *)
Definition slot_at (existingBookings : list Booking.t) (duration : Z)
           (currentTime : time.Time) : StylistHandler.TimeSlot :=
  StylistHandler.mkTimeSlot
    (time.Format_clock currentTime)
    (StylistHandler.slot_available
       BookingTime Service_Duration existingBookings currentTime
       (time.Add currentTime (time.Minutes duration))).

End Slot.

(** The condition under which the outer loop emits a slot. *)
Definition fits (duration : Z) (endTime currentTime : time.Time) : Prop :=
  currentTime < endTime /\ currentTime + time.Minutes duration <= endTime.

End Slot.

(* ------------------------------------------------------------------ *)
(** ** Vocabulary for booking requests *)

Module Request.

(** A booking request that passes every step of [CreateBooking] before the
    availability check, for the given date and total duration. *)
Definition validated (db : Store.t) (c : Context)
           (req : BookingHandler.CreateBookingRequest)
           (date : time.Date) (totalDuration : Z) : Prop :=
  BookingHandler.bind_CreateBookingRequest req = true
  /\ UserRepository.GetByID db (UserID c) <> None
  /\ (exists services totalPrice,
         BookingHandler.resolve_services
           db (BookingHandler.ServiceIDs req) [] 0 0
         = inr (services, totalDuration, totalPrice))
  /\ StylistRepository.GetByID db (BookingHandler.StylistID req) <> None
  /\ time.Parse_date (BookingHandler.Date req) = Some date.

(** A schedule row that counts for a stylist and weekday. *)
Definition works (stylistID dayOfWeek : Z) (w : StylistSchedule.t)
  : Prop :=
  StylistSchedule.DeletedAt w = false
  /\ StylistSchedule.StylistID w = stylistID
  /\ StylistSchedule.DayOfWeek w = dayOfWeek
  /\ StylistSchedule.IsActive w = true.

(** A booking that blocks the interval from [startTime] to [endTime] for a
    stylist on a date: live, pending or confirmed, and overlapping. *)
Definition blocks (stylistID : Z) (date : time.Date)
           (startTime endTime : string) (b : Booking.t) : Prop :=
  Booking.DeletedAt b = false
  /\ Booking.StylistID b = stylistID
  /\ time.Format_date (Booking.BookingDate b) = time.Format_date date
  /\ (Booking.Status b = "pending" \/ Booking.Status b = "confirmed")
  /\ String.ltb startTime (Booking.EndTime b) = true
  /\ String.ltb (Booking.StartTime b) endTime = true.

(** The stylist cannot take the interval: no working window that weekday,
    an interval that leaves the window, or a blocking booking. *)
Definition unavailable (db : Store.t) (stylistID : Z) (date : time.Date)
           (startTime endTime : string) : Prop :=
  (forall w, In w (Store.schedules db) ->
             ~ works stylistID (time.Weekday date) w)
  \/ (exists w,
         StylistRepository.first_schedule db stylistID (time.Weekday date)
         = Some w
         /\ (String.ltb startTime (StylistSchedule.StartTime w) = true
             \/ String.ltb (StylistSchedule.EndTime w) endTime = true))
  \/ (exists b, In b (Store.bookings db)
                /\ blocks stylistID date startTime endTime b).

(** [a] is listed before [b] when bookings are listed most recent first:
    [a] is on a later date, or on the same date and does not start earlier
    (in the order of the stored strings). *)
Definition listed_before (a b : Booking.t) : Prop :=
  time.daysSinceOrigin (Booking.BookingDate b)
  < time.daysSinceOrigin (Booking.BookingDate a)
  \/ (time.daysSinceOrigin (Booking.BookingDate a)
      = time.daysSinceOrigin (Booking.BookingDate b)
      /\ String.leb (Booking.StartTime b) (Booking.StartTime a) = true).

End Request.

(* ------------------------------------------------------------------ *)
(** ** Configuration (package [config]) *)

Module config.

(** [getEnv]: the value of the variable, the default when it is unset or
    empty.  [env] is [os.Getenv]. *)
Definition getEnv (env : string -> string) (key defaultValue : string)
  : string :=
  if String.eqb (env key) EmptyString then defaultValue else env key.

(** [parseCSV], from position [i] on; [field] is [s[i:j]], the bytes of the
    current field that the inner loop has passed, and the argument is
    [s[j:]]. *)
Fixpoint parseCSV_from (field : string) (rest : string) : list string :=
  match rest with
  | EmptyString =>
      if String.eqb field EmptyString then [] else [field]
  | String c rest' =>
      if Ascii.eqb c ","
      then (if String.eqb field EmptyString
            then parseCSV_from EmptyString rest'
            else field :: parseCSV_from EmptyString rest')
      else parseCSV_from (field ++ String c EmptyString) rest'
  end.

Definition parseCSV (s : string) : list string :=
  parseCSV_from EmptyString s.

(** No comma among the bytes of a string. *)
Fixpoint comma_free (s : string) : Prop :=
  match s with
  | EmptyString => True
  | String c rest => c <> ","%char /\ comma_free rest
  end.

Record CORSConfig : Type := mkCORSConfig { AllowedOrigins : list string }.

(** The part of [Load] that fills [CORS.AllowedOrigins]. *)
Definition Load_CORS (env : string -> string) : CORSConfig :=
  let originsStr :=
    getEnv env "ALLOWED_ORIGINS"
           "http://localhost:3000,http://localhost:3001" in
  mkCORSConfig (parseCSV originsStr).

End config.

(* ------------------------------------------------------------------ *)
(** ** Middleware (package [middleware]) *)

Module middleware.

(** What the CORS middleware does to a request: the response headers it
    sets, in order, and whether the request goes on to the next handler
    ([None]) or is aborted with a status. *)
Record Outcome : Type := mkOutcome
  { headers : list (string * string);
    aborted : option Z }.

(** Check if origin is allowed: the loop over [cfg.AllowedOrigins]. *)
Fixpoint origin_allowed (origin : string) (allowedOrigins : list string)
  : bool :=
  match allowedOrigins with
  | [] => false
  | allowedOrigin :: rest =>
      if String.eqb origin allowedOrigin || String.eqb allowedOrigin "*"
      then true
      else origin_allowed origin rest
  end.

(** [CORS(cfg)]; [origin] is the request's [Origin] header (empty when
    absent) and [method] its method. *)
Definition CORS (cfg : config.CORSConfig) (origin method : string)
  : Outcome :=
  let allowed := origin_allowed origin (config.AllowedOrigins cfg) in
  let headers :=
    if allowed
    then [("Access-Control-Allow-Origin", origin);
          ("Access-Control-Allow-Credentials", "true");
          ("Access-Control-Allow-Headers",
           "Content-Type, Authorization, X-Requested-With");
          ("Access-Control-Allow-Methods",
           "GET, POST, PUT, PATCH, DELETE, OPTIONS");
          ("Access-Control-Max-Age", "86400")]
    else [] in
  if String.eqb method "OPTIONS"
  then mkOutcome headers (Some 204)
  else mkOutcome headers None.

(** The value of a response header, if set. *)
Definition header (name : string) (o : Outcome) : option string :=
  option_map snd (find (fun h => String.eqb (fst h) name) (headers o)).

End middleware.

(* ------------------------------------------------------------------ *)
(** ** Settings (model [Settings] and its repository) *)

Module Settings.
Record t : Type := mk
  { ID : Z;
    Key : string;
    Value : string;
    Category : string }.

Definition with_ID (id : Z) (s : t) : t := mk id (Key s) (Value s) (Category s).
End Settings.

(** The repository works on the settings table; the table has a primary
    key on [ID] and a unique index on [Key]. *)
Module SettingsRepository.

(** [Get]: the row of that key, or the error of [First] ([None]). *)
Definition Get (table : list Settings.t) (key : string) : option Settings.t :=
  gorm.First Settings.ID
    (filter (fun r => String.eqb (Settings.Key r) key) table).

Definition GetAll (table : list Settings.t) : list Settings.t := table.

Definition GetByCategory (table : list Settings.t) (category : string)
  : list Settings.t :=
  filter (fun r => String.eqb (Settings.Category r) category) table.

(** [db.Create]: a zero key is replaced by the next value of the sequence;
    a key or a setting key that is already there violates a constraint
    ([false], nothing inserted). *)
Definition Create (table : list Settings.t) (settings : Settings.t)
  : list Settings.t * bool :=
  let row :=
    if Settings.ID settings =? 0
    then Settings.with_ID (gorm.nextID Settings.ID table) settings
    else settings in
  if existsb (fun r => (Settings.ID r =? Settings.ID row)
                       || String.eqb (Settings.Key r) (Settings.Key row))
             table
  then (table, false)
  else ((table ++ [row])%list, true).

(** [db.Save] of a row whose key is set and present: every column of that
    row is overwritten; a setting key that another row holds violates the
    unique index. *)
Definition Save (table : list Settings.t) (settings : Settings.t)
  : list Settings.t * bool :=
  if existsb (fun r => negb (Settings.ID r =? Settings.ID settings)
                       && String.eqb (Settings.Key r) (Settings.Key settings))
             table
  then (table, false)
  else (map (fun r => if Settings.ID r =? Settings.ID settings
                      then settings else r)
            table, true).

(** [Upsert]: create the setting, or update the one of that key. *)
Definition Upsert (table : list Settings.t) (settings : Settings.t)
  : list Settings.t * bool :=
  match Get table (Settings.Key settings) with
  | None => Create table settings
  | Some existing =>
      Save table (Settings.with_ID (Settings.ID existing) settings)
  end.

(** [Delete]: the rows of that key are removed. *)
Definition Delete (table : list Settings.t) (key : string)
  : list Settings.t :=
  filter (fun r => negb (String.eqb (Settings.Key r) key)) table.

(** The constraints of the table. *)
Definition constraints (table : list Settings.t) : Prop :=
  NoDup (map Settings.ID table) /\ NoDup (map Settings.Key table).

End SettingsRepository.

(* ------------------------------------------------------------------ *)
(** ** Statistics queries of the booking repository and the revenue report *)

Module BookingStatistics.

(** [booking_date BETWEEN ? AND ?], both bounds being dates (midnight). *)
Definition between (startDate endDate : time.Date) (b : Booking.t) : bool :=
  gorm.date_leb startDate (Booking.BookingDate b)
  && gorm.date_leb (Booking.BookingDate b) endDate.

Definition CountByDateRange (db : Store.t) (startDate endDate : time.Date)
           (status : string) : Z :=
  Z.of_nat
    (List.length
       (filter (fun b =>
                  negb (Booking.DeletedAt b)
                  && between startDate endDate b
                  && (if String.eqb status EmptyString then true
                      else String.eqb (Booking.Status b) status))
               (Store.bookings db))).

(** The rows both revenue queries aggregate: live, in the range,
    completed. *)
Definition completed (db : Store.t) (startDate endDate : time.Date)
  : list Booking.t :=
  filter (fun b =>
            negb (Booking.DeletedAt b)
            && between startDate endDate b
            && String.eqb (Booking.Status b) BookingStatusCompleted)
         (Store.bookings db).

(** [GetRevenueByDateRange]: [COALESCE(SUM(price), 0)], scanned into an
    [int]; a sum outside the range of [int] is a scan error ([None]). *)
Definition GetRevenueByDateRange (db : Store.t)
           (startDate endDate : time.Date) : option Z :=
  let total :=
    fold_right Z.add 0 (map Booking.Price (completed db startDate endDate)) in
  if (Go.MinInt64 <=? total) && (total <=? Go.MaxInt64)
  then Some total else None.

(** A row of [GetRevenueByDay]: [date], [bookings], [revenue]. *)
Record DayRevenue : Type := mkDayRevenue
  { date : time.Date; bookings : Z; revenue : Z }.

(** The distinct values of a list of dates. *)
Fixpoint distinct (dates : list time.Date) : list time.Date :=
  match dates with
  | [] => []
  | d :: rest =>
      if existsb (time.Date_eqb d) rest then distinct rest
      else d :: distinct rest
  end.

(** [GetRevenueByDay]: [GROUP BY booking_date], [ORDER BY booking_date
    ASC]. *)
Definition GetRevenueByDay (db : Store.t) (startDate endDate : time.Date)
  : list DayRevenue :=
  let rows := completed db startDate endDate in
  map (fun d =>
         let group :=
           filter (fun b => time.Date_eqb (Booking.BookingDate b) d) rows in
         mkDayRevenue d (Z.of_nat (List.length group))
                      (fold_right Z.add 0 (map Booking.Price group)))
      (gorm.Order gorm.date_leb (distinct (map Booking.BookingDate rows))).

End BookingStatistics.

Module StatisticsHandler.

Record RevenueReport : Type := mkRevenueReport
  { start_date : string;
    end_date : string;
    total_revenue : Z;
    booking_count : Z;
    revenue_by_day : list BookingStatistics.DayRevenue }.

Definition GetRevenueReport (db : Store.t) (startDateStr endDateStr : string)
  : Response RevenueReport :=
  if String.eqb startDateStr EmptyString || String.eqb endDateStr EmptyString
  then Error http.StatusBadRequest "start_date and end_date are required"
  else
    match time.Parse_date startDateStr with
    | None => Error http.StatusBadRequest "Invalid start_date format"
    | Some startDate =>
        match time.Parse_date endDateStr with
        | None => Error http.StatusBadRequest "Invalid end_date format"
        | Some endDate =>
            (* Total revenue *)
            match BookingStatistics.GetRevenueByDateRange
                    db startDate endDate with
            | None =>
                Error http.StatusInternalServerError
                      "Failed to fetch total revenue"
            | Some totalRevenue =>
                (* Revenue by day *)
                let revenueByDay :=
                  BookingStatistics.GetRevenueByDay db startDate endDate in
                (* Booking count *)
                let bookingCount :=
                  BookingStatistics.CountByDateRange
                    db startDate endDate EmptyString in
                JSON http.StatusOK
                     (mkRevenueReport startDateStr endDateStr totalRevenue
                                      bookingCount revenueByDay)
            end
        end
    end.

End StatisticsHandler.

(** A store with completed, pending and cancelled bookings, for the
    revenue examples. *)
Module Example_reports.

Definition booking (id : Z) (date : time.Date) (start finish : string)
           (price : Z) (status : string) : Booking.t :=
  Booking.mk id false 1 1 [BookingServiceItem.mk 1 "Cut" price 30]
             date start finish 30 price status EmptyString
             "Alice" "0911" "alice@example.com".

Definition db : Store.t :=
  Store.with_bookings
    [booking 1 (time.mkDate 2024 1 2) "10:00" "10:30" 500 "completed";
     booking 2 (time.mkDate 2024 1 1) "11:00" "11:30" 700 "completed";
     booking 3 (time.mkDate 2024 1 2) "12:00" "12:30" 300 "completed";
     booking 4 (time.mkDate 2024 1 3) "09:00" "09:30" 900 "pending";
     booking 5 (time.mkDate 2024 1 3) "15:00" "15:30" 400 "cancelled"]
    Example_salon.db0.

End Example_reports.

(* ------------------------------------------------------------------ *)
(** ** Stylist schedules (package [handler], [StylistHandler]) *)

Module ScheduleHandler.

Record CreateScheduleRequest : Type := mkCreateScheduleRequest
  { DayOfWeek : Z; StartTime : string; EndTime : string }.

(** The [binding] tags of [CreateScheduleRequest]: [required] refuses the
    zero value of the member's type, [min=0,max=6] bound the number. *)
Definition bind_CreateScheduleRequest (req : CreateScheduleRequest) : bool :=
  negb (DayOfWeek req =? 0)
  && (0 <=? DayOfWeek req) && (DayOfWeek req <=? 6)
  && negb (String.eqb (StartTime req) EmptyString)
  && negb (String.eqb (EndTime req) EmptyString).

Definition with_schedules (ws : list StylistSchedule.t) (db : Store.t)
  : Store.t :=
  Store.mk (Store.users db) (Store.services db) (Store.stylists db) ws
           (Store.bookings db).

Definition with_ID (id : Z) (w : StylistSchedule.t) : StylistSchedule.t :=
  StylistSchedule.mk id (StylistSchedule.DeletedAt w)
                     (StylistSchedule.StylistID w)
                     (StylistSchedule.DayOfWeek w)
                     (StylistSchedule.StartTime w)
                     (StylistSchedule.EndTime w)
                     (StylistSchedule.IsActive w).

Section CreateSchedule.

(** Whether the database takes the row: its foreign key to the stylists
    and the width of its columns are the database's to check. *)
Variable accepts : Store.t -> StylistSchedule.t -> bool.

(** [StylistRepository.CreateSchedule]: the row gets the next primary key
    and is appended; [None] is the error of a refused row. *)
Definition Create (db : Store.t) (schedule : StylistSchedule.t)
  : option (Store.t * StylistSchedule.t) :=
  if accepts db schedule
  then
    let row :=
      with_ID (gorm.nextID StylistSchedule.ID (Store.schedules db))
              schedule in
    Some (with_schedules (Store.schedules db ++ [row]) db, row)
  else None.

Definition CreateSchedule (db : Store.t) (idParam : string)
           (req : CreateScheduleRequest)
  : Response StylistSchedule.t * Store.t :=
  match Go.ParseUint32 idParam with
  | None => (Error http.StatusBadRequest "Invalid stylist ID", db)
  | Some id =>
      if negb (bind_CreateScheduleRequest req)
      then (Error http.StatusBadRequest binding_error, db)
      else
        let schedule :=
          StylistSchedule.mk 0 false id (DayOfWeek req) (StartTime req)
                             (EndTime req) true in
        match Create db schedule with
        | None =>
            (Error http.StatusInternalServerError
                   "Failed to create schedule", db)
        | Some (db', row) => (JSON http.StatusCreated row, db')
        end
  end.

End CreateSchedule.

Definition GetSchedules (db : Store.t) (idParam : string)
  : Response (list StylistSchedule.t) :=
  match Go.ParseUint32 idParam with
  | None => Error http.StatusBadRequest "Invalid stylist ID"
  | Some id =>
      JSON http.StatusOK (StylistRepository.GetSchedulesByStylistID db id)
  end.

(** No schedule row is for a Sunday. *)
Definition no_sunday (db : Store.t) : Prop :=
  forall w, In w (Store.schedules db) -> StylistSchedule.DayOfWeek w <> 0.

End ScheduleHandler.

(* ------------------------------------------------------------------ *)
(** ** Versioned migrations (package [database]) *)

Module database.

(** [Migration] represents a database migration record. *)
Record Migration : Type := mkMigration
  { ID : Z; Version : string; Name : string; AppliedAt : time.Time }.

Section RunMigrations.

(** What the migration functions change. *)
Variable Schema : Type.

(** An element of [migrationList]; [fn] answers [None] for an error. *)
Record entry : Type := mkEntry
  { version : string; name : string; fn : Schema -> option Schema }.

Variable migrationList : list entry.

Record DB : Type := mkDB { schema : Schema; migrations : list Migration }.

(** [time.Now().UTC()] when a record is made. *)
Variable now : DB -> time.Time.

Definition applied (table : list Migration) (v : string) : bool :=
  existsb (fun m => String.eqb (Version m) v) table.

(** [tx.Create(&record)]: the unique index on [version] refuses a second
    record of a version. *)
Definition Create (table : list Migration) (record : Migration)
  : option (list Migration) :=
  if applied table (Version record) then None
  else Some (table ++ [mkMigration (gorm.nextID ID table) (Version record)
                                   (Name record) (AppliedAt record)])%list.

(** Run migration in transaction: execute it and record it as applied, or
    leave the database as it was. *)
Definition Transaction (db : DB) (migration : entry) : option DB :=
  match fn migration (schema db) with
  | None => None
  | Some schema' =>
      let record :=
        mkMigration 0 (version migration) (name migration) (now db) in
      match Create (migrations db) record with
      | None => None
      | Some table' => Some (mkDB schema' table')
      end
  end.

(** Run pending migrations: the loop over [migrationList], which stops at
    the first failure and answers its version. *)
Fixpoint run_pending (appliedMap : string -> bool) (list : list entry)
         (db : DB) : DB * option string :=
  match list with
  | [] => (db, None)
  | migration :: rest =>
      if appliedMap (version migration)
      then run_pending appliedMap rest db
      else
        match Transaction db migration with
        | None => (db, Some (version migration))
        | Some db' => run_pending appliedMap rest db'
        end
  end.

Definition RunMigrations (db : DB) : DB * option string :=
  (* Get list of applied migrations *)
  let appliedMigrations := migrations db in
  let appliedMap := applied appliedMigrations in
  run_pending appliedMap migrationList db.

End RunMigrations.

Arguments version {Schema} _.
Arguments name {Schema} _.
Arguments fn {Schema} _ _.
Arguments schema {Schema} _.
Arguments migrations {Schema} _.

(** The [is_nullable] answers of the information schema for three columns
    of [users]; empty when the column is not there. *)
Record Users : Type := mkUsers
  { phone : string; google_id : string; line_id : string }.

(** [V1MakeUserFieldsNullable] makes phone, google_id, and line_id
    nullable. *)
Definition V1MakeUserFieldsNullable (tx : Users) : option Users :=
  let drop (isNullable : string) :=
    if String.eqb isNullable "NO" then "YES" else isNullable in
  Some (mkUsers (drop (phone tx)) (drop (google_id tx)) (drop (line_id tx))).

Definition migrationList : list (entry Users) :=
  [mkEntry Users "v1" "make_user_fields_nullable" V1MakeUserFieldsNullable].

End database.

(* ================================================================== *)
(** * Properties *)

Example Atoi_ex1 : Go.Atoi "09" = (9, true). Proof. reflexivity. Qed.
Example Atoi_ex2 : Go.Atoi "9:" = (0, false). Proof. reflexivity. Qed.
Example Atoi_ex3 : Go.Atoi "-5" = (-5, true). Proof. reflexivity. Qed.
Example itoa_ex : Go.itoa 1205 = "1205". Proof. reflexivity. Qed.
Example slice_ex : Go.slice "9:00" 3 5 = None. Proof. reflexivity. Qed.
Example Parse_clock_ex1 : time.Parse_clock "09:30" = (9 * time.Hour + 30 * time.Minute, true).
Proof. reflexivity. Qed.
Example Parse_clock_ex2 : time.Parse_clock "9:30" = (9 * time.Hour + 30 * time.Minute, true).
Proof. reflexivity. Qed.
Example Parse_clock_ex3 : time.Parse_clock "24:00" = (time.zero, false).
Proof. reflexivity. Qed.
Example Format_clock_ex : time.Format_clock (time.Date_clock 24 15) = "00:15".
Proof. reflexivity. Qed.
Example Weekday_ex1 : option_map time.Weekday (time.Parse_date "2024-01-01") = Some 1.
Proof. reflexivity. Qed.
Example Weekday_ex2 : option_map time.Weekday (time.Parse_date "2025-10-31") = Some 5.
Proof. reflexivity. Qed.
Example Weekday_ex3 : option_map time.Weekday (time.Parse_date "2000-02-29") = Some 2.
Proof. reflexivity. Qed.
Example Weekday_ex4 : option_map time.Weekday (time.Parse_date "1970-01-01") = Some 4.
Proof. reflexivity. Qed.
Example Parse_date_ex : time.Parse_date "2023-02-29" = None.
Proof. reflexivity. Qed.
Example Format_date_ex : option_map time.Format_date (time.Parse_date "2024-03-09") = Some "2024-03-09".
Proof. reflexivity. Qed.

(* ------------------------------------------------------------------ *)
(** ** Query-builder facts *)

Section Gorm_facts.

Context {A : Type}.

Lemma least_None (key : A -> Z) (rows : list A) :
  gorm.least key rows = None <-> rows = [].
Proof.
  destruct rows as [|x rest]; simpl; [tauto|].
  destruct (gorm.least key rest) as [y|]; [destruct (key y <? key x)|];
    split; intro H; discriminate H.
Qed.

Lemma least_In (key : A -> Z) (rows : list A) (x : A) :
  gorm.least key rows = Some x -> In x rows.
Proof.
  revert x; induction rows as [|y rest IH]; simpl; intros x H; [discriminate|].
  destruct (gorm.least key rest) as [z|].
  - destruct (key z <? key y); inversion H; subst; auto.
  - inversion H; auto.
Qed.

Lemma least_map (key : A -> Z) (f : A -> A) (rows : list A) :
  (forall x, key (f x) = key x) ->
  gorm.least key (map f rows) = option_map f (gorm.least key rows).
Proof.
  intros Hkey; induction rows as [|x rest IH]; simpl; [reflexivity|].
  rewrite IH. destruct (gorm.least key rest) as [y|]; simpl; [|reflexivity].
  rewrite !Hkey. destruct (key y <? key x); reflexivity.
Qed.

Lemma insert_by_In (le : A -> A -> bool) (x y : A) (rows : list A) :
  In y (gorm.insert_by le x rows) <-> y = x \/ In y rows.
Proof.
  induction rows as [|z rest IH]; simpl.
  - intuition congruence.
  - destruct (le x z); simpl; [intuition congruence|].
    rewrite IH. intuition congruence.
Qed.

Lemma Order_In (le : A -> A -> bool) (rows : list A) (y : A) :
  In y (gorm.Order le rows) <-> In y rows.
Proof.
  unfold gorm.Order. induction rows as [|x rest IH]; simpl; [tauto|].
  rewrite insert_by_In, IH. intuition congruence.
Qed.

Lemma Limit_In (n : Z) (rows : list A) (y : A) :
  In y (gorm.Limit n rows) -> In y rows.
Proof.
  unfold gorm.Limit. destruct (n <? 0); [tauto|].
  revert rows; induction (Z.to_nat n) as [|k IH]; intros [|x rest]; simpl;
    try tauto.
  intros [H|H]; [left; exact H | right; apply IH; exact H].
Qed.

Lemma Offset_In (n : Z) (rows : list A) (y : A) :
  In y (gorm.Offset n rows) -> In y rows.
Proof.
  unfold gorm.Offset. destruct (0 <? n); [|tauto].
  revert rows; induction (Z.to_nat n) as [|k IH]; intros [|x rest]; simpl;
    try tauto.
  intro H; right; apply IH; exact H.
Qed.

End Gorm_facts.

(* ------------------------------------------------------------------ *)
(** ** Status updates *)

Section Status_updates.

Import BookingHandler.

Lemma Store_with_own_bookings (db : Store.t) :
  Store.with_bookings (Store.bookings db) db = db.
Proof. destruct db; reflexivity. Qed.

Lemma valid_status_not_empty (status : string) :
  validStatuses status = true -> String.eqb status EmptyString = false.
Proof.
  intro H. destruct (String.eqb_spec status EmptyString) as [E|]; [|reflexivity].
  subst status. discriminate H.
Qed.

(** Without a live row of that key, [UpdateStatus] changes nothing. *)
Lemma UpdateStatus_absent (db : Store.t) (id : Z) (status : string) :
  (forall b, In b (Store.bookings db) ->
             Booking.ID b = id -> Booking.DeletedAt b = true) ->
  BookingRepository.UpdateStatus db id status = db.
Proof.
  intro Habsent. unfold BookingRepository.UpdateStatus.
  rewrite <- (Store_with_own_bookings db) at 3. f_equal.
  transitivity (map (fun b : Booking.t => b) (Store.bookings db));
    [|apply map_id].
  apply map_ext_in. intros b Hin.
  destruct (Booking.DeletedAt b) eqn:Hdel; [reflexivity|].
  destruct (Z.eqb_spec (Booking.ID b) id) as [E|]; [|reflexivity].
  rewrite (Habsent b Hin E) in Hdel. discriminate Hdel.
Qed.

Lemma GetByID_absent (db : Store.t) (id : Z) :
  (forall b, In b (Store.bookings db) ->
             Booking.ID b = id -> Booking.DeletedAt b = true) ->
  BookingRepository.GetByID db id = None.
Proof.
  intro Habsent. unfold BookingRepository.GetByID, gorm.First.
  apply least_None.
  induction (Store.bookings db) as [|b rest IH]; [reflexivity|].
  simpl. destruct (Booking.DeletedAt b) eqn:Hdel; simpl.
  - apply IH. intros; apply Habsent; simpl; auto.
  - destruct (Z.eqb_spec (Booking.ID b) id) as [E|].
    + rewrite (Habsent b (or_introl eq_refl) E) in Hdel. discriminate Hdel.
    + apply IH. intros; apply Habsent; simpl; auto.
Qed.

(** Reading back a row after [UpdateStatus]: the row that was there, with
    the new status. *)
Lemma GetByID_UpdateStatus (db : Store.t) (id : Z) (status : string) :
  BookingRepository.GetByID (BookingRepository.UpdateStatus db id status) id
  = option_map (Booking.with_Status status)
               (BookingRepository.GetByID db id).
Proof.
  unfold BookingRepository.GetByID, BookingRepository.UpdateStatus,
    gorm.First. simpl.
  rewrite <- least_map by reflexivity. f_equal.
  induction (Store.bookings db) as [|b rest IH]; [reflexivity|].
  simpl.
  destruct (negb (Booking.DeletedAt b) && (Booking.ID b =? id)) eqn:Hb.
  - simpl. rewrite Hb. simpl. rewrite IH. reflexivity.
  - rewrite Hb. exact IH.
Qed.

End Status_updates.

(** C10.  Updating the status of a reservation ID with no live row reports
    success: for every valid status the handler answers 200 (with an empty
    body, since the row cannot be read back) and the store is unchanged. *)
Theorem UpdateBookingStatus_absent_id_succeeds :
  forall (db : Store.t) (idParam : string) (id : Z) (status : string),
    Go.ParseUint32 idParam = Some id ->
    (forall b, In b (Store.bookings db) ->
               Booking.ID b = id -> Booking.DeletedAt b = true) ->
    BookingHandler.validStatuses status = true ->
    BookingHandler.UpdateBookingStatus db idParam status
    = (JSON http.StatusOK None, db).
Proof.
  intros db idParam id status Hid Habsent Hvalid.
  unfold BookingHandler.UpdateBookingStatus.
  rewrite Hid, (valid_status_not_empty _ Hvalid), Hvalid. simpl.
  rewrite (UpdateStatus_absent _ _ _ Habsent), (GetByID_absent _ _ Habsent).
  reflexivity.
Qed.

Lemma UpdateBookingStatus_absent_id_succeeds_witness :
  BookingHandler.UpdateBookingStatus
    (Example_salon.db1 "pending") "7" "confirmed"
  = (JSON http.StatusOK None, Example_salon.db1 "pending").
Proof.
  apply (UpdateBookingStatus_absent_id_succeeds
           (Example_salon.db1 "pending") "7" 7 "confirmed").
  - reflexivity.
  - simpl. intros b [Hb|[]] Hid. subst b. discriminate Hid.
  - reflexivity.
Defined.

(** C2, as stated, fails: the pair completed -> pending is outside the
    allowed set, yet the update of a completed reservation to pending is
    answered 200 and the stored status becomes pending. *)
Lemma UpdateBookingStatus_ignores_transition_table :
  Spec.allowed_transition "completed" "pending" = false
  /\ BookingHandler.UpdateBookingStatus
       (Example_salon.db1 "completed") "1" "pending"
     = (JSON http.StatusOK (Some (Example_salon.booking_10_11 "pending")),
        Example_salon.db1 "pending").
Proof. split; reflexivity. Qed.

(** C2, amended.  The status update does not look at the current status:
    for a live reservation and a requested status among pending, confirmed,
    completed and cancelled it answers 200 and the stored status becomes the
    requested one; a requested status outside these four is answered 400
    and the store is unchanged. *)
Theorem UpdateBookingStatus_any_valid_status :
  forall (db : Store.t) (idParam : string) (id : Z) (booking : Booking.t)
         (status : string),
    Go.ParseUint32 idParam = Some id ->
    BookingRepository.GetByID db id = Some booking ->
    (BookingHandler.validStatuses status = true ->
     BookingHandler.UpdateBookingStatus db idParam status
     = (JSON http.StatusOK (Some (Booking.with_Status status booking)),
        BookingRepository.UpdateStatus db id status)
     /\ BookingRepository.GetByID
          (BookingRepository.UpdateStatus db id status) id
        = Some (Booking.with_Status status booking))
    /\ (BookingHandler.validStatuses status = false ->
        exists msg,
          BookingHandler.UpdateBookingStatus db idParam status
          = (Error http.StatusBadRequest msg, db)).
Proof.
  intros db idParam id booking status Hid Hget.
  unfold BookingHandler.UpdateBookingStatus. rewrite Hid.
  split; intro Hvalid.
  - rewrite (valid_status_not_empty _ Hvalid), Hvalid. simpl.
    rewrite GetByID_UpdateStatus, Hget. split; reflexivity.
  - rewrite Hvalid. simpl.
    destruct (String.eqb status EmptyString); eexists; reflexivity.
Qed.

Lemma UpdateBookingStatus_any_valid_status_witness :
  (BookingHandler.UpdateBookingStatus
     (Example_salon.db1 "cancelled") "1" "confirmed"
   = (JSON http.StatusOK
           (Some (Booking.with_Status "confirmed"
                    (Example_salon.booking_10_11 "cancelled"))),
      BookingRepository.UpdateStatus
        (Example_salon.db1 "cancelled") 1 "confirmed")
   /\ BookingRepository.GetByID
        (BookingRepository.UpdateStatus
           (Example_salon.db1 "cancelled") 1 "confirmed") 1
      = Some (Booking.with_Status "confirmed"
                (Example_salon.booking_10_11 "cancelled")))
  /\ (exists msg,
        BookingHandler.UpdateBookingStatus
          (Example_salon.db1 "cancelled") "1" "done"
        = (Error http.StatusBadRequest msg, Example_salon.db1 "cancelled")).
Proof.
  split.
  - apply (UpdateBookingStatus_any_valid_status
             (Example_salon.db1 "cancelled") "1" 1
             (Example_salon.booking_10_11 "cancelled") "confirmed");
      reflexivity.
  - apply (UpdateBookingStatus_any_valid_status
             (Example_salon.db1 "cancelled") "1" 1
             (Example_salon.booking_10_11 "cancelled") "done");
      reflexivity.
Defined.

(* ------------------------------------------------------------------ *)
(** ** Who may see and cancel a booking *)



(* ------------------------------------------------------------------ *)
(** ** Integers, strings and clock times *)

Lemma wrap64_small (z : Z) : Go.in_int64 z -> Go.wrap64 z = z.
Proof.
unfold Go.in_int64, Go.MinInt64, Go.MaxInt64, Go.wrap64. intros [Hlo Hhi].
rewrite Z.mod_small; lia.
Qed.

Lemma wrap64_add_l (a b : Z) : Go.wrap64 (Go.wrap64 a + b) = Go.wrap64 (a + b).
Proof.
unfold Go.wrap64.
replace ((a + 2 ^ 63) mod 2 ^ 64 - 2 ^ 63 + b + 2 ^ 63)
  with ((a + 2 ^ 63) mod 2 ^ 64 + b) by ring.
rewrite Zplus_mod_idemp_l. f_equal. f_equal. ring.
Qed.

Lemma ltb_negb_leb (a b : string) : String.ltb a b = negb (String.leb b a).
Proof.
unfold String.ltb, String.leb. rewrite (String.compare_antisym a b).
destruct (String.compare b a); reflexivity.
Qed.

(** A property checked on 0, 1, ..., n-1 holds below n. *)
Lemma below_forallb (P : Z -> bool) (n : nat) :
  forallb P (map Z.of_nat (seq 0 n)) = true ->
  forall z, 0 <= z < Z.of_nat n -> P z = true.
Proof.
intros Hall z Hz. rewrite forallb_forall in Hall. apply Hall.
rewrite <- (Z2Nat.id z) by lia. apply in_map, in_seq. lia.
Qed.

Lemma Atoi_pad2 (n : Z) : 0 <= n < 100 -> Go.Atoi (Go.pad2 n) = (n, true).
Proof.
intro Hn.
pose (P := fun z => match Go.Atoi (Go.pad2 z) with
                    | (v, ok) => (v =? z) && ok
                    end).
assert (HP : P n = true)
  by (apply (below_forallb P 100); [vm_compute; reflexivity | exact Hn]).
unfold P in HP. destruct (Go.Atoi (Go.pad2 n)) as [v ok].
apply andb_prop in HP. destruct HP as [Hv Hok].
apply Z.eqb_eq in Hv. subst. reflexivity.
Qed.

(* ------------------------------------------------------------------ *)
(** ** Which reservations occupy a stylist's time *)

Lemma fetched_In (db : Store.t) (stylistID : Z) (dateStr : string)
      (b : Booking.t) :
  In b (BookingRepository.GetByStylistAndDateString db stylistID dateStr)
  <-> In b (Store.bookings db)
      /\ Booking.DeletedAt b = false
      /\ Booking.StylistID b = stylistID
      /\ time.Format_date (Booking.BookingDate b) = dateStr
      /\ (Booking.Status b = "pending" \/ Booking.Status b = "confirmed").
Proof.
unfold BookingRepository.GetByStylistAndDateString.
rewrite Order_In, filter_In, !andb_true_iff, orb_true_iff, negb_true_iff.
unfold gorm.date_is, BookingStatusPending, BookingStatusConfirmed.
rewrite Z.eqb_eq, !String.eqb_eq. tauto.
Qed.

Lemma conflicting_In (db : Store.t) (stylistID : Z) (date : time.Date)
      (startTime endTime : string) (b : Booking.t) :
  In b (StylistRepository.conflicting db stylistID date startTime endTime)
  <-> In b (Store.bookings db)
      /\ Request.blocks stylistID date startTime endTime b.
Proof.
unfold StylistRepository.conflicting, Request.blocks.
rewrite filter_In, !andb_true_iff, orb_true_iff, !negb_true_iff,
  orb_false_iff, !ltb_negb_leb, !negb_true_iff.
unfold gorm.date_is. rewrite Z.eqb_eq, !String.eqb_eq. tauto.
Qed.



(* ------------------------------------------------------------------ *)
(** ** What a created booking holds *)

Lemma sum_app (l r : list Z) :
  Spec.sum (l ++ r)%list = Spec.sum l + Spec.sum r.
Proof.
unfold Spec.sum. induction l as [|x l IH]; simpl; [reflexivity|].
rewrite IH. ring.
Qed.

Lemma filter_none {A : Type} (p : A -> bool) (l : list A) :
  (forall x, In x l -> p x = false) -> filter p l = [].
Proof.
induction l as [|x l IH]; simpl; intro H; [reflexivity|].
rewrite (H x (or_introl eq_refl)). apply IH. intros; apply H; auto.
Qed.

Lemma nextID_above {A : Type} (id : A -> Z) (rows : list A) (r : A) :
  In r rows -> id r < gorm.nextID id rows.
Proof.
unfold gorm.nextID. induction rows as [|x rows IH]; cbn [fold_right In];
  [tauto|].
intros [E|Hin]; [subst; lia|]. specialize (IH Hin). lia.
Qed.

(** The row [Create] stores is the one read back by its key. *)
Lemma GetByID_Create (db : Store.t) (booking : Booking.t) :
  Booking.DeletedAt booking = false ->
  BookingRepository.GetByID (fst (BookingRepository.Create db booking))
                            (Booking.ID (snd (BookingRepository.Create db booking)))
  = Some (snd (BookingRepository.Create db booking)).
Proof.
intro Hlive. unfold BookingRepository.GetByID, BookingRepository.Create,
  gorm.First. simpl.
rewrite filter_app. rewrite filter_none.
- simpl. rewrite Hlive, Z.eqb_refl. reflexivity.
- intros b Hin. apply (nextID_above Booking.ID) in Hin.
  destruct (Z.eqb_spec (Booking.ID b)
              (gorm.nextID Booking.ID (Store.bookings db))); [lia|].
  apply andb_false_r.
Qed.

Lemma resolve_services_totals (db : Store.t) (serviceIDs : list Z) :
  forall acc d p services totalDuration totalPrice,
    BookingHandler.resolve_services db serviceIDs acc d p
    = inr (services, totalDuration, totalPrice) ->
    d = Go.wrap64 (Spec.sum (map BookingServiceItem.Duration acc)) ->
    p = Go.wrap64 (Spec.sum (map BookingServiceItem.Price acc)) ->
    totalDuration
    = Go.wrap64 (Spec.sum (map BookingServiceItem.Duration services))
    /\ totalPrice
       = Go.wrap64 (Spec.sum (map BookingServiceItem.Price services))
    /\ exists resolved,
        services = (acc ++ resolved)%list
        /\ Forall2 (fun id item =>
                      exists service,
                        ServiceRepository.GetByID db id = Some service
                        /\ item = Spec.snapshot service)
                   serviceIDs resolved.
Proof.
induction serviceIDs as [|id rest IH]; simpl;
  intros acc d p services totalDuration totalPrice Hres Hd Hp.
- inversion Hres; subst. split; [reflexivity|]. split; [reflexivity|].
  exists []. rewrite app_nil_r. split; [reflexivity|constructor].
- destruct (ServiceRepository.GetByID db id) as [service|] eqn:Hget;
    [|discriminate].
  apply IH in Hres.
  + destruct Hres as [HD [HP [resolved [Happ Hall]]]].
    split; [exact HD|]. split; [exact HP|].
    exists (Spec.snapshot service :: resolved). split.
    * rewrite Happ, <- app_assoc. reflexivity.
    * constructor; [exists service; auto | exact Hall].
  + rewrite map_app, sum_app. simpl. unfold Go.add. rewrite Hd.
    rewrite wrap64_add_l. f_equal. ring.
  + rewrite map_app, sum_app. simpl. unfold Go.add. rewrite Hp.
    rewrite wrap64_add_l. f_equal. ring.
Qed.

(** The end time the handler derives from a well-formed start time. *)
Lemma end_time_clock (start totalDuration : Z) :
  0 <= start < 1440 ->
  - 2 ^ 62 <= totalDuration <= 2 ^ 62 ->
  BookingHandler.end_time (Spec.clock start) totalDuration
  = Some (Spec.clock ((start + totalDuration) mod 1440)).
Proof.
intros Hstart HT.
assert (Hh : 0 <= start / 60 < 100) by (split; [apply Z.div_pos | apply Z.div_lt_upper_bound]; lia).
assert (Hm : 0 <= start mod 60 < 100) by (pose proof (Z.mod_pos_bound start 60); lia).
unfold BookingHandler.end_time, Spec.clock at 1 2.
change (Go.slice (Go.pad2 (start / 60) ++ ":" ++ Go.pad2 (start mod 60)) 0 2)
  with (Some (Go.pad2 (start / 60))).
change (Go.slice (Go.pad2 (start / 60) ++ ":" ++ Go.pad2 (start mod 60)) 3 5)
  with (Some (Go.pad2 (start mod 60))).
cbv beta iota. rewrite !Atoi_pad2 by assumption. cbn [fst].
set (m := start mod 60) in *. set (h := start / 60) in *.
assert (Hstart' : start = 60 * h + m) by (unfold h, m; apply Z.div_mod; lia).
assert (Hm' : 0 <= m < 60) by (unfold m; apply Z.mod_pos_bound; lia).
unfold Go.rem, Go.quo, Go.add.
rewrite !(wrap64_small (m + totalDuration))
  by (unfold Go.in_int64, Go.MinInt64, Go.MaxInt64; lia).
pose proof (Z.quot_rem' (m + totalDuration) 60) as Hqr.
pose proof (Z.rem_bound_abs (m + totalDuration) 60 ltac:(lia)) as Hrb.
set (q := Z.quot (m + totalDuration) 60) in *.
set (r := Z.rem (m + totalDuration) 60) in *.
assert (Hq : - 2 ^ 62 <= q <= 2 ^ 62) by lia.
rewrite (wrap64_small q) by (unfold Go.in_int64, Go.MinInt64, Go.MaxInt64; lia).
rewrite (wrap64_small (h + q))
  by (unfold Go.in_int64, Go.MinInt64, Go.MaxInt64; lia).
f_equal. set (N := start + totalDuration).
assert (Ht : time.Date_clock (h + q) r = (N - 46080) * time.Minute)
  by (unfold time.Date_clock, time.Day, time.Hour, N; lia).
unfold time.Format_clock, Spec.clock. rewrite Ht.
assert (HM : 0 < time.Minute) by (unfold time.Minute, time.Second; lia).
assert (Hdiv1 : (N - 46080) * time.Minute / time.Hour = (N - 46080) / 60).
{ change time.Hour with (60 * time.Minute).
  apply Z.div_mul_cancel_r; lia. }
assert (Hdiv2 : (N - 46080) * time.Minute / time.Minute = N - 46080)
  by (apply Z.div_mul; lia).
rewrite Hdiv1, Hdiv2.
assert (E1 : ((N - 46080) / 60) mod 24 = (N mod 1440) / 60)
  by (Z.div_mod_to_equations; lia).
assert (E2 : (N - 46080) mod 60 = (N mod 1440) mod 60)
  by (Z.div_mod_to_equations; lia).
rewrite E1, E2. reflexivity.
Qed.

(** What is known when [CreateBooking_check] lets a booking through. *)
Lemma CreateBooking_check_inr (db : Store.t) (c : Context)
      (req : BookingHandler.CreateBookingRequest) (booking : Booking.t) :
  BookingHandler.CreateBooking_check db c req = inr booking ->
  exists services totalDuration totalPrice bookingDate endTime,
    BookingHandler.resolve_services db (BookingHandler.ServiceIDs req) [] 0 0
    = inr (services, totalDuration, totalPrice)
    /\ time.Parse_date (BookingHandler.Date req) = Some bookingDate
    /\ BookingHandler.end_time (BookingHandler.StartTime req) totalDuration
       = Some endTime
    /\ StylistRepository.IsAvailable db (BookingHandler.StylistID req)
         bookingDate (BookingHandler.StartTime req) endTime = true
    /\ Booking.ID booking = 0
    /\ Booking.DeletedAt booking = false
    /\ Booking.UserID booking = UserID c
    /\ Booking.StylistID booking = BookingHandler.StylistID req
    /\ Booking.Services booking = services
    /\ Booking.BookingDate booking = bookingDate
    /\ Booking.StartTime booking = BookingHandler.StartTime req
    /\ Booking.EndTime booking = endTime
    /\ Booking.Duration booking = totalDuration
    /\ Booking.Price booking = totalPrice
    /\ Booking.Status booking = BookingStatusPending.
Proof.
unfold BookingHandler.CreateBooking_check. intro H.
repeat match type of H with
       | context [match ?x with _ => _ end] =>
           destruct x eqn:?; try discriminate H
       end.
all: inversion H; subst; clear H; simpl.
all: repeat match goal with
            | Hav : negb (StylistRepository.IsAvailable _ _ _ _ _) = false
              |- _ => apply negb_false_iff in Hav
            end.
all: do 5 eexists; repeat (split; [first [reflexivity | eassumption]|]);
  reflexivity.
Qed.

(** A created booking is the checked booking under a fresh key. *)
Lemma CreateBooking_created (db db' : Store.t) (c : Context)
      (req : BookingHandler.CreateBookingRequest) (b : Booking.t) :
  BookingHandler.CreateBooking db c req
  = (JSON http.StatusCreated (Some b), db') ->
  exists booking,
    BookingHandler.CreateBooking_check db c req = inr booking
    /\ b = Booking.with_ID (gorm.nextID Booking.ID (Store.bookings db)) booking
    /\ db' = Store.with_bookings (Store.bookings db ++ [b]) db.
Proof.
unfold BookingHandler.CreateBooking. intro H.
destruct (BookingHandler.CreateBooking_check db c req) as [r|booking] eqn:Hc.
- inversion H; subst. exfalso.
  unfold BookingHandler.CreateBooking_check in Hc.
  repeat match type of Hc with
         | context [match ?x with _ => _ end] =>
             destruct x eqn:?; try discriminate Hc
         end.
- exists booking. split; [reflexivity|].
  destruct (CreateBooking_check_inr _ _ _ _ Hc)
    as (? & ? & ? & ? & ? & _ & _ & _ & _ & _ & Hlive & _).
  pose proof (GetByID_Create db booking Hlive) as Hget.
  unfold BookingHandler.CreateBooking_insert in H.
  destruct (BookingRepository.Create db booking) as [db1 row] eqn:HC.
  simpl in Hget. rewrite Hget in H. inversion H; subst.
  unfold BookingRepository.Create in HC. inversion HC; subst. auto.
Qed.

(** C7.  A created booking is persisted with a snapshot of each requested
    service; its total duration and total price are the sums over these
    snapshots, and its end time is the start time plus the total duration
    in minutes, the hour rolling over at midnight.  (The sums are those of
    64-bit integers; the end time is stated for a start time of the form
    HH:MM.) *)
Theorem CreateBooking_totals_and_end_time :
  forall (db db' : Store.t) (c : Context)
         (req : BookingHandler.CreateBookingRequest) (b : Booking.t),
    BookingHandler.CreateBooking db c req
    = (JSON http.StatusCreated (Some b), db') ->
    let durations := map BookingServiceItem.Duration (Booking.Services b) in
    let prices := map BookingServiceItem.Price (Booking.Services b) in
    In b (Store.bookings db')
    /\ Forall2 (fun id item =>
                  exists service,
                    ServiceRepository.GetByID db id = Some service
                    /\ item = Spec.snapshot service)
               (BookingHandler.ServiceIDs req) (Booking.Services b)
    /\ (Go.in_int64 (Spec.sum durations) ->
        Booking.Duration b = Spec.sum durations)
    /\ (Go.in_int64 (Spec.sum prices) ->
        Booking.Price b = Spec.sum prices)
    /\ (forall start,
           0 <= start < 1440 ->
           BookingHandler.StartTime req = Spec.clock start ->
           - 2 ^ 62 <= Spec.sum durations <= 2 ^ 62 ->
           Booking.StartTime b = Spec.clock start
           /\ Booking.EndTime b
              = Spec.clock ((start + Spec.sum durations) mod 1440)).
Proof.
intros db db' c req b Hcreate durations prices.
destruct (CreateBooking_created _ _ _ _ _ Hcreate) as (booking & Hc & Hb & Hdb).
destruct (CreateBooking_check_inr _ _ _ _ Hc)
  as (services & D & P & bookingDate & endTime & Hres & _ & Hend & _ & _ & _
      & _ & _ & Hsv & _ & Hst & Het & HD & HP & _).
destruct (resolve_services_totals _ _ _ _ _ _ _ _ Hres eq_refl eq_refl)
  as (HDsum & HPsum & resolved & Hacc & Hsnap).
simpl in Hacc. subst resolved.
assert (Hsvb : Booking.Services b = services) by (subst b; exact Hsv).
assert (HDb : Booking.Duration b = D) by (subst b; exact HD).
assert (HPb : Booking.Price b = P) by (subst b; exact HP).
assert (Hstb : Booking.StartTime b = BookingHandler.StartTime req)
  by (subst b; exact Hst).
assert (Hetb : Booking.EndTime b = endTime) by (subst b; exact Het).
unfold durations, prices. rewrite Hsvb.
split; [rewrite Hdb; simpl; apply in_or_app; right; left; reflexivity|].
split; [exact Hsnap|].
split; [intro Hr; rewrite HDb, HDsum; apply wrap64_small; exact Hr|].
split; [intro Hr; rewrite HPb, HPsum; apply wrap64_small; exact Hr|].
intros start Hstart Hclock Hrange. split; [congruence|].
assert (HDexact : D = Spec.sum (map BookingServiceItem.Duration services)).
{ rewrite HDsum. apply wrap64_small.
  unfold Go.in_int64, Go.MinInt64, Go.MaxInt64. lia. }
rewrite Hclock, HDexact in Hend. rewrite end_time_clock in Hend by assumption.
congruence.
Qed.

Lemma CreateBooking_totals_and_end_time_witness :
  (exists b db',
      BookingHandler.CreateBooking
        Example_salon.db0 Example_salon.as_alice
        (Example_salon.request Example_salon.as_alice [1; 2]
                               "2024-01-01" "14:00")
      = (JSON http.StatusCreated (Some b), db')
      /\ In b (Store.bookings db')
      /\ Booking.Duration b = 75
      /\ Booking.Price b = 2000
      /\ Booking.StartTime b = "14:00"
      /\ Booking.EndTime b = "15:15")
  /\ (exists b db',
         BookingHandler.CreateBooking
           Example_salon.db0 Example_salon.as_alice
           (Example_salon.request Example_salon.as_alice [1]
                                  "2024-01-02" "23:45")
         = (JSON http.StatusCreated (Some b), db')
         /\ Booking.Duration b = 30
         /\ Booking.StartTime b = "23:45"
         /\ Booking.EndTime b = "00:15").
Proof.
split.
- eexists; eexists. split; [vm_compute; reflexivity|].
  match goal with
  | |- In ?b (Store.bookings ?db') /\ _ =>
      destruct (CreateBooking_totals_and_end_time
                  Example_salon.db0 db' Example_salon.as_alice
                  (Example_salon.request Example_salon.as_alice [1; 2]
                                         "2024-01-01" "14:00")
                  b eq_refl)
        as (Hin & _ & Hdur & Hprice & Hend)
  end.
  split; [exact Hin|].
  split; [apply Hdur; vm_compute; split; discriminate|].
  split; [apply Hprice; vm_compute; split; discriminate|].
  apply (Hend 840); [lia | reflexivity | vm_compute; split; discriminate].
- eexists; eexists. split; [vm_compute; reflexivity|].
  match goal with
  | |- Booking.Duration ?b = _ /\ _ =>
      destruct (CreateBooking_totals_and_end_time
                  Example_salon.db0
                  (snd (BookingHandler.CreateBooking
                          Example_salon.db0 Example_salon.as_alice
                          (Example_salon.request Example_salon.as_alice [1]
                                                 "2024-01-02" "23:45")))
                  Example_salon.as_alice
                  (Example_salon.request Example_salon.as_alice [1]
                                         "2024-01-02" "23:45")
                  b eq_refl)
        as (_ & _ & Hdur & _ & Hend)
  end.
  split; [apply Hdur; vm_compute; split; discriminate|].
  apply (Hend 1425); [lia | reflexivity | vm_compute; split; discriminate].
Defined.

(* ------------------------------------------------------------------ *)
(** ** Slot computation *)

Lemma candidates_In (windowStart windowEnd duration t : Z) :
  In t (Spec.candidates windowStart windowEnd duration 30)
  <-> exists k : nat,
      t = windowStart + 30 * Z.of_nat k /\ t + duration <= windowEnd.
Proof.
unfold Spec.candidates. rewrite in_map_iff. split.
- intros (k & Ht & Hk). apply in_seq in Hk. exists k. split; [auto|].
  subst t. destruct Hk as [_ Hk]. simpl in Hk.
  assert (Hle : Z.of_nat k < (windowEnd - duration - windowStart) / 30 + 1)
    by lia.
  Z.div_mod_to_equations. lia.
- intros (k & Ht & Hle). exists k. split; [auto|]. apply in_seq. simpl.
  split; [lia|]. subst t.
  assert (Hk : Z.of_nat k < (windowEnd - duration - windowStart) / 30 + 1)
    by (Z.div_mod_to_equations; lia).
  lia.
Qed.

Lemma isDigit_digitVal (c : ascii) :
  Go.isDigit c = true -> 0 <= Go.digitVal c <= 9.
Proof.
unfold Go.isDigit, Go.digitVal. intro H.
apply andb_prop in H. destruct H as [Hlo Hhi].
apply Nat.leb_le in Hlo. apply Nat.leb_le in Hhi. lia.
Qed.

(** A clock string that parses denotes a minute of the day. *)
Lemma Parse_clock_ok (s : string) (t : time.Time) :
  time.Parse_clock s = (t, true) ->
  exists x, 0 <= x < 1440 /\ t = x * time.Minute.
Proof.
unfold time.Parse_clock. intro H.
repeat match type of H with
       | context [match ?x with _ => _ end] =>
           destruct x eqn:?; try discriminate H
       end.
all: inversion H; subst; clear H.
all: repeat match goal with
            | Hp : match ?x with _ => _ end = (_, _) |- _ =>
                destruct x eqn:?
            end.
all: repeat match goal with
            | Hd : Go.isDigit _ && Go.isDigit _ = true |- _ =>
                apply andb_prop in Hd; destruct Hd
            | Hd : Go.isDigit _ = true |- _ =>
                apply isDigit_digitVal in Hd
            | Hp : (_, _) = (_, _) |- _ => inversion Hp; subst; clear Hp
            | Hb : (_ <=? _) = false |- _ => apply Z.leb_gt in Hb
            end.
all: match goal with
     | |- exists x, _ /\ ?h * time.Hour + ?m * time.Minute = _ =>
         exists (h * 60 + m); unfold time.Hour; split; lia
     end.
Qed.

Lemma Format_clock_minutes (x : Z) :
  0 <= x < 1440 -> time.Format_clock (x * time.Minute) = Spec.clock x.
Proof.
intro Hx. unfold time.Format_clock, Spec.clock.
assert (HM : 0 < time.Minute) by (unfold time.Minute, time.Second; lia).
assert (H1 : x * time.Minute / time.Hour = x / 60).
{ change time.Hour with (60 * time.Minute). apply Z.div_mul_cancel_r; lia. }
assert (H2 : x * time.Minute / time.Minute = x) by (apply Z.div_mul; lia).
rewrite H1, H2. rewrite (Z.mod_small (x / 60) 24); [reflexivity|].
Z.div_mod_to_equations. lia.
Qed.

Lemma Minutes_exact (n : Z) :
  0 <= n <= Spec.max_minutes -> time.Minutes n = n * time.Minute.
Proof.
intro Hn. unfold time.Minutes, Go.mul. apply wrap64_small.
unfold Go.in_int64, Go.MinInt64, Go.MaxInt64, Spec.max_minutes,
  time.Minute, time.Second in *. lia.
Qed.

Section Slots.

Variable BookingTime : Booking.t -> string.
Variable Service_Duration : Booking.t -> Z.

Abbreviation bookingTime := (StylistHandler.bookingTime BookingTime).
Abbreviation bookingEnd :=
  (StylistHandler.bookingEnd BookingTime Service_Duration).
Abbreviation slot_available :=
  (StylistHandler.slot_available BookingTime Service_Duration).
Abbreviation slots_loop :=
  (StylistHandler.slots_loop BookingTime Service_Duration).
Abbreviation slot_at := (Slot.slot_at BookingTime Service_Duration).
Abbreviation fits := Slot.fits.

(** The inner loop answers [false] exactly when some booking that is not
    cancelled overlaps the slot. *)
Lemma slot_available_false (existingBookings : list Booking.t)
      (currentTime slotEnd : time.Time) :
  slot_available existingBookings currentTime slotEnd = false
  <-> exists booking,
      In booking existingBookings
      /\ Booking.Status booking <> "cancelled"
      /\ currentTime < bookingEnd booking
      /\ bookingTime booking < slotEnd.
Proof.
induction existingBookings as [|b rest IH]; simpl.
- split; [discriminate|]. intros (? & [] & _).
- destruct (String.eqb_spec (Booking.Status b) "cancelled") as [Hc|Hc].
  + rewrite IH. split.
    * intros (x & Hin & Hx). exists x. tauto.
    * intros (x & [E|Hin] & Hs & Hx); [subst; tauto|]. exists x. tauto.
  + unfold time.Before, time.After.
    destruct (currentTime <? bookingEnd b) eqn:H1;
      destruct (bookingTime b <? slotEnd) eqn:H2; simpl.
    * split; [intros _|reflexivity]. exists b.
      apply Z.ltb_lt in H1, H2. tauto.
    * rewrite IH. apply Z.ltb_ge in H2. split.
      -- intros (x & Hin & Hx). exists x. tauto.
      -- intros (x & [E|Hin] & Hs & Hx1 & Hx2); [subst; lia|].
         exists x. tauto.
    * rewrite IH. apply Z.ltb_ge in H1. split.
      -- intros (x & Hin & Hx). exists x. tauto.
      -- intros (x & [E|Hin] & Hs & Hx1 & Hx2); [subst; lia|].
         exists x. tauto.
    * rewrite IH. apply Z.ltb_ge in H1. split.
      -- intros (x & Hin & Hx). exists x. tauto.
      -- intros (x & [E|Hin] & Hs & Hx1 & Hx2); [subst; lia|].
         exists x. tauto.
Qed.

(** With enough fuel the outer loop ends, and what it returns is the slots
    of the candidates [currentTime], [currentTime] + 30 min, ... up to the
    first one that does not fit. *)
Lemma slots_loop_shape (existingBookings : list Booking.t)
      (duration : Z) (endTime : time.Time) :
  forall (fuel : nat) (currentTime : time.Time),
    Z.max 0 ((endTime - currentTime) / (30 * time.Minute) + 1)
    < Z.of_nat fuel ->
    exists n : nat,
      slots_loop fuel existingBookings duration endTime currentTime
      = Some (map (fun k => slot_at existingBookings duration
                              (currentTime + Z.of_nat k * (30 * time.Minute)))
                  (seq 0 n))
      /\ (forall k, (k < n)%nat ->
                    fits duration endTime
                         (currentTime + Z.of_nat k * (30 * time.Minute)))
      /\ ~ fits duration endTime
                (currentTime + Z.of_nat n * (30 * time.Minute)).
Proof.
assert (Hstep : 0 < 30 * time.Minute)
  by (unfold time.Minute, time.Second; lia).
induction fuel as [|fuel IH]; intros currentTime Hfuel; [lia|].
cbn [StylistHandler.slots_loop]. unfold time.Before, time.After, time.Add.
destruct (currentTime <? endTime) eqn:Hlt.
- apply Z.ltb_lt in Hlt.
  destruct (endTime <? currentTime + time.Minutes duration) eqn:Hend.
  + apply Z.ltb_lt in Hend. exists 0%nat. simpl.
    split; [reflexivity|]. split; [intros; lia|].
    unfold Slot.fits. lia.
  + apply Z.ltb_ge in Hend.
    destruct (IH (currentTime + 30 * time.Minute)) as (n & Hrun & Hfit & Hstop).
    { replace (endTime - (currentTime + 30 * time.Minute))
        with (endTime - currentTime + (-1) * (30 * time.Minute)) by lia.
      rewrite Z.div_add by lia.
      assert (0 <= (endTime - currentTime) / (30 * time.Minute))
        by (apply Z.div_pos; lia).
      lia. }
    exists (S n). rewrite Hrun. split.
    * change (seq 0 (S n)) with (0%nat :: seq 1 n).
      rewrite <- seq_shift, map_cons, map_map. f_equal. f_equal.
      -- unfold Slot.slot_at, time.Add.
         replace (currentTime + Z.of_nat 0 * (30 * time.Minute))
           with currentTime by lia.
         reflexivity.
      -- apply map_ext. intro k. f_equal. lia.
    * split.
      -- intros [|k] Hk.
         ++ unfold Slot.fits. simpl. lia.
         ++ replace (currentTime + Z.of_nat (S k) * (30 * time.Minute))
              with (currentTime + 30 * time.Minute
                    + Z.of_nat k * (30 * time.Minute)) by lia.
            apply Hfit. lia.
      -- replace (currentTime + Z.of_nat (S n) * (30 * time.Minute))
           with (currentTime + 30 * time.Minute
                 + Z.of_nat n * (30 * time.Minute)) by lia.
         exact Hstop.
- apply Z.ltb_ge in Hlt. exists 0%nat. simpl.
  split; [reflexivity|]. split; [intros; lia|]. unfold Slot.fits. lia.
Qed.

End Slots.

(** With a single live, active schedule of the stylist for the weekday,
    that schedule is the one the slot handler uses. *)
Lemma find_daySchedule_single (db : Store.t) (stylistID dayOfWeek : Z)
      (w : StylistSchedule.t) :
  In w (Store.schedules db) ->
  Request.works stylistID dayOfWeek w ->
  (forall w', In w' (Store.schedules db) ->
              Request.works stylistID dayOfWeek w' -> w' = w) ->
  StylistHandler.find_daySchedule
    (StylistRepository.GetSchedulesByStylistID db stylistID) dayOfWeek
  = Some w.
Proof.
intros Hin (Hlive & Hsid & Hday & Hact) Hsingle.
unfold StylistHandler.find_daySchedule.
destruct (find _ _) as [x|] eqn:Hfind.
- apply find_some in Hfind. destruct Hfind as [Hx Hpx].
  unfold StylistRepository.GetSchedulesByStylistID in Hx.
  apply Order_In, filter_In in Hx. destruct Hx as [Hxin Hfx].
  rewrite !andb_true_iff, negb_true_iff, Z.eqb_eq in Hfx.
  rewrite andb_true_iff, Z.eqb_eq in Hpx.
  f_equal. apply Hsingle; [exact Hxin|]. unfold Request.works. tauto.
- exfalso.
  assert (Hw : In w (StylistRepository.GetSchedulesByStylistID db stylistID)).
  { unfold StylistRepository.GetSchedulesByStylistID.
    apply Order_In, filter_In. split; [exact Hin|].
    rewrite Hlive, Hsid, Hact, Z.eqb_refl. reflexivity. }
  apply (find_none _ _ Hfind) in Hw.
  rewrite Hday, Hact, Z.eqb_refl in Hw. discriminate Hw.
Qed.

Lemma nth_error_map_seq {A : Type} (f : nat -> A) (n k : nat) (x : A) :
  nth_error (map f (seq 0 n)) k = Some x -> (k < n)%nat /\ x = f k.
Proof.
intro H.
assert (Hk : (k < n)%nat).
{ assert (Hs : nth_error (map f (seq 0 n)) k <> None) by congruence.
  apply nth_error_Some in Hs. rewrite length_map, length_seq in Hs. exact Hs. }
split; [exact Hk|].
rewrite nth_error_map, nth_error_seq in H.
apply Nat.ltb_lt in Hk. rewrite Hk in H. simpl in H. congruence.
Qed.

(** The handler, once its parameters are known to parse and the day has a
    schedule: the outer loop run from the schedule's start. *)
Lemma GetAvailableSlots_run
      (BookingTime : Booking.t -> string) (Service_Duration : Booking.t -> Z)
      (bookingRepo : bool) (db : Store.t)
      (idParam dateStr durationStr : string)
      (stylistID duration : Z) (date : time.Date)
      (daySchedule : StylistSchedule.t) :
  Go.ParseUint32 idParam = Some stylistID ->
  Go.Atoi durationStr = (duration, true) ->
  0 < duration ->
  time.Parse_date dateStr = Some date ->
  StylistHandler.find_daySchedule
    (StylistRepository.GetSchedulesByStylistID db stylistID)
    (time.Weekday date) = Some daySchedule ->
  let fetched :=
    if bookingRepo
    then BookingRepository.GetByStylistAndDateString db stylistID dateStr
    else [] in
  let startTime :=
    fst (time.Parse_clock (StylistSchedule.StartTime daySchedule)) in
  let endTime :=
    fst (time.Parse_clock (StylistSchedule.EndTime daySchedule)) in
  exists n : nat,
    StylistHandler.GetAvailableSlots BookingTime Service_Duration
      bookingRepo db idParam dateStr durationStr
    = JSON http.StatusOK
           (map (fun k => Slot.slot_at BookingTime Service_Duration fetched duration
                            (startTime + Z.of_nat k * (30 * time.Minute)))
                (seq 0 n))
    /\ (forall k, (k < n)%nat ->
                  Slot.fits duration endTime
                       (startTime + Z.of_nat k * (30 * time.Minute)))
    /\ ~ Slot.fits duration endTime (startTime + Z.of_nat n * (30 * time.Minute)).
Proof.
intros Hid Hdur Hpos Hdate Hday fetched startTime endTime.
destruct (slots_loop_shape BookingTime Service_Duration fetched duration
            endTime (StylistHandler.slots_fuel startTime endTime) startTime)
  as (n & Hrun & Hfits).
{ unfold StylistHandler.slots_fuel. lia. }
exists n. split; [|exact Hfits].
unfold StylistHandler.GetAvailableSlots.
rewrite Hid, Hdur.
destruct (String.eqb_spec dateStr EmptyString) as [E|_];
  [subst; discriminate Hdate|].
destruct (String.eqb_spec durationStr EmptyString) as [E|_];
  [subst; discriminate Hdur|].
apply Z.leb_gt in Hpos. rewrite Hpos. cbn [negb orb].
rewrite Hdate, Hday.
fold fetched. fold startTime. fold endTime. rewrite Hrun. reflexivity.
Qed.





(* ------------------------------------------------------------------ *)
(** ** When a booking request is refused for the slot *)

Lemma first_schedule_None (db : Store.t) (stylistID dayOfWeek : Z) :
  StylistRepository.first_schedule db stylistID dayOfWeek = None
  <-> forall w, In w (Store.schedules db) ->
                ~ Request.works stylistID dayOfWeek w.
Proof.
unfold StylistRepository.first_schedule, gorm.First.
rewrite least_None. unfold Request.works. split.
- intros Hnil w Hin (Hlive & Hsid & Hday & Hact).
  assert (Hw : In w []).
  { rewrite <- Hnil. apply filter_In. split; [exact Hin|].
    rewrite Hlive, Hsid, Hday, Hact, !Z.eqb_refl. reflexivity. }
  destruct Hw.
- intro Hnone. apply filter_none. intros w Hin.
  apply not_true_is_false. intro Hw. apply (Hnone w Hin).
  rewrite !andb_true_iff, negb_true_iff, !Z.eqb_eq in Hw.
  destruct Hw as [[[Hlive Hsid] Hday] Hact].
  apply Bool.eqb_prop in Hact. tauto.
Qed.

Lemma IsAvailable_false (db : Store.t) (stylistID : Z) (date : time.Date)
      (startTime endTime : string) :
  StylistRepository.IsAvailable db stylistID date startTime endTime = false
  <-> Request.unavailable db stylistID date startTime endTime.
Proof.
unfold StylistRepository.IsAvailable, Request.unavailable.
destruct (StylistRepository.first_schedule db stylistID (time.Weekday date))
  as [w|] eqn:Hfirst.
- assert (Hsome : ~ forall w, In w (Store.schedules db) ->
                              ~ Request.works stylistID (time.Weekday date) w)
    by (rewrite <- first_schedule_None; congruence).
  destruct (String.ltb startTime (StylistSchedule.StartTime w)) eqn:Hs;
    [split; [intros _; right; left; exists w; auto | reflexivity]|].
  destruct (String.ltb (StylistSchedule.EndTime w) endTime) eqn:He;
    [split; [intros _; right; left; exists w; auto | reflexivity]|].
  cbn [orb].
  destruct (StylistRepository.conflicting db stylistID date startTime endTime)
    as [|b rest] eqn:Hconf.
  + split; [discriminate|].
    intros [Hnone|[(w' & Hw' & Hout)|(b & Hin & Hb)]].
    * contradiction.
    * inversion Hw'; subst w'. destruct Hout; congruence.
    * assert (Hc : In b (StylistRepository.conflicting
                           db stylistID date startTime endTime))
        by (apply conflicting_In; auto).
      rewrite Hconf in Hc. destruct Hc.
  + split; [intros _|intros _; reflexivity].
    right; right. exists b. apply conflicting_In. rewrite Hconf. left.
    reflexivity.
- split; [intros _|reflexivity]. left. apply first_schedule_None. exact Hfirst.
Qed.

(** What [CreateBooking] answers to a request that passes validation. *)
Lemma CreateBooking_validated (db : Store.t) (c : Context)
      (req : BookingHandler.CreateBookingRequest)
      (date : time.Date) (totalDuration : Z) (endTime : string) :
  Request.validated db c req date totalDuration ->
  BookingHandler.end_time (BookingHandler.StartTime req) totalDuration
  = Some endTime ->
  (StylistRepository.IsAvailable db (BookingHandler.StylistID req) date
     (BookingHandler.StartTime req) endTime = false ->
   BookingHandler.CreateBooking db c req
   = (Error http.StatusConflict "Stylist is not available at this time", db))
  /\ (StylistRepository.IsAvailable db (BookingHandler.StylistID req) date
        (BookingHandler.StartTime req) endTime = true ->
      exists b db',
        BookingHandler.CreateBooking db c req
        = (JSON http.StatusCreated (Some b), db')
        /\ In b (Store.bookings db')
        /\ Booking.StartTime b = BookingHandler.StartTime req
        /\ Booking.EndTime b = endTime
        /\ Booking.Duration b = totalDuration
        /\ Booking.Status b = "pending").
Proof.
intros (Hbind & Huser & (services & totalPrice & Hres) & Hstylist & Hdate) Hend.
unfold BookingHandler.CreateBooking, BookingHandler.CreateBooking_check.
rewrite Hbind. cbn [negb].
destruct (UserRepository.GetByID db (UserID c)) as [user|]; [|congruence].
rewrite Hres.
destruct (StylistRepository.GetByID db (BookingHandler.StylistID req))
  as [stylist|]; [|congruence].
rewrite Hdate, Hend. split; intro Hav; rewrite Hav; cbn [negb].
- reflexivity.
- unfold BookingHandler.CreateBooking_insert.
  match goal with
  | |- context [BookingRepository.Create db ?bk] =>
      pose proof (GetByID_Create db bk eq_refl) as Hget;
      destruct (BookingRepository.Create db bk) as [db1 row] eqn:HC
  end.
  cbn [fst snd] in Hget. rewrite Hget.
  exists row, db1. split; [reflexivity|].
  unfold BookingRepository.Create in HC. inversion HC; subst. cbn.
  split; [apply in_or_app; right; left; reflexivity|]. auto.
Qed.


(** A duration that carries past midnight: a booking of 480 minutes from
    16:30 in a window that ends at 17:00 gets the end time 00:30, passes the
    window check and is persisted. *)
Lemma CreateBooking_past_midnight_is_accepted :
  exists b db',
    BookingHandler.CreateBooking
      Example_salon.db0 Example_salon.as_alice
      (Example_salon.request Example_salon.as_alice [3] "2024-01-01" "16:30")
    = (JSON http.StatusCreated (Some b), db')
    /\ Booking.Duration b = 480
    /\ Booking.StartTime b = "16:30"
    /\ Booking.EndTime b = "00:30"
    /\ In b (Store.bookings db').
Proof.
eexists; eexists. split; [vm_compute; reflexivity|].
split; [reflexivity|]. split; [reflexivity|]. split; [reflexivity|].
left; reflexivity.
Qed.



(** The order of HH:MM strings is the order of the minutes they denote. *)
Lemma compare_app (s s' t t' : string) :
  String.length s = String.length s' ->
  String.compare (s ++ t) (s' ++ t')
  = match String.compare s s' with
    | Eq => String.compare t t'
    | r => r
    end.
Proof.
revert s'. induction s as [|a s IH]; intros [|a' s'] Hlen;
  try discriminate Hlen; simpl; [reflexivity|].
destruct (Ascii.compare a a'); [|reflexivity|reflexivity].
apply IH. simpl in Hlen. congruence.
Qed.

Lemma compare_pad2 (a b : Z) :
  0 <= a < 100 -> 0 <= b < 100 ->
  String.compare (Go.pad2 a) (Go.pad2 b) = (a ?= b).
Proof.
intros Ha Hb.
pose (same := fun (x y : comparison) =>
                match x, y with
                | Eq, Eq | Lt, Lt | Gt, Gt => true
                | _, _ => false
                end).
pose (P := fun x =>
             forallb (fun y => same (String.compare (Go.pad2 x) (Go.pad2 y))
                                    (x ?= y))
                     (map Z.of_nat (seq 0 100))).
assert (HP : P a = true)
  by (apply (below_forallb P 100); [vm_compute; reflexivity | exact Ha]).
unfold P in HP.
pose proof (below_forallb _ 100 HP b Hb) as Hab. cbv beta in Hab.
destruct (String.compare (Go.pad2 a) (Go.pad2 b)), (a ?= b);
  try reflexivity; discriminate Hab.
Qed.

Lemma clock_ltb (x y : Z) :
  0 <= x < 1440 -> 0 <= y < 1440 ->
  String.ltb (Spec.clock x) (Spec.clock y) = (x <? y).
Proof.
intros Hx Hy. unfold String.ltb, Z.ltb, Spec.clock.
rewrite compare_app by reflexivity.
rewrite compare_pad2 by (Z.div_mod_to_equations; lia).
change (String.compare (":" ++ Go.pad2 (x mod 60)) (":" ++ Go.pad2 (y mod 60)))
  with (String.compare (Go.pad2 (x mod 60)) (Go.pad2 (y mod 60))).
rewrite compare_pad2 by (Z.div_mod_to_equations; lia).
destruct (Z.compare_spec (x / 60) (y / 60)) as [E|L|G];
  destruct (Z.compare_spec (x mod 60) (y mod 60)) as [E'|L'|G'];
  destruct (Z.compare_spec x y) as [E''|L''|G'']; try reflexivity;
  exfalso; Z.div_mod_to_equations; lia.
Qed.

(* ------------------------------------------------------------------ *)
(** ** Malformed start times *)

(** A start time of fewer than five bytes makes the end-time computation
    slice out of range. *)
Lemma end_time_short (startTime : string) (totalDuration : Z) :
  (String.length startTime < 5)%nat ->
  BookingHandler.end_time startTime totalDuration = None.
Proof.
intro Hlen. unfold BookingHandler.end_time, Go.slice.
destruct (2 <=? String.length startTime)%nat; cbn [andb]; [|reflexivity].
apply Nat.leb_gt in Hlen. rewrite Hlen. reflexivity.
Qed.

(** A validated request with such a start time panics. *)
Lemma CreateBooking_short_start_time (db : Store.t) (c : Context)
      (req : BookingHandler.CreateBookingRequest)
      (date : time.Date) (totalDuration : Z) :
  Request.validated db c req date totalDuration ->
  (String.length (BookingHandler.StartTime req) < 5)%nat ->
  BookingHandler.CreateBooking db c req = (Panic, db).
Proof.
intros (Hbind & Huser & (services & totalPrice & Hres) & Hstylist & Hdate) Hlen.
unfold BookingHandler.CreateBooking, BookingHandler.CreateBooking_check.
rewrite Hbind. cbn [negb].
destruct (UserRepository.GetByID db (UserID c)) as [user|]; [|congruence].
rewrite Hres.
destruct (StylistRepository.GetByID db (BookingHandler.StylistID req))
  as [stylist|]; [|congruence].
rewrite Hdate, (end_time_short _ _ Hlen). reflexivity.
Qed.

(** C8.  The code at two malformed start times: for [9:00] (four bytes, the
    request otherwise valid) the handler panics instead of answering with a
    validation error; for [ab:cd] hour and minute are read as 0, no error is
    reported, and a booking with that start time is persisted. *)
Theorem CreateBooking_malformed_start_time :
  BookingHandler.CreateBooking
    Example_salon.db0 Example_salon.as_alice
    (Example_salon.request Example_salon.as_alice [1] "2024-01-01" "9:00")
  = (Panic, Example_salon.db0)
  /\ exists b db',
      BookingHandler.CreateBooking
        Example_salon.db0 Example_salon.as_alice
        (Example_salon.request Example_salon.as_alice [1] "2024-01-01" "ab:cd")
      = (JSON http.StatusCreated (Some b), db')
      /\ Booking.StartTime b = "ab:cd"
      /\ Booking.EndTime b = "00:30"
      /\ In b (Store.bookings db').
Proof.
split; [reflexivity|].
eexists; eexists. split; [vm_compute; reflexivity|].
split; [reflexivity|]. split; [reflexivity|]. left; reflexivity.
Qed.

(* ------------------------------------------------------------------ *)
(** ** Two requests for the same slot *)

Lemma CreateBooking_check_validated (db : Store.t) (c : Context)
      (req : BookingHandler.CreateBookingRequest) (booking : Booking.t) :
  BookingHandler.CreateBooking_check db c req = inr booking ->
  Request.validated db c req (Booking.BookingDate booking)
                    (Booking.Duration booking).
Proof.
unfold BookingHandler.CreateBooking_check, Request.validated. intro H.
repeat match type of H with
       | context [match ?x with _ => _ end] =>
           destruct x eqn:?; try discriminate H
       end.
all: inversion H; subst; clear H; cbn.
all: match goal with
     | Hb : negb (BookingHandler.bind_CreateBookingRequest _) = false |- _ =>
         apply negb_false_iff in Hb
     end.
all: split; [assumption|]; split; [discriminate|];
  split; [eexists; eexists; reflexivity|]; split; [discriminate|reflexivity].
Qed.

Lemma resolve_services_with_bookings (db : Store.t) (bs : list Booking.t)
      (serviceIDs : list Z) :
  forall acc d p,
    BookingHandler.resolve_services (Store.with_bookings bs db)
                                    serviceIDs acc d p
    = BookingHandler.resolve_services db serviceIDs acc d p.
Proof.
induction serviceIDs as [|id rest IH]; intros acc d p; simpl; [reflexivity|].
change (ServiceRepository.GetByID (Store.with_bookings bs db) id)
  with (ServiceRepository.GetByID db id).
destruct (ServiceRepository.GetByID db id); [apply IH|reflexivity].
Qed.

(** Validation does not read the bookings table. *)
Lemma validated_with_bookings (db : Store.t) (bs : list Booking.t)
      (c : Context) (req : BookingHandler.CreateBookingRequest)
      (date : time.Date) (totalDuration : Z) :
  Request.validated db c req date totalDuration ->
  Request.validated (Store.with_bookings bs db) c req date totalDuration.
Proof.
unfold Request.validated. rewrite resolve_services_with_bookings.
exact (fun H => H).
Qed.




(* ------------------------------------------------------------------ *)
(** ** Configured origins and the CORS middleware *)

Lemma comma_free_app (s t : string) :
  config.comma_free (s ++ t) <-> config.comma_free s /\ config.comma_free t.
Proof. induction s as [|c s IH]; simpl; [tauto|]. rewrite IH. tauto. Qed.

Lemma append_empty_r (s : string) : s ++ EmptyString = s.
Proof. induction s as [|c s IH]; simpl; [reflexivity|]. rewrite IH. reflexivity. Qed.

Lemma append_assoc (s t u : string) : (s ++ t) ++ u = s ++ (t ++ u).
Proof. induction s as [|c s IH]; simpl; [reflexivity|]. rewrite IH. reflexivity. Qed.

Lemma append_nonempty (s : string) (c : ascii) :
  String.eqb (s ++ String c EmptyString) EmptyString = false.
Proof. destruct s; reflexivity. Qed.

Lemma parseCSV_from_fields (field rest f : string) :
  config.comma_free field ->
  In f (config.parseCSV_from field rest) ->
  f <> EmptyString /\ config.comma_free f.
Proof.
revert field. induction rest as [|c rest IH]; simpl; intros field Hfield Hin.
- destruct (String.eqb_spec field EmptyString) as [E|NE]; [destruct Hin|].
  destruct Hin as [E|[]]. subst f. auto.
- destruct (Ascii.eqb_spec c ",") as [Ec|NEc].
  + destruct (String.eqb_spec field EmptyString) as [E|NE].
    * apply (IH EmptyString); simpl; auto.
    * destruct Hin as [E|Hin]; [subst f; auto|].
      apply (IH EmptyString); simpl; auto.
  + apply (IH (field ++ String c EmptyString)); [|exact Hin].
    apply comma_free_app. simpl. auto.
Qed.

(** X1.  The origins [parseCSV] returns are never empty and never contain a
    comma: empty fields (doubled, leading or trailing commas) are dropped. *)
Theorem parseCSV_fields_nonempty_comma_free :
  forall (s f : string),
    In f (config.parseCSV s) -> f <> EmptyString /\ config.comma_free f.
Proof.
intros s f. apply parseCSV_from_fields. exact I.
Qed.

Lemma parseCSV_fields_nonempty_comma_free_witness :
  In "http://b" (config.parseCSV "http://a,,http://b,")
  /\ "http://b" <> EmptyString /\ config.comma_free "http://b".
Proof.
assert (H : In "http://b" (config.parseCSV "http://a,,http://b,"))
  by (vm_compute; auto).
split; [exact H|].
exact (parseCSV_fields_nonempty_comma_free _ _ H).
Defined.

Lemma parseCSV_from_prefix (field f rest : string) :
  config.comma_free f ->
  config.parseCSV_from field (f ++ rest)
  = config.parseCSV_from (field ++ f) rest.
Proof.
revert field. induction f as [|c f IH]; simpl; intros field Hf.
- rewrite append_empty_r. reflexivity.
- destruct Hf as [Hc Hf]. apply Ascii.eqb_neq in Hc. rewrite Hc.
  rewrite IH by exact Hf. rewrite append_assoc. reflexivity.
Qed.

Lemma parseCSV_from_concat (l : list string) :
  (forall f, In f l -> f <> EmptyString /\ config.comma_free f) ->
  config.parseCSV_from EmptyString (String.concat "," l) = l.
Proof.
induction l as [|x l IH]; intro Hl; [reflexivity|].
destruct (Hl x (or_introl eq_refl)) as [Hx Hcf].
apply String.eqb_neq in Hx.
assert (Hl' : forall f, In f l -> f <> EmptyString /\ config.comma_free f)
  by (intros; apply Hl; right; assumption).
specialize (IH Hl').
destruct l as [|y l].
- simpl. rewrite <- (append_empty_r x) at 1.
  rewrite parseCSV_from_prefix by exact Hcf. simpl. rewrite Hx. reflexivity.
- change (String.concat "," (x :: y :: l))
    with (x ++ String "," (String.concat "," (y :: l))).
  rewrite parseCSV_from_prefix by exact Hcf.
  change (EmptyString ++ x) with x.
  cbn [config.parseCSV_from]. rewrite Ascii.eqb_refl, Hx, IH. reflexivity.
Qed.

(** X2.  Round trip: parsing the comma-joined list of non-empty, comma-free
    entries gives the list back. *)
Theorem parseCSV_concat :
  forall (l : list string),
    (forall f, In f l -> f <> EmptyString /\ config.comma_free f) ->
    config.parseCSV (String.concat "," l) = l.
Proof.
intros l Hl. unfold config.parseCSV. apply parseCSV_from_concat. exact Hl.
Qed.

Lemma parseCSV_concat_witness :
  config.parseCSV (String.concat "," ["https://a.example"; "*"])
  = ["https://a.example"; "*"].
Proof.
apply (parseCSV_concat ["https://a.example"; "*"]).
intros f [E|[E|[]]]; subst f; split; try discriminate;
  simpl; repeat split; discriminate.
Defined.

Lemma origin_allowed_iff (origin : string) (allowedOrigins : list string) :
  middleware.origin_allowed origin allowedOrigins = true
  <-> In origin allowedOrigins \/ In "*" allowedOrigins.
Proof.
induction allowedOrigins as [|a rest IH]; simpl; [split; [discriminate|tauto]|].
destruct (String.eqb_spec origin a) as [E|NE]; simpl.
- subst. tauto.
- destruct (String.eqb_spec a "*") as [E|NE'].
  + subst. tauto.
  + rewrite IH. split; [tauto|].
    intros [[E|H]|[E|H]]; try congruence; tauto.
Qed.

(** X3.  With [ALLOWED_ORIGINS] set to the comma-joined list [l], the CORS
    middleware sets [Access-Control-Allow-Origin] exactly for a request
    whose origin is an entry of [l], or for every request when [l] has the
    entry [*]; the header then repeats the request's origin and credentials
    are allowed.  A preflight ([OPTIONS]) is always answered 204 without
    reaching the next handler, and any other request always goes on,
    allowed or not. *)
Theorem CORS_allowed_origins :
  forall (env : string -> string) (l : list string) (origin method : string),
    l <> [] ->
    (forall f, In f l -> f <> EmptyString /\ config.comma_free f) ->
    env "ALLOWED_ORIGINS" = String.concat "," l ->
    let o := middleware.CORS (config.Load_CORS env) origin method in
    (middleware.header "Access-Control-Allow-Origin" o <> None
     <-> In origin l \/ In "*" l)
    /\ (In origin l \/ In "*" l ->
        middleware.header "Access-Control-Allow-Origin" o = Some origin
        /\ middleware.header "Access-Control-Allow-Credentials" o
           = Some "true")
    /\ (~ (In origin l \/ In "*" l) -> middleware.headers o = [])
    /\ (middleware.aborted o
        = if String.eqb method "OPTIONS" then Some 204 else None).
Proof.
intros env l origin method Hne Hl Henv o.
assert (Hcfg : config.AllowedOrigins (config.Load_CORS env) = l).
{ unfold config.Load_CORS, config.getEnv. rewrite Henv. cbn [config.AllowedOrigins].
  destruct (String.eqb_spec (String.concat "," l) EmptyString) as [E|_].
  - exfalso. pose proof (parseCSV_from_concat l Hl) as Hp. rewrite E in Hp.
    cbn in Hp. congruence.
  - unfold config.parseCSV. apply parseCSV_from_concat. exact Hl. }
unfold o, middleware.CORS. rewrite Hcfg.
pose proof (origin_allowed_iff origin l) as Hiff.
destruct (middleware.origin_allowed origin l) eqn:Hallowed.
- assert (Hin : In origin l \/ In "*" l) by (apply Hiff; reflexivity).
  destruct (String.eqb method "OPTIONS"); cbn.
  + split; [split; [auto|discriminate]|]. split; [auto|]. split; [tauto|reflexivity].
  + split; [split; [auto|discriminate]|]. split; [auto|]. split; [tauto|reflexivity].
- assert (Hnot : ~ (In origin l \/ In "*" l))
    by (intro H; apply Hiff in H; discriminate H).
  destruct (String.eqb method "OPTIONS"); cbn.
  + split; [split; [intro H; exfalso; apply H; reflexivity|tauto]|].
    split; [tauto|]. split; [reflexivity|reflexivity].
  + split; [split; [intro H; exfalso; apply H; reflexivity|tauto]|].
    split; [tauto|]. split; [reflexivity|reflexivity].
Qed.

Lemma CORS_allowed_origins_witness :
  let env := fun key : string =>
               if String.eqb key "ALLOWED_ORIGINS"
               then "https://a.example,*" else EmptyString in
  let o := middleware.CORS (config.Load_CORS env) "https://evil.example"
                           "OPTIONS" in
  middleware.header "Access-Control-Allow-Origin" o
  = Some "https://evil.example"
  /\ middleware.header "Access-Control-Allow-Credentials" o = Some "true"
  /\ middleware.aborted o = Some 204.
Proof.
intros env o.
destruct (CORS_allowed_origins env ["https://a.example"; "*"]
            "https://evil.example" "OPTIONS") as (_ & Hset & _ & Habort).
- discriminate.
- intros f [E|[E|[]]]; subst f; split; try discriminate;
    simpl; repeat split; discriminate.
- reflexivity.
- destruct Hset as [H1 H2]; [right; right; left; reflexivity|].
  split; [exact H1|]. split; [exact H2|exact Habort].
Defined.

(* ------------------------------------------------------------------ *)
(** ** The settings table *)

Lemma filter_unique_key {A : Type} (key : A -> Z) (l : list A) (e : A) :
  NoDup (map key l) -> In e l ->
  filter (fun r => key r =? key e) l = [e].
Proof.
induction l as [|x l IH]; simpl; intros Hnd Hin; [destruct Hin|].
inversion Hnd as [|? ? Hnotin Hnd']; subst.
destruct Hin as [E|Hin].
- subst x. rewrite Z.eqb_refl. f_equal. apply filter_none.
  intros r Hr. apply Z.eqb_neq. intro Heq. apply Hnotin.
  rewrite <- Heq. apply in_map. exact Hr.
- destruct (Z.eqb_spec (key x) (key e)) as [Heq|_]; [|apply IH; assumption].
  exfalso. apply Hnotin. rewrite Heq. apply in_map. exact Hin.
Qed.

Lemma NoDup_snoc {A : Type} (l : list A) (x : A) :
  NoDup l -> ~ In x l -> NoDup (l ++ [x]).
Proof.
induction l as [|a l IH]; simpl; intros Hnd Hx.
- constructor; [tauto|constructor].
- inversion Hnd as [|? ? Ha Hnd']; subst. constructor.
  + intro Hin. apply in_app_or in Hin. destruct Hin as [Hin|[E|[]]];
      [tauto|]. subst. tauto.
  + apply IH; tauto.
Qed.

Lemma filter_map_in {A : Type} (p : A -> bool) (f : A -> A) (l : list A) :
  (forall x, In x l -> p (f x) = p x) ->
  filter p (map f l) = map f (filter p l).
Proof.
induction l as [|x l IH]; intro H; [reflexivity|]. cbn [map filter].
rewrite (H x (or_introl eq_refl)), IH by (intros; apply H; right; assumption).
destruct (p x); reflexivity.
Qed.

Lemma Settings_Get_In (table : list Settings.t) (key : string)
      (row : Settings.t) :
  SettingsRepository.Get table key = Some row ->
  In row table /\ Settings.Key row = key.
Proof.
unfold SettingsRepository.Get, gorm.First. intro H.
apply least_In, filter_In in H. destruct H as [Hin Hk].
apply String.eqb_eq in Hk. auto.
Qed.

Lemma Settings_Get_None (table : list Settings.t) (key : string) :
  SettingsRepository.Get table key = None ->
  forall r, In r table -> Settings.Key r <> key.
Proof.
unfold SettingsRepository.Get, gorm.First. intros H r Hin Hk.
apply least_None in H.
assert (Hr : In r []) by (rewrite <- H; apply filter_In; split;
                          [exact Hin | apply String.eqb_eq; exact Hk]).
destruct Hr.
Qed.

Lemma NoDup_key_inj {A B : Type} (key : A -> B) (l : list A) (x y : A) :
  NoDup (map key l) -> In x l -> In y l -> key x = key y -> x = y.
Proof.
induction l as [|a l IH]; simpl; intros Hnd Hx Hy Hk; [destruct Hx|].
inversion Hnd as [|? ? Hnotin Hnd']; subst.
destruct Hx as [Ex|Hx], Hy as [Ey|Hy]; subst; try reflexivity.
- exfalso. apply Hnotin. rewrite Hk. apply in_map. exact Hy.
- exfalso. apply Hnotin. rewrite <- Hk. apply in_map. exact Hx.
- apply IH; assumption.
Qed.

(** X4.  Upsert and lookup: on a table that meets its constraints, [Upsert]
    of a setting (as the handlers build it, without a key of its own)
    succeeds; afterwards [Get] of its key gives a row with its value and
    category, [Get] of every other key answers as before, the table still
    meets its constraints, and it has grown by one row only if the key was
    new. *)
Theorem Settings_Upsert_Get :
  forall (table : list Settings.t) (settings : Settings.t),
    SettingsRepository.constraints table ->
    Settings.ID settings = 0 ->
    exists table' row,
      SettingsRepository.Upsert table settings = (table', true)
      /\ SettingsRepository.Get table' (Settings.Key settings) = Some row
      /\ Settings.Key row = Settings.Key settings
      /\ Settings.Value row = Settings.Value settings
      /\ Settings.Category row = Settings.Category settings
      /\ (forall key, key <> Settings.Key settings ->
                      SettingsRepository.Get table' key
                      = SettingsRepository.Get table key)
      /\ SettingsRepository.constraints table'
      /\ List.length table'
         = match SettingsRepository.Get table (Settings.Key settings) with
           | None => S (List.length table)
           | Some _ => List.length table
           end.
Proof.
intros table settings [Hids Hkeys] Hzero.
unfold SettingsRepository.Upsert.
destruct (SettingsRepository.Get table (Settings.Key settings))
  as [existing|] eqn:Hget.
- (* update *)
  destruct (Settings_Get_In _ _ _ Hget) as [Hin Hkey].
  set (s' := Settings.with_ID (Settings.ID existing) settings).
  set (f := fun r : Settings.t =>
              if Settings.ID r =? Settings.ID s' then s' else r).
  assert (Hf : forall r, In r table ->
                         (r = existing /\ f r = s') \/
                         (Settings.Key r <> Settings.Key settings /\ f r = r)).
  { intros r Hr. unfold f. cbn [Settings.ID s' Settings.with_ID].
    destruct (Z.eqb_spec (Settings.ID r) (Settings.ID existing)) as [E|NE].
    - left. split; [|reflexivity].
      apply (NoDup_key_inj Settings.ID table); assumption.
    - right. split; [|reflexivity]. intro Hk. apply NE. f_equal.
      apply (NoDup_key_inj Settings.Key table); try assumption. congruence. }
  assert (Hsave : SettingsRepository.Save table s' = (map f table, true)).
  { unfold SettingsRepository.Save. fold f.
    replace (existsb _ table) with false; [reflexivity|].
    symmetry. apply not_true_is_false. intro Hex.
    apply existsb_exists in Hex. destruct Hex as (r & Hr & Hc).
    apply andb_prop in Hc. destruct Hc as [Hid Hk].
    apply negb_true_iff, Z.eqb_neq in Hid. apply String.eqb_eq in Hk.
    cbn in Hid, Hk. apply Hid. f_equal.
    apply (NoDup_key_inj Settings.Key table); try assumption. congruence. }
  assert (Hkeymap : map Settings.Key (map f table) = map Settings.Key table).
  { rewrite map_map. apply map_ext_in. intros r Hr.
    destruct (Hf r Hr) as [[E Hfr]|[_ Hfr]]; rewrite Hfr; [|reflexivity].
    subst r. cbn. congruence. }
  assert (Hidmap : map Settings.ID (map f table) = map Settings.ID table).
  { rewrite map_map. apply map_ext_in. intros r Hr.
    destruct (Hf r Hr) as [[E Hfr]|[_ Hfr]]; rewrite Hfr; [|reflexivity].
    subst r. reflexivity. }
  assert (Hfkey : forall r, In r table -> Settings.Key (f r) = Settings.Key r).
  { intros r Hr. destruct (Hf r Hr) as [[E Hfr]|[_ Hfr]]; rewrite Hfr;
      [|reflexivity]. subst r. cbn. congruence. }
  assert (Hfid : forall r, Settings.ID (f r) = Settings.ID r).
  { intro r. unfold f. cbn [Settings.ID s' Settings.with_ID].
    destruct (Z.eqb_spec (Settings.ID r) (Settings.ID existing));
      [symmetry; assumption|reflexivity]. }
  assert (Hfilter : forall key,
             filter (fun r => String.eqb (Settings.Key r) key) (map f table)
             = map f (filter (fun r => String.eqb (Settings.Key r) key) table)).
  { intro key. apply filter_map_in. intros r Hr. rewrite Hfkey by exact Hr.
    reflexivity. }
  exists (map f table), s'. split; [exact Hsave|].
  split.
  { unfold SettingsRepository.Get, gorm.First. rewrite Hfilter.
    rewrite least_map by exact Hfid.
    unfold SettingsRepository.Get, gorm.First in Hget. rewrite Hget.
    cbn [option_map]. f_equal.
    destruct (Hf existing Hin) as [[_ Hfe]|[Hne _]]; [exact Hfe|congruence]. }
  split; [reflexivity|]. split; [reflexivity|]. split; [reflexivity|].
  split.
  { intros key Hkey'. unfold SettingsRepository.Get, gorm.First.
    f_equal. rewrite Hfilter.
    transitivity (map (fun r : Settings.t => r)
                      (filter (fun r => String.eqb (Settings.Key r) key) table));
      [|apply map_id].
    apply map_ext_in. intros r Hr. apply filter_In in Hr.
    destruct Hr as [Hr Hk]. apply String.eqb_eq in Hk.
    destruct (Hf r Hr) as [[E Hfr]|[_ Hfr]]; [|exact Hfr].
    subst r. congruence. }
  split.
  { unfold SettingsRepository.constraints. rewrite Hidmap, Hkeymap. auto. }
  apply length_map.
- (* create *)
  pose proof (Settings_Get_None _ _ Hget) as Hfresh.
  set (row := Settings.with_ID (gorm.nextID Settings.ID table) settings).
  assert (Hcreate : SettingsRepository.Create table settings
                    = ((table ++ [row])%list, true)).
  { unfold SettingsRepository.Create. rewrite Hzero. cbn [Z.eqb]. fold row.
    replace (existsb _ table) with false; [reflexivity|].
    symmetry. apply not_true_is_false. intro Hex.
    apply existsb_exists in Hex. destruct Hex as (r & Hr & Hc).
    apply orb_prop in Hc. destruct Hc as [Hid|Hk].
    - apply Z.eqb_eq in Hid. unfold row in Hid.
      cbn [Settings.ID Settings.with_ID] in Hid.
      pose proof (nextID_above Settings.ID table r Hr). lia.
    - apply String.eqb_eq in Hk. cbn in Hk. exact (Hfresh r Hr Hk). }
  exists (table ++ [row])%list, row. split; [exact Hcreate|].
  assert (Hnone : forall key,
             filter (fun r => String.eqb (Settings.Key r) key)
                    (table ++ [row])
             = (filter (fun r => String.eqb (Settings.Key r) key) table
                ++ (if String.eqb (Settings.Key settings) key
                    then [row] else []))%list)
    by (intro key; rewrite filter_app; reflexivity).
  split.
  { unfold SettingsRepository.Get, gorm.First. rewrite Hnone.
    rewrite String.eqb_refl.
    rewrite filter_none; [reflexivity|].
    intros r Hr. apply String.eqb_neq. apply Hfresh. exact Hr. }
  split; [reflexivity|]. split; [reflexivity|]. split; [reflexivity|].
  split.
  { intros key Hkey'. unfold SettingsRepository.Get, gorm.First.
    rewrite Hnone.
    destruct (String.eqb_spec (Settings.Key settings) key); [congruence|].
    rewrite app_nil_r. reflexivity. }
  split.
  { unfold SettingsRepository.constraints. rewrite !map_app. cbn [map].
    split; apply NoDup_snoc.
    - exact Hids.
    - intro Hin. apply in_map_iff in Hin. destruct Hin as (r & Hid & Hr).
      unfold row in Hid. cbn [Settings.ID Settings.with_ID] in Hid.
      pose proof (nextID_above Settings.ID table r Hr). lia.
    - exact Hkeys.
    - intro Hin. apply in_map_iff in Hin. destruct Hin as (r & Hk & Hr).
      cbn in Hk. exact (Hfresh r Hr Hk). }
  rewrite length_app. cbn. lia.
Qed.

Lemma Settings_Upsert_Get_witness :
  let table := [Settings.mk 1 "branding" "old" "branding"] in
  let settings := Settings.mk 0 "branding" "new" "branding" in
  exists table' row,
    SettingsRepository.Upsert table settings = (table', true)
    /\ SettingsRepository.Get table' "branding" = Some row
    /\ Settings.Key row = "branding"
    /\ Settings.Value row = "new"
    /\ Settings.Category row = "branding"
    /\ (forall key, key <> "branding" ->
                    SettingsRepository.Get table' key
                    = SettingsRepository.Get table key)
    /\ SettingsRepository.constraints table'
    /\ List.length table' = 1%nat.
Proof.
intros table settings.
apply (Settings_Upsert_Get table settings).
- split; (constructor; [simpl; tauto | constructor]).
- reflexivity.
Defined.

(* ------------------------------------------------------------------ *)
(** ** What creating a booking does to the store *)

Lemma CreateBooking_check_inl (db : Store.t) (c : Context)
      (req : BookingHandler.CreateBookingRequest)
      (response : Response (option Booking.t)) :
  BookingHandler.CreateBooking_check db c req = inl response ->
  Concurrent.created response = false.
Proof.
unfold BookingHandler.CreateBooking_check. intro H.
repeat match type of H with
       | context [match ?x with _ => _ end] =>
           destruct x eqn:?; try discriminate H
       end.
all: inversion H; subst; reflexivity.
Qed.

Lemma CreateBooking_of_check (db : Store.t) (c : Context)
      (req : BookingHandler.CreateBookingRequest) (booking : Booking.t) :
  BookingHandler.CreateBooking_check db c req = inr booking ->
  let row :=
    Booking.with_ID (gorm.nextID Booking.ID (Store.bookings db)) booking in
  BookingHandler.CreateBooking db c req
  = (JSON http.StatusCreated (Some row),
     Store.with_bookings (Store.bookings db ++ [row]) db).
Proof.
intros Hc row.
destruct (CreateBooking_check_inr _ _ _ _ Hc)
  as (? & ? & ? & ? & ? & _ & _ & _ & _ & _ & Hlive & _).
unfold BookingHandler.CreateBooking. rewrite Hc.
unfold BookingHandler.CreateBooking_insert.
pose proof (GetByID_Create db booking Hlive) as Hget.
unfold BookingRepository.Create in *. cbn [fst snd] in Hget.
rewrite Hget. reflexivity.
Qed.

(** X5.  [CreateBooking] writes only when it answers 201: with any other
    answer the store is left as it was, and with 201 the store differs
    from the old one by exactly one appended booking, which is pending,
    belongs to the caller and carries a key above every key in use. *)
Theorem CreateBooking_writes_only_when_created :
  forall (db : Store.t) (c : Context)
         (req : BookingHandler.CreateBookingRequest),
    (Concurrent.created (fst (BookingHandler.CreateBooking db c req)) = false
     /\ snd (BookingHandler.CreateBooking db c req) = db)
    \/ (exists row,
           BookingHandler.CreateBooking db c req
           = (JSON http.StatusCreated (Some row),
              Store.with_bookings (Store.bookings db ++ [row]) db)
           /\ Booking.Status row = "pending"
           /\ Booking.UserID row = UserID c
           /\ Booking.DeletedAt row = false
           /\ forall b, In b (Store.bookings db) ->
                        Booking.ID b < Booking.ID row).
Proof.
intros db c req.
destruct (BookingHandler.CreateBooking_check db c req) as [r|booking] eqn:Hc.
- left. unfold BookingHandler.CreateBooking. rewrite Hc. cbn [fst snd].
  split; [exact (CreateBooking_check_inl _ _ _ _ Hc)|reflexivity].
- right. eexists. split; [exact (CreateBooking_of_check _ _ _ _ Hc)|].
  destruct (CreateBooking_check_inr _ _ _ _ Hc)
    as (? & ? & ? & ? & ? & _ & _ & _ & _ & _ & Hlive & Huser & _ & _ & _ & _
        & _ & _ & _ & Hstatus).
  cbn. repeat split; auto.
  intros b Hb. apply (nextID_above Booking.ID). exact Hb.
Qed.

Lemma CreateBooking_check_contact (db : Store.t) (c : Context)
      (req : BookingHandler.CreateBookingRequest) (booking : Booking.t) :
  BookingHandler.CreateBooking_check db c req = inr booking ->
  exists user,
    UserRepository.GetByID db (UserID c) = Some user
    /\ Booking.CustomerName booking
       = (if String.eqb (BookingHandler.CustomerName req) EmptyString
          then User.Name user else BookingHandler.CustomerName req)
    /\ Booking.CustomerPhone booking
       = (if String.eqb (BookingHandler.CustomerPhone req) EmptyString
          then match User.Phone user with
               | Some phone => phone
               | None => EmptyString
               end
          else BookingHandler.CustomerPhone req)
    /\ Booking.CustomerEmail booking
       = (if String.eqb (BookingHandler.CustomerEmail req) EmptyString
          then User.Email user else BookingHandler.CustomerEmail req)
    /\ Booking.Notes booking = BookingHandler.Notes req.
Proof.
unfold BookingHandler.CreateBooking_check. intro H.
repeat match type of H with
       | context [match ?x with _ => _ end] =>
           destruct x eqn:?; try discriminate H
       end.
all: inversion H; subst; clear H; cbn.
all: eexists; split; [reflexivity|].
all: repeat match goal with
            | Hq : String.eqb _ EmptyString = _ |- _ => rewrite Hq
            end.
all: repeat match goal with
            | Hq : User.Phone _ = _ |- _ => rewrite Hq
            end.
all: repeat split; try reflexivity.
all: apply String.eqb_eq; assumption.
Qed.

(** X6.  The contact details of a created booking: each of name, phone and
    e-mail is the one given in the request when it is not empty, and
    otherwise the one of the caller's profile (an empty phone when the
    profile has none); the notes are those of the request. *)
Theorem CreateBooking_customer_contact :
  forall (db db' : Store.t) (c : Context)
         (req : BookingHandler.CreateBookingRequest) (row : Booking.t),
    BookingHandler.CreateBooking db c req
    = (JSON http.StatusCreated (Some row), db') ->
    exists user,
      UserRepository.GetByID db (UserID c) = Some user
      /\ Booking.CustomerName row
         = (if String.eqb (BookingHandler.CustomerName req) EmptyString
            then User.Name user else BookingHandler.CustomerName req)
      /\ Booking.CustomerPhone row
         = (if String.eqb (BookingHandler.CustomerPhone req) EmptyString
            then match User.Phone user with
                 | Some phone => phone
                 | None => EmptyString
                 end
            else BookingHandler.CustomerPhone req)
      /\ Booking.CustomerEmail row
         = (if String.eqb (BookingHandler.CustomerEmail req) EmptyString
            then User.Email user else BookingHandler.CustomerEmail req)
      /\ Booking.Notes row = BookingHandler.Notes req.
Proof.
intros db db' c req row Hcreate.
destruct (CreateBooking_created _ _ _ _ _ Hcreate) as (booking & Hc & Hrow & _).
destruct (CreateBooking_check_contact _ _ _ _ Hc) as (user & Hu & H).
exists user. split; [exact Hu|]. subst row. exact H.
Qed.

Lemma CreateBooking_customer_contact_witness :
  exists row db',
    BookingHandler.CreateBooking
      Example_salon.db0 Example_salon.as_bob
      (BookingHandler.mkCreateBookingRequest
         [1] 1 "2024-01-01" "10:00" "fringe only" "Robert" EmptyString
         EmptyString)
    = (JSON http.StatusCreated (Some row), db')
    /\ Booking.CustomerName row = "Robert"
    /\ Booking.CustomerPhone row = EmptyString
    /\ Booking.CustomerEmail row = "bob@example.com"
    /\ Booking.Notes row = "fringe only".
Proof.
eexists; eexists. split; [vm_compute; reflexivity|].
match goal with
| |- Booking.CustomerName ?row = _ /\ _ =>
    destruct (CreateBooking_customer_contact
                Example_salon.db0
                (snd (BookingHandler.CreateBooking
                        Example_salon.db0 Example_salon.as_bob
                        (BookingHandler.mkCreateBookingRequest
                           [1] 1 "2024-01-01" "10:00" "fringe only" "Robert"
                           EmptyString EmptyString)))
                Example_salon.as_bob
                (BookingHandler.mkCreateBookingRequest
                   [1] 1 "2024-01-01" "10:00" "fringe only" "Robert"
                   EmptyString EmptyString)
                row eq_refl)
      as (user & Hu & Hn & Hp & He & Hnotes)
end.
vm_compute in Hu. inversion Hu; subst user.
split; [exact Hn|]. split; [exact Hp|]. split; [exact He|exact Hnotes].
Defined.

Lemma resolve_services_unknown (db : Store.t) (pre post : list Z) (id : Z) :
  forall acc d p,
    (forall i, In i pre -> ServiceRepository.GetByID db i <> None) ->
    ServiceRepository.GetByID db id = None ->
    BookingHandler.resolve_services db (pre ++ id :: post) acc d p = inl id.
Proof.
induction pre as [|i pre IH]; intros acc d p Hpre Hid; simpl.
- rewrite Hid. reflexivity.
- destruct (ServiceRepository.GetByID db i) eqn:Hi.
  + apply IH; [|exact Hid]. intros; apply Hpre; right; assumption.
  + exfalso. apply (Hpre i (or_introl eq_refl)). exact Hi.
Qed.

(** X7.  A request naming a service that does not exist is answered 400
    with the first such ID, in request order, before the stylist and the
    date are looked at, and nothing is stored. *)
Theorem CreateBooking_unknown_service :
  forall (db : Store.t) (c : Context)
         (req : BookingHandler.CreateBookingRequest)
         (pre post : list Z) (id : Z),
    BookingHandler.bind_CreateBookingRequest req = true ->
    UserRepository.GetByID db (UserID c) <> None ->
    BookingHandler.ServiceIDs req = (pre ++ id :: post)%list ->
    (forall i, In i pre -> ServiceRepository.GetByID db i <> None) ->
    ServiceRepository.GetByID db id = None ->
    BookingHandler.CreateBooking db c req
    = (Error http.StatusBadRequest ("Invalid service ID: " ++ Go.itoa id), db).
Proof.
intros db c req pre post id Hbind Huser Hids Hpre Hid.
unfold BookingHandler.CreateBooking, BookingHandler.CreateBooking_check.
rewrite Hbind. cbn [negb].
destruct (UserRepository.GetByID db (UserID c)); [|congruence].
rewrite Hids, (resolve_services_unknown db pre post id _ _ _ Hpre Hid).
reflexivity.
Qed.

Lemma CreateBooking_unknown_service_witness :
  BookingHandler.CreateBooking
    Example_salon.db0 Example_salon.as_alice
    (BookingHandler.mkCreateBookingRequest
       [1; 9; 8] 77 "not a date" "x" EmptyString EmptyString EmptyString
       EmptyString)
  = (Error http.StatusBadRequest "Invalid service ID: 9", Example_salon.db0).
Proof.
apply (CreateBooking_unknown_service
         Example_salon.db0 Example_salon.as_alice
         (BookingHandler.mkCreateBookingRequest
            [1; 9; 8] 77 "not a date" "x" EmptyString EmptyString EmptyString
            EmptyString)
         [1] [8] 9).
- reflexivity.
- discriminate.
- reflexivity.
- intros i [E|[]]. subst i. discriminate.
- reflexivity.
Defined.

(* ------------------------------------------------------------------ *)
(** ** Fetching and cancelling bookings *)

Lemma GetByID_after_append (db : Store.t) (row : Booking.t) (id : Z) :
  id <> Booking.ID row ->
  BookingRepository.GetByID
    (Store.with_bookings (Store.bookings db ++ [row]) db) id
  = BookingRepository.GetByID db id.
Proof.
intro Hne. unfold BookingRepository.GetByID. cbn [Store.bookings Store.with_bookings].
rewrite filter_app. cbn [filter].
destruct (Z.eqb_spec (Booking.ID row) id) as [E|_]; [congruence|].
rewrite andb_false_r, app_nil_r. reflexivity.
Qed.

(** X8.  A created booking can be fetched: its owner gets it back by its
    key, another caller who is not an administrator is refused, and every
    other key is answered as before the creation. *)
Theorem created_booking_can_be_fetched :
  forall (db db' : Store.t) (c : Context)
         (req : BookingHandler.CreateBookingRequest) (row : Booking.t)
         (idParam : string),
    BookingHandler.CreateBooking db c req
    = (JSON http.StatusCreated (Some row), db') ->
    Go.ParseUint32 idParam = Some (Booking.ID row) ->
    BookingHandler.GetBooking db' c idParam = JSON http.StatusOK row
    /\ (forall c', UserRole c' <> "admin" -> UserID c' <> UserID c ->
                   BookingHandler.GetBooking db' c' idParam
                   = Error http.StatusForbidden "Access denied")
    /\ (forall c' p id, Go.ParseUint32 p = Some id -> id <> Booking.ID row ->
                        BookingHandler.GetBooking db' c' p
                        = BookingHandler.GetBooking db c' p).
Proof.
intros db db' c req row idParam Hcreate Hid.
destruct (CreateBooking_created _ _ _ _ _ Hcreate) as (booking & Hc & Hrow & Hdb).
destruct (CreateBooking_check_inr _ _ _ _ Hc)
  as (? & ? & ? & ? & ? & _ & _ & _ & _ & _ & Hlive & Huser & _).
assert (Hget : BookingRepository.GetByID db' (Booking.ID row) = Some row).
{ pose proof (GetByID_Create db booking Hlive) as Hg.
  unfold BookingRepository.Create in Hg. cbn [fst snd] in Hg.
  rewrite <- Hrow in Hg. rewrite <- Hdb in Hg. exact Hg. }
assert (Howner : Booking.UserID row = UserID c) by (subst row; exact Huser).
split; [|split].
- unfold BookingHandler.GetBooking. rewrite Hid, Hget, Howner, Z.eqb_refl.
  rewrite andb_false_r. reflexivity.
- intros c' Hrole Hother. unfold BookingHandler.GetBooking.
  rewrite Hid, Hget, Howner.
  apply String.eqb_neq in Hrole. rewrite Hrole.
  destruct (Z.eqb_spec (UserID c) (UserID c')); [congruence|reflexivity].
- intros c' p id Hp Hne. unfold BookingHandler.GetBooking. rewrite Hp, Hdb.
  rewrite GetByID_after_append by exact Hne. reflexivity.
Qed.

Lemma created_booking_can_be_fetched_witness :
  exists row db',
    BookingHandler.CreateBooking
      (Example_salon.db1 "pending") Example_salon.as_bob
      (Example_salon.request Example_salon.as_bob [1] "2024-01-01" "14:00")
    = (JSON http.StatusCreated (Some row), db')
    /\ BookingHandler.GetBooking db' Example_salon.as_bob "2"
       = JSON http.StatusOK row
    /\ BookingHandler.GetBooking db' Example_salon.as_alice "2"
       = Error http.StatusForbidden "Access denied".
Proof.
eexists; eexists. split; [vm_compute; reflexivity|].
match goal with
| |- BookingHandler.GetBooking ?db' _ _ = JSON _ ?row /\ _ =>
    destruct (created_booking_can_be_fetched
                (Example_salon.db1 "pending") db' Example_salon.as_bob
                (Example_salon.request Example_salon.as_bob [1]
                                       "2024-01-01" "14:00")
                row "2" eq_refl eq_refl) as (Hown & Hother & _)
end.
split; [exact Hown|]. apply Hother; discriminate.
Defined.

Lemma cancelled_not_cancellable (b : Booking.t) :
  IsCancellable (Booking.with_Status "cancelled" b) = false.
Proof. reflexivity. Qed.

Lemma UpdateStatus_keeps_others (db : Store.t) (id : Z) (status : string)
      (b : Booking.t) :
  In b (Store.bookings db) -> Booking.ID b <> id ->
  In b (Store.bookings (BookingRepository.UpdateStatus db id status)).
Proof.
intros Hin Hne. unfold BookingRepository.UpdateStatus.
cbn [Store.bookings Store.with_bookings]. apply in_map_iff. exists b.
split; [|exact Hin].
destruct (Z.eqb_spec (Booking.ID b) id); [congruence|].
rewrite andb_false_r. reflexivity.
Qed.

(** A cancellation that passes every check. *)
Lemma CancelBooking_steps (db : Store.t) (c : Context) (idParam : string)
      (id : Z) (b : Booking.t) :
  Go.ParseUint32 idParam = Some id ->
  BookingRepository.GetByID db id = Some b ->
  UserRole c = "admin" \/ Booking.UserID b = UserID c ->
  IsCancellable b = true ->
  BookingHandler.CancelBooking db c idParam
  = (JSON http.StatusOK (Some (Booking.with_Status "cancelled" b)),
     BookingRepository.UpdateStatus db id "cancelled").
Proof.
intros Hid Hget Hauth Hcan.
assert (Hpass : negb (String.eqb (UserRole c) "admin")
                && negb (Booking.UserID b =? UserID c) = false).
{ destruct Hauth as [Hadmin|Hown].
  - rewrite Hadmin. reflexivity.
  - rewrite Hown, Z.eqb_refl. apply andb_false_r. }
unfold BookingHandler.CancelBooking.
rewrite Hid, Hget, Hpass, Hcan. cbn [negb].
change BookingStatusCancelled with "cancelled".
rewrite GetByID_UpdateStatus, Hget. reflexivity.
Qed.

(** X9.  Cancelling: the owner of a booking, or an administrator, cancels a
    pending or confirmed booking with answer 200; the stored status becomes
    cancelled, the bookings with other keys stay as they are and no row is
    added or removed; a second cancellation of the same booking is answered
    400 and changes nothing.  A booking that is completed or cancelled
    already is answered 400 at once. *)
Theorem CancelBooking_once :
  forall (db : Store.t) (c : Context) (idParam : string) (id : Z)
         (b : Booking.t),
    Go.ParseUint32 idParam = Some id ->
    BookingRepository.GetByID db id = Some b ->
    UserRole c = "admin" \/ Booking.UserID b = UserID c ->
    let db' := BookingRepository.UpdateStatus db id "cancelled" in
    if IsCancellable b
    then BookingHandler.CancelBooking db c idParam
         = (JSON http.StatusOK (Some (Booking.with_Status "cancelled" b)), db')
         /\ (forall b', In b' (Store.bookings db) -> Booking.ID b' <> id ->
                        In b' (Store.bookings db'))
         /\ List.length (Store.bookings db') = List.length (Store.bookings db)
         /\ BookingHandler.CancelBooking db' c idParam
            = (Error http.StatusBadRequest "Booking cannot be cancelled", db')
    else BookingHandler.CancelBooking db c idParam
         = (Error http.StatusBadRequest "Booking cannot be cancelled", db).
Proof.
intros db c idParam id b Hid Hget Hauth db'.
assert (Hpass : negb (String.eqb (UserRole c) "admin")
                && negb (Booking.UserID b =? UserID c) = false).
{ destruct Hauth as [Hadmin|Hown].
  - rewrite Hadmin. reflexivity.
  - rewrite Hown, Z.eqb_refl. apply andb_false_r. }
destruct (IsCancellable b) eqn:Hcan.
- assert (Hget' : BookingRepository.GetByID db' id
                  = Some (Booking.with_Status "cancelled" b))
    by (unfold db'; rewrite GetByID_UpdateStatus, Hget; reflexivity).
  split; [|split; [|split]].
  + unfold BookingHandler.CancelBooking.
    rewrite Hid, Hget, Hpass, Hcan. cbn [negb].
    change BookingStatusCancelled with "cancelled".
    fold db'. rewrite Hget'. reflexivity.
  + intros b' Hin Hne. apply UpdateStatus_keeps_others; assumption.
  + unfold db', BookingRepository.UpdateStatus.
    cbn [Store.bookings Store.with_bookings]. apply length_map.
  + unfold BookingHandler.CancelBooking.
    rewrite Hid, Hget'. cbn [Booking.UserID Booking.with_Status].
    rewrite Hpass, cancelled_not_cancellable. reflexivity.
- unfold BookingHandler.CancelBooking.
  rewrite Hid, Hget, Hpass, Hcan. reflexivity.
Qed.

Lemma CancelBooking_once_witness :
  BookingHandler.CancelBooking
    (Example_salon.db1 "confirmed") Example_salon.as_alice "1"
  = (JSON http.StatusOK (Some (Example_salon.booking_10_11 "cancelled")),
     Example_salon.db1 "cancelled")
  /\ BookingHandler.CancelBooking
       (Example_salon.db1 "cancelled") Example_salon.as_alice "1"
     = (Error http.StatusBadRequest "Booking cannot be cancelled",
        Example_salon.db1 "cancelled").
Proof.
pose proof (CancelBooking_once
              (Example_salon.db1 "confirmed") Example_salon.as_alice "1" 1
              (Example_salon.booking_10_11 "confirmed")
              eq_refl eq_refl (or_intror eq_refl)) as H.
cbv zeta in H. change (IsCancellable _) with true in H. cbv iota in H.
destruct H as (H1 & _ & _ & H2). split; [exact H1|exact H2].
Defined.

(** The availability check reads the bookings table only through the
    conflict query. *)
Lemma IsAvailable_same_conflicts (db : Store.t) (bs : list Booking.t)
      (stylistID : Z) (date : time.Date) (startTime endTime : string) :
  StylistRepository.conflicting (Store.with_bookings bs db)
                                stylistID date startTime endTime
  = StylistRepository.conflicting db stylistID date startTime endTime ->
  StylistRepository.IsAvailable (Store.with_bookings bs db)
                                stylistID date startTime endTime
  = StylistRepository.IsAvailable db stylistID date startTime endTime.
Proof.
intro H. unfold StylistRepository.IsAvailable. rewrite H. reflexivity.
Qed.

Lemma CreateBooking_check_with_bookings (db : Store.t) (bs : list Booking.t)
      (c : Context) (req : BookingHandler.CreateBookingRequest) :
  (forall date startTime endTime,
      StylistRepository.IsAvailable (Store.with_bookings bs db)
        (BookingHandler.StylistID req) date startTime endTime
      = StylistRepository.IsAvailable db
          (BookingHandler.StylistID req) date startTime endTime) ->
  BookingHandler.CreateBooking_check (Store.with_bookings bs db) c req
  = BookingHandler.CreateBooking_check db c req.
Proof.
intro Hav. unfold BookingHandler.CreateBooking_check.
destruct (negb (BookingHandler.bind_CreateBookingRequest req)); [reflexivity|].
change (UserRepository.GetByID (Store.with_bookings bs db) (UserID c))
  with (UserRepository.GetByID db (UserID c)).
destruct (UserRepository.GetByID db (UserID c)) as [user|]; [|reflexivity].
rewrite resolve_services_with_bookings.
destruct (BookingHandler.resolve_services _ _ _ _ _)
  as [id|[[services totalDuration] totalPrice]]; [reflexivity|].
change (StylistRepository.GetByID (Store.with_bookings bs db)
                                  (BookingHandler.StylistID req))
  with (StylistRepository.GetByID db (BookingHandler.StylistID req)).
destruct (StylistRepository.GetByID db (BookingHandler.StylistID req));
  [|reflexivity].
destruct (time.Parse_date (BookingHandler.Date req)); [|reflexivity].
destruct (BookingHandler.end_time _ _); [|reflexivity].
rewrite Hav. reflexivity.
Qed.

(** The bookings table after a booking was appended and cancelled. *)
Lemma bookings_after_create_and_cancel (db : Store.t) (row : Booking.t) :
  Booking.DeletedAt row = false ->
  (forall b, In b (Store.bookings db) -> Booking.ID b < Booking.ID row) ->
  BookingRepository.UpdateStatus
    (Store.with_bookings (Store.bookings db ++ [row]) db)
    (Booking.ID row) "cancelled"
  = Store.with_bookings
      (Store.bookings db ++ [Booking.with_Status "cancelled" row]) db.
Proof.
intros Hlive Hfresh. unfold BookingRepository.UpdateStatus.
cbn [Store.bookings Store.with_bookings Store.users Store.services
     Store.stylists Store.schedules].
unfold Store.with_bookings. f_equal. rewrite map_app. cbn [map].
rewrite Hlive, Z.eqb_refl. cbn [negb andb]. f_equal.
transitivity (map (fun b : Booking.t => b) (Store.bookings db));
  [|apply map_id].
apply map_ext_in. intros b Hb. specialize (Hfresh b Hb).
destruct (Z.eqb_spec (Booking.ID b) (Booking.ID row)); [lia|].
rewrite andb_false_r. reflexivity.
Qed.

(** X10.  A cancelled booking releases its slot: after a booking was
    created and then cancelled by its owner, the same request is accepted
    again and a second booking for the very same interval is stored. *)
Theorem cancelled_booking_releases_slot :
  forall (db db1 : Store.t) (c : Context)
         (req : BookingHandler.CreateBookingRequest) (row : Booking.t)
         (idParam : string),
    BookingHandler.CreateBooking db c req
    = (JSON http.StatusCreated (Some row), db1) ->
    Go.ParseUint32 idParam = Some (Booking.ID row) ->
    exists (db2 db3 : Store.t) (row' : Booking.t),
      BookingHandler.CancelBooking db1 c idParam
      = (JSON http.StatusOK (Some (Booking.with_Status "cancelled" row)), db2)
      /\ BookingHandler.CreateBooking db2 c req
         = (JSON http.StatusCreated (Some row'), db3)
      /\ Booking.StartTime row' = Booking.StartTime row
      /\ Booking.EndTime row' = Booking.EndTime row
      /\ Booking.BookingDate row' = Booking.BookingDate row
      /\ Booking.StylistID row' = Booking.StylistID row
      /\ Booking.ID row < Booking.ID row'
      /\ Store.bookings db3
         = (Store.bookings db
            ++ [Booking.with_Status "cancelled" row; row'])%list.
Proof.
intros db db1 c req row idParam Hcreate Hid.
destruct (CreateBooking_created _ _ _ _ _ Hcreate) as (booking & Hc & Hrow & Hdb1).
destruct (CreateBooking_check_inr _ _ _ _ Hc)
  as (? & ? & ? & ? & ? & _ & _ & _ & _ & _ & Hlive & Huser & _ & _ & _ & _
      & _ & _ & _ & Hstatus).
assert (Hrlive : Booking.DeletedAt row = false) by (subst row; exact Hlive).
assert (Hfresh : forall b, In b (Store.bookings db) ->
                           Booking.ID b < Booking.ID row).
{ intros b Hb. subst row. apply (nextID_above Booking.ID). exact Hb. }
assert (Hget : BookingRepository.GetByID db1 (Booking.ID row) = Some row).
{ pose proof (GetByID_Create db booking Hlive) as Hg.
  unfold BookingRepository.Create in Hg. cbn [fst snd] in Hg.
  rewrite <- Hrow in Hg. rewrite <- Hdb1 in Hg. exact Hg. }
set (cancelled := Booking.with_Status "cancelled" row).
set (db2 := Store.with_bookings (Store.bookings db ++ [cancelled]) db).
assert (Hdb2 : BookingRepository.UpdateStatus db1 (Booking.ID row) "cancelled"
               = db2).
{ rewrite Hdb1. apply bookings_after_create_and_cancel; assumption. }
assert (Hcancel : BookingHandler.CancelBooking db1 c idParam
                  = (JSON http.StatusOK (Some cancelled), db2)).
{ pose proof (CancelBooking_steps db1 c idParam (Booking.ID row) row
                Hid Hget) as Hs.
  rewrite Hdb2 in Hs. apply Hs.
  - right. subst row. exact Huser.
  - subst row. unfold IsCancellable. cbn. rewrite Hstatus. reflexivity. }
assert (Hsame : BookingHandler.CreateBooking_check db2 c req = inr booking).
{ unfold db2. rewrite CreateBooking_check_with_bookings; [exact Hc|].
  intros date startTime endTime. apply IsAvailable_same_conflicts.
  unfold StylistRepository.conflicting.
  cbn [Store.bookings Store.with_bookings].
  rewrite filter_app. cbn [filter].
  unfold cancelled. cbn [Booking.Status Booking.with_Status].
  change (String.eqb "cancelled" "pending") with false.
  change (String.eqb "cancelled" "confirmed") with false.
  cbn [orb]. rewrite !andb_false_r. cbn [andb]. apply app_nil_r. }
pose proof (CreateBooking_of_check _ _ _ _ Hsame) as Hagain.
cbv zeta in Hagain.
eexists db2, _, _. split; [exact Hcancel|]. split; [exact Hagain|].
subst row. cbn.
repeat split.
- assert (Hin : In cancelled (Store.bookings db2))
    by (unfold db2; cbn; apply in_or_app; right; left; reflexivity).
  apply (nextID_above Booking.ID) in Hin. exact Hin.
- unfold db2. cbn. rewrite <- app_assoc. reflexivity.
Qed.

Lemma cancelled_booking_releases_slot_witness :
  let req :=
    Example_salon.request Example_salon.as_alice [1] "2024-01-01" "10:00" in
  exists (row : Booking.t) (db1 db2 db3 : Store.t) (row' : Booking.t),
    BookingHandler.CreateBooking Example_salon.db0 Example_salon.as_alice req
    = (JSON http.StatusCreated (Some row), db1)
    /\ BookingHandler.CancelBooking db1 Example_salon.as_alice "1"
       = (JSON http.StatusOK (Some (Booking.with_Status "cancelled" row)), db2)
    /\ BookingHandler.CreateBooking db2 Example_salon.as_alice req
       = (JSON http.StatusCreated (Some row'), db3)
    /\ Booking.StartTime row' = Booking.StartTime row
    /\ Booking.ID row < Booking.ID row'.
Proof.
intro req.
assert (Hcreate :
          BookingHandler.CreateBooking Example_salon.db0 Example_salon.as_alice
                                       req
          = (JSON http.StatusCreated
                  (Some (Booking.with_ID 1
                           (Booking.mk 0 false 1 1
                              [BookingServiceItem.mk 1 "Cut" 500 30]
                              (time.mkDate 2024 1 1) "10:00" "10:30" 30 500
                              "pending" EmptyString "Alice" "0911"
                              "alice@example.com"))),
             snd (BookingHandler.CreateBooking
                    Example_salon.db0 Example_salon.as_alice req)))
  by reflexivity.
destruct (cancelled_booking_releases_slot _ _ _ _ _ "1" Hcreate eq_refl)
  as (db2 & db3 & row' & Hcancel & Hagain & Hst & _ & _ & _ & Hid & _).
eexists; exists (snd (BookingHandler.CreateBooking
                        Example_salon.db0 Example_salon.as_alice req)).
exists db2, db3, row'.
split; [exact Hcreate|]. split; [exact Hcancel|]. split; [exact Hagain|].
split; [exact Hst|exact Hid].
Defined.

(* ------------------------------------------------------------------ *)
(** ** Listing bookings *)

Section Order_facts.

Context {A : Type}.
Variable le : A -> A -> bool.
Hypothesis le_total : forall a b, le a b = true \/ le b a = true.

Let R (a b : A) : Prop := le a b = true.

Lemma insert_by_HdRel (x y : A) (l : list A) :
  HdRel R y l -> le y x = true -> HdRel R y (gorm.insert_by le x l).
Proof.
intros Hhd Hyx. destruct l as [|z l]; simpl.
- constructor. exact Hyx.
- destruct (le x z); constructor; [exact Hyx|].
  inversion Hhd; assumption.
Qed.

Lemma insert_by_Sorted (x : A) (l : list A) :
  Sorted R l -> Sorted R (gorm.insert_by le x l).
Proof.
induction l as [|y l IH]; simpl; intro Hs.
- constructor; constructor.
- inversion Hs as [|? ? Hs' Hhd]; subst.
  destruct (le x y) eqn:Hxy.
  + constructor; [exact Hs|]. constructor. exact Hxy.
  + constructor; [apply IH; exact Hs'|].
    apply insert_by_HdRel; [exact Hhd|].
    destruct (le_total x y) as [H|H]; [congruence|exact H].
Qed.

Lemma Order_Sorted (l : list A) : Sorted R (gorm.Order le l).
Proof.
unfold gorm.Order. induction l as [|x l IH]; simpl; [constructor|].
apply insert_by_Sorted. exact IH.
Qed.

Lemma Sorted_firstn (n : nat) (l : list A) : Sorted R l -> Sorted R (firstn n l).
Proof.
revert l. induction n as [|n IH]; intros [|x l] Hs; simpl; try constructor.
- inversion Hs; subst. apply IH. assumption.
- inversion Hs as [|? ? Hs' Hhd]; subst.
  destruct n; destruct l as [|y l]; simpl; constructor.
  inversion Hhd; assumption.
Qed.

Lemma Sorted_skipn (n : nat) (l : list A) : Sorted R l -> Sorted R (skipn n l).
Proof.
revert l. induction n as [|n IH]; intros [|x l] Hs; simpl; try assumption.
apply IH. inversion Hs; assumption.
Qed.

Lemma Sorted_adjacent (l : list A) (i : nat) (a b : A) :
  Sorted R l ->
  nth_error l i = Some a -> nth_error l (S i) = Some b -> le a b = true.
Proof.
revert l. induction i as [|i IH]; intros [|x l] Hs Ha Hb; try discriminate.
- simpl in Ha, Hb. inversion Ha; subst x.
  inversion Hs as [|? ? _ Hhd]; subst.
  destruct l as [|y l]; [discriminate|]. simpl in Hb. inversion Hb; subst y.
  inversion Hhd; assumption.
- simpl in Ha. apply (IH l); [inversion Hs; assumption|exact Ha|exact Hb].
Qed.

Lemma insert_by_length (x : A) (l : list A) :
  List.length (gorm.insert_by le x l) = S (List.length l).
Proof.
induction l as [|y l IH]; simpl; [reflexivity|].
destruct (le x y); simpl; [reflexivity|]. rewrite IH. reflexivity.
Qed.

Lemma Order_length (l : list A) :
  List.length (gorm.Order le l) = List.length l.
Proof.
unfold gorm.Order. induction l as [|x l IH]; simpl; [reflexivity|].
rewrite insert_by_length, IH. reflexivity.
Qed.

End Order_facts.

Lemma Limit_length {A : Type} (n : Z) (l : list A) :
  (List.length (gorm.Limit n l) <= List.length l)%nat
  /\ (0 <= n -> Z.of_nat (List.length (gorm.Limit n l)) <= n).
Proof.
unfold gorm.Limit. destruct (Z.ltb_spec n 0) as [Hneg|Hpos].
- split; [apply Nat.le_refl|lia].
- rewrite length_firstn. split; [apply Nat.le_min_r|]. lia.
Qed.

Lemma Offset_length {A : Type} (n : Z) (l : list A) :
  (List.length (gorm.Offset n l) <= List.length l)%nat.
Proof.
unfold gorm.Offset. destruct (0 <? n); [|apply Nat.le_refl].
rewrite length_skipn. lia.
Qed.

Lemma list_le_total (a b : Booking.t) :
  BookingRepository.list_le a b = true \/ BookingRepository.list_le b a = true.
Proof.
unfold BookingRepository.list_le.
destruct (Z.lt_trichotomy
            (time.daysSinceOrigin (Booking.BookingDate a))
            (time.daysSinceOrigin (Booking.BookingDate b))) as [L|[E|G]].
- right. apply Z.ltb_lt in L. rewrite L. reflexivity.
- rewrite E, Z.eqb_refl, Z.ltb_irrefl. cbn [orb andb].
  destruct (String.leb_total (Booking.StartTime a) (Booking.StartTime b));
    auto.
- left. apply Z.ltb_lt in G. rewrite G. reflexivity.
Qed.



(* ------------------------------------------------------------------ *)
(** ** More on slot computation *)

(** X13.  [GetAvailableSlots] always answers: whatever the parameters, the
    stylist's schedule rows (well-formed or not) and the bookings, the
    handler neither panics nor loops for ever; it answers 200 with a list of
    slots or 400. *)
Theorem GetAvailableSlots_always_answers :
  forall (BookingTime : Booking.t -> string)
         (Service_Duration : Booking.t -> Z)
         (bookingRepo : bool) (db : Store.t)
         (idParam dateStr durationStr : string),
    (exists slots,
        StylistHandler.GetAvailableSlots BookingTime Service_Duration
          bookingRepo db idParam dateStr durationStr
        = JSON http.StatusOK slots)
    \/ (exists msg,
           StylistHandler.GetAvailableSlots BookingTime Service_Duration
             bookingRepo db idParam dateStr durationStr
           = Error http.StatusBadRequest msg).
Proof.
intros BookingTime Service_Duration bookingRepo db idParam dateStr durationStr.
unfold StylistHandler.GetAvailableSlots.
destruct (Go.ParseUint32 idParam) as [stylistID|]; [|right; eexists; reflexivity].
destruct (String.eqb dateStr EmptyString); [right; eexists; reflexivity|].
destruct (String.eqb durationStr EmptyString); [right; eexists; reflexivity|].
destruct (Go.Atoi durationStr) as [duration ok].
destruct (negb ok || (duration <=? 0)); [right; eexists; reflexivity|].
destruct (time.Parse_date dateStr) as [date|]; [|right; eexists; reflexivity].
destruct (StylistHandler.find_daySchedule _ _) as [daySchedule|];
  [|left; eexists; reflexivity].
left.
match goal with
| |- context [StylistHandler.slots_loop _ _ (StylistHandler.slots_fuel ?s ?e)
                                        ?bs ?d ?e ?s] =>
    destruct (slots_loop_shape BookingTime Service_Duration bs d e
                (StylistHandler.slots_fuel s e) s) as (n & Hrun & _);
    [unfold StylistHandler.slots_fuel; lia|]
end.
rewrite Hrun. eexists. reflexivity.
Qed.

Lemma slot_available_nil (BookingTime : Booking.t -> string)
      (Service_Duration : Booking.t -> Z) (currentTime slotEnd : time.Time) :
  StylistHandler.slot_available BookingTime Service_Duration []
                                currentTime slotEnd = true.
Proof. reflexivity. Qed.

(** X14.  Without reservations to look at, every slot is available: this
    is so when the stylist has no pending or confirmed booking on the date,
    and always for a handler built without a booking repository
    ([NewStylistHandler]), whatever the bookings table holds. *)
Theorem slots_all_available_without_reservations :
  forall (BookingTime : Booking.t -> string)
         (Service_Duration : Booking.t -> Z)
         (bookingRepo : bool) (db : Store.t)
         (idParam dateStr durationStr : string)
         (stylistID : Z) (slots : list StylistHandler.TimeSlot),
    Go.ParseUint32 idParam = Some stylistID ->
    bookingRepo = false
    \/ BookingRepository.GetByStylistAndDateString db stylistID dateStr = [] ->
    StylistHandler.GetAvailableSlots BookingTime Service_Duration
      bookingRepo db idParam dateStr durationStr
    = JSON http.StatusOK slots ->
    forall slot, In slot slots -> StylistHandler.Available slot = true.
Proof.
intros BookingTime Service_Duration bookingRepo db idParam dateStr durationStr
  stylistID slots Hid Hnone Hresp slot Hin.
unfold StylistHandler.GetAvailableSlots in Hresp. rewrite Hid in Hresp.
destruct (String.eqb dateStr EmptyString); [discriminate|].
destruct (String.eqb durationStr EmptyString); [discriminate|].
destruct (Go.Atoi durationStr) as [duration ok].
destruct (negb ok || (duration <=? 0)); [discriminate|].
destruct (time.Parse_date dateStr) as [date|]; [|discriminate].
destruct (StylistHandler.find_daySchedule _ _) as [daySchedule|].
- assert (Hfetched : (if bookingRepo
                      then BookingRepository.GetByStylistAndDateString
                             db stylistID dateStr
                      else []) = []).
  { destruct Hnone as [Hrepo|Hempty]; [rewrite Hrepo; reflexivity|].
    rewrite Hempty. destruct bookingRepo; reflexivity. }
  rewrite Hfetched in Hresp.
  match type of Hresp with
  | context [StylistHandler.slots_loop _ _ (StylistHandler.slots_fuel ?s ?e)
                                       [] ?d ?e ?s] =>
      destruct (slots_loop_shape BookingTime Service_Duration [] d e
                  (StylistHandler.slots_fuel s e) s) as (n & Hrun & _);
      [unfold StylistHandler.slots_fuel; lia|]
  end.
  rewrite Hrun in Hresp. inversion Hresp; subst slots.
  apply in_map_iff in Hin. destruct Hin as (k & Hslot & _). subst slot.
  reflexivity.
- inversion Hresp; subst. destruct Hin.
Qed.

Lemma slots_all_available_without_reservations_witness :
  exists slots,
    StylistHandler.GetAvailableSlots
      Booking.StartTime Booking.Duration false
      (Example_salon.db1 "confirmed") "1" "2024-01-01" "60"
    = JSON http.StatusOK slots
    /\ List.length slots = 15%nat
    /\ Forall (fun slot => StylistHandler.Available slot = true) slots.
Proof.
eexists. split; [vm_compute; reflexivity|]. split; [reflexivity|].
apply Forall_forall.
refine (slots_all_available_without_reservations
          Booking.StartTime Booking.Duration false
          (Example_salon.db1 "confirmed") "1" "2024-01-01" "60" 1 _
          eq_refl (or_introl eq_refl) _).
vm_compute. reflexivity.
Defined.



(* ------------------------------------------------------------------ *)
(** ** The revenue report *)

Lemma Date_eqb_eq (a b : time.Date) : time.Date_eqb a b = true <-> a = b.
Proof.
unfold time.Date_eqb. rewrite !andb_true_iff, !Z.eqb_eq.
destruct a, b; cbn. split; [intros [[? ?] ?]; congruence|].
intro H; inversion H; auto.
Qed.

Lemma distinct_In (l : list time.Date) (d : time.Date) :
  In d (BookingStatistics.distinct l) <-> In d l.
Proof.
induction l as [|x l IH]; simpl; [tauto|].
destruct (existsb (time.Date_eqb x) l) eqn:Hex.
- rewrite IH. split; [tauto|]. intros [E|H]; [|exact H]. subst d.
  apply existsb_exists in Hex. destruct Hex as (y & Hy & Hxy).
  apply Date_eqb_eq in Hxy. subst y. exact Hy.
- simpl. rewrite IH. tauto.
Qed.

Lemma distinct_NoDup (l : list time.Date) :
  NoDup (BookingStatistics.distinct l).
Proof.
induction l as [|x l IH]; simpl; [constructor|].
destruct (existsb (time.Date_eqb x) l) eqn:Hex; [exact IH|].
constructor; [|exact IH]. rewrite distinct_In. intro Hin.
assert (Ht : existsb (time.Date_eqb x) l = true)
  by (apply existsb_exists; exists x; split; [exact Hin|apply Date_eqb_eq; reflexivity]).
congruence.
Qed.

Lemma insert_by_NoDup {A : Type} (le : A -> A -> bool) (x : A) (l : list A) :
  NoDup l -> ~ In x l -> NoDup (gorm.insert_by le x l).
Proof.
induction l as [|y l IH]; simpl; intros Hnd Hx.
- constructor; [tauto|constructor].
- destruct (le x y).
  + constructor; [simpl; tauto|exact Hnd].
  + inversion Hnd as [|? ? Hy Hnd']; subst. constructor.
    * rewrite insert_by_In. intros [E|H]; [subst; tauto|tauto].
    * apply IH; tauto.
Qed.

Lemma Order_NoDup {A : Type} (le : A -> A -> bool) (l : list A) :
  NoDup l -> NoDup (gorm.Order le l).
Proof.
unfold gorm.Order. induction l as [|x l IH]; simpl; intro Hnd; [constructor|].
inversion Hnd as [|? ? Hx Hnd']; subst.
apply insert_by_NoDup; [apply IH; exact Hnd'|].
fold (gorm.Order le l). rewrite Order_In. exact Hx.
Qed.

(** Summing group by group is summing everything, when every row's date is
    among the group keys and no key comes twice. *)
Lemma sum_by_date (f : Booking.t -> Z) (keys : list time.Date)
      (rows : list Booking.t) :
  NoDup keys ->
  (forall b, In b rows -> In (Booking.BookingDate b) keys) ->
  Spec.sum (map (fun d =>
                   Spec.sum (map f (filter
                                      (fun b => time.Date_eqb
                                                  (Booking.BookingDate b) d)
                                      rows)))
                keys)
  = Spec.sum (map f rows).
Proof.
intros Hnd. induction rows as [|x rows IH]; intro Hkeys.
- simpl. clear. induction keys as [|k keys IH]; [reflexivity|].
  simpl in *. rewrite IH. reflexivity.
- change (Spec.sum (map f (x :: rows))) with (f x + Spec.sum (map f rows)).
  rewrite <- (IH (fun b Hb => Hkeys b (or_intror Hb))).
  cbn [filter].
  assert (Hx : In (Booking.BookingDate x) keys)
    by (apply Hkeys; left; reflexivity).
  clear IH Hkeys. unfold Spec.sum.
  induction keys as [|k keys IHk]; [destruct Hx|].
  inversion Hnd as [|? ? Hk Hnd']; subst. cbn [map fold_right].
  destruct (time.Date_eqb (Booking.BookingDate x) k) eqn:Hxk.
  + apply Date_eqb_eq in Hxk. subst k. cbn [map fold_right].
    assert (Hrest :
              fold_right Z.add 0
                (map (fun d =>
                        fold_right Z.add 0
                          (map f (if time.Date_eqb (Booking.BookingDate x) d
                                  then x :: filter
                                              (fun b => time.Date_eqb
                                                          (Booking.BookingDate b) d)
                                              rows
                                  else filter
                                         (fun b => time.Date_eqb
                                                     (Booking.BookingDate b) d)
                                         rows)))
                     keys)
              = fold_right Z.add 0
                  (map (fun d =>
                          fold_right Z.add 0
                            (map f (filter
                                      (fun b => time.Date_eqb
                                                  (Booking.BookingDate b) d)
                                      rows)))
                       keys)).
    { f_equal. apply map_ext_in. intros d Hd.
      destruct (time.Date_eqb (Booking.BookingDate x) d) eqn:Hxd;
        [|reflexivity].
      apply Date_eqb_eq in Hxd. subst d. tauto. }
    rewrite Hrest. lia.
  + assert (Hx' : In (Booking.BookingDate x) keys).
    { destruct Hx as [E|H]; [|exact H]. subst k.
      assert (Ht : time.Date_eqb (Booking.BookingDate x)
                                 (Booking.BookingDate x) = true)
        by (apply Date_eqb_eq; reflexivity).
      congruence. }
    rewrite (IHk Hnd' Hx'). lia.
Qed.

Lemma filter_length_le {A : Type} (p q : A -> bool) (l : list A) :
  (forall x, p x = true -> q x = true) ->
  (List.length (filter p l) <= List.length (filter q l))%nat.
Proof.
intro Himp. induction l as [|x l IH]; simpl; [apply Nat.le_refl|].
destruct (p x) eqn:Hp.
- rewrite (Himp x Hp). simpl. lia.
- destruct (q x); simpl; lia.
Qed.

Lemma sum_ones {A : Type} (l : list A) :
  Spec.sum (map (fun _ => 1) l) = Z.of_nat (List.length l).
Proof.
unfold Spec.sum. induction l as [|x l IH]; [reflexivity|].
cbn [map fold_right List.length]. rewrite IH. lia.
Qed.

(** X16.  The revenue report is consistent: the revenues of the days add
    up to the total revenue, the bookings counted for the days (completed
    ones) are at most the booking count of the period, every day listed has
    at least one booking and no day is listed twice, and the days come in
    ascending order. *)
Theorem revenue_report_is_consistent :
  forall (db : Store.t) (startDateStr endDateStr : string)
         (report : StatisticsHandler.RevenueReport),
    StatisticsHandler.GetRevenueReport db startDateStr endDateStr
    = JSON http.StatusOK report ->
    let days := StatisticsHandler.revenue_by_day report in
    Spec.sum (map BookingStatistics.revenue days)
    = StatisticsHandler.total_revenue report
    /\ Spec.sum (map BookingStatistics.bookings days)
       <= StatisticsHandler.booking_count report
    /\ (forall day, In day days -> 1 <= BookingStatistics.bookings day)
    /\ NoDup (map BookingStatistics.date days)
    /\ Sorted (fun a b =>
                 time.daysSinceOrigin (BookingStatistics.date a)
                 <= time.daysSinceOrigin (BookingStatistics.date b))
              days.
Proof.
intros db startDateStr endDateStr report Hreport days.
unfold StatisticsHandler.GetRevenueReport in Hreport.
destruct (String.eqb startDateStr EmptyString || String.eqb endDateStr EmptyString);
  [discriminate|].
destruct (time.Parse_date startDateStr) as [startDate|]; [|discriminate].
destruct (time.Parse_date endDateStr) as [endDate|]; [|discriminate].
destruct (BookingStatistics.GetRevenueByDateRange db startDate endDate)
  as [total|] eqn:Htotal; [|discriminate].
inversion Hreport; subst report; clear Hreport.
unfold days. cbn [StatisticsHandler.revenue_by_day
                   StatisticsHandler.total_revenue
                   StatisticsHandler.booking_count].
unfold BookingStatistics.GetRevenueByDateRange in Htotal.
destruct ((Go.MinInt64 <=? _) && (_ <=? Go.MaxInt64)); [|discriminate].
inversion Htotal; subst total; clear Htotal.
unfold BookingStatistics.GetRevenueByDay.
set (rows := BookingStatistics.completed db startDate endDate).
set (keys := gorm.Order gorm.date_leb
               (BookingStatistics.distinct (map Booking.BookingDate rows))).
assert (Hnd : NoDup keys) by (apply Order_NoDup, distinct_NoDup).
assert (Hkeys : forall b, In b rows -> In (Booking.BookingDate b) keys).
{ intros b Hb. unfold keys. rewrite Order_In, distinct_In.
  apply in_map. exact Hb. }
assert (Hkeys' : forall d, In d keys ->
                           exists b, In b rows /\ Booking.BookingDate b = d).
{ intros d Hd. unfold keys in Hd. rewrite Order_In, distinct_In in Hd.
  apply in_map_iff in Hd. destruct Hd as (b & E & Hb). eauto. }
split; [|split; [|split; [|split]]].
- rewrite map_map. cbn [BookingStatistics.revenue].
  apply (sum_by_date Booking.Price keys rows Hnd Hkeys).
- rewrite map_map. cbn [BookingStatistics.bookings].
  transitivity (Z.of_nat (List.length rows)).
  + rewrite <- (sum_ones rows).
    rewrite <- (sum_by_date (fun _ => 1) keys rows Hnd Hkeys).
    apply Z.eq_le_incl. f_equal. apply map_ext. intro d.
    rewrite sum_ones. reflexivity.
  + unfold BookingStatistics.CountByDateRange, rows,
      BookingStatistics.completed.
    apply Nat2Z.inj_le. apply filter_length_le. intros b Hb.
    apply andb_prop in Hb. destruct Hb as [Hb _]. rewrite Hb. reflexivity.
- intros day Hday. apply in_map_iff in Hday.
  destruct Hday as (d & Hday & Hd). subst day. cbn [BookingStatistics.bookings].
  destruct (Hkeys' d Hd) as (b & Hb & Hbd).
  assert (Hin : In b (filter (fun b0 => time.Date_eqb (Booking.BookingDate b0) d)
                             rows))
    by (apply filter_In; split; [exact Hb|apply Date_eqb_eq; exact Hbd]).
  destruct (filter _ rows); [destruct Hin|]. cbn [List.length]. lia.
- rewrite map_map. cbn [BookingStatistics.date]. rewrite map_id. exact Hnd.
- assert (Hs : Sorted (fun a b => gorm.date_leb a b = true) keys).
  { apply Order_Sorted. intros a b. unfold gorm.date_leb.
    destruct (Z.le_ge_cases (time.daysSinceOrigin a) (time.daysSinceOrigin b))
      as [H|H]; [left|right]; apply Z.leb_le; lia. }
  clear Hnd Hkeys Hkeys'. induction Hs as [|k ks Hs IH Hhd]; [constructor|].
  cbn [map]. constructor; [exact IH|].
  destruct Hhd as [|k' ks' Hkk]; constructor.
  cbn [BookingStatistics.date]. apply Z.leb_le. exact Hkk.
Qed.

Lemma revenue_report_is_consistent_witness :
  exists report,
    StatisticsHandler.GetRevenueReport Example_reports.db
                                       "2024-01-01" "2024-01-31"
    = JSON http.StatusOK report
    /\ StatisticsHandler.total_revenue report = 1500
    /\ StatisticsHandler.booking_count report = 5
    /\ Spec.sum (map BookingStatistics.revenue
                     (StatisticsHandler.revenue_by_day report)) = 1500
    /\ Spec.sum (map BookingStatistics.bookings
                     (StatisticsHandler.revenue_by_day report)) <= 5
    /\ map BookingStatistics.date (StatisticsHandler.revenue_by_day report)
       = [time.mkDate 2024 1 1; time.mkDate 2024 1 2].
Proof.
eexists. split; [vm_compute; reflexivity|].
split; [reflexivity|]. split; [reflexivity|].
match goal with
| |- Spec.sum (map _ (StatisticsHandler.revenue_by_day ?r)) = _ /\ _ =>
    destruct (revenue_report_is_consistent
                Example_reports.db "2024-01-01" "2024-01-31" r eq_refl)
      as (Hsum & Hcount & _)
end.
split; [exact Hsum|]. split; [exact Hcount|]. reflexivity.
Defined.

Lemma GetByID_In (db : Store.t) (id : Z) (b : Booking.t) :
  BookingRepository.GetByID db id = Some b ->
  In b (Store.bookings db) /\ Booking.DeletedAt b = false /\ Booking.ID b = id.
Proof.
unfold BookingRepository.GetByID, gorm.First. intro H.
apply least_In, filter_In in H. destruct H as [Hin Hb].
apply andb_prop in Hb. destruct Hb as [Hlive Hid].
apply negb_true_iff in Hlive. apply Z.eqb_eq in Hid. auto.
Qed.

(** With distinct keys, a status update rewrites one row in place. *)
Lemma UpdateStatus_in_place (db : Store.t) (id : Z) (status : string)
      (b : Booking.t) :
  NoDup (map Booking.ID (Store.bookings db)) ->
  BookingRepository.GetByID db id = Some b ->
  exists l1 l2,
    Store.bookings db = (l1 ++ b :: l2)%list
    /\ Store.bookings (BookingRepository.UpdateStatus db id status)
       = (l1 ++ Booking.with_Status status b :: l2)%list.
Proof.
intros Hnd Hget. destruct (GetByID_In _ _ _ Hget) as (Hin & Hlive & Hid).
destruct (in_split _ _ Hin) as (l1 & l2 & Hsplit).
exists l1, l2. split; [exact Hsplit|].
unfold BookingRepository.UpdateStatus.
cbn [Store.bookings Store.with_bookings]. rewrite Hsplit in *.
assert (Hother : forall x, In x (l1 ++ l2) -> Booking.ID x <> id).
{ intros x Hx Hxid. rewrite map_app in Hnd. cbn [map] in Hnd.
  apply NoDup_remove_2 in Hnd. apply Hnd. rewrite <- map_app.
  rewrite Hid, <- Hxid. apply in_map. exact Hx. }
assert (Hkeep : forall l, (forall x, In x l -> Booking.ID x <> id) ->
           map (fun b0 => if negb (Booking.DeletedAt b0) && (Booking.ID b0 =? id)
                          then Booking.with_Status status b0 else b0) l = l).
{ intros l Hl. transitivity (map (fun b0 : Booking.t => b0) l); [|apply map_id].
  apply map_ext_in. intros x Hx.
  destruct (Z.eqb_spec (Booking.ID x) id) as [E|_];
    [exfalso; exact (Hl x Hx E)|].
  rewrite andb_false_r. reflexivity. }
rewrite map_app. cbn [map].
rewrite Hlive, Hid, Z.eqb_refl. cbn [negb andb].
rewrite !Hkeep; [reflexivity| |];
  intros x Hx; apply Hother; apply in_or_app; auto.
Qed.

Lemma completed_sum_app (p : Booking.t -> bool) (l1 l2 : list Booking.t)
      (b : Booking.t) :
  fold_right Z.add 0 (map Booking.Price (filter p (l1 ++ b :: l2)))
  = fold_right Z.add 0 (map Booking.Price (filter p (l1 ++ l2)))
    + (if p b then Booking.Price b else 0).
Proof.
rewrite !filter_app, !map_app. cbn [filter].
fold (Spec.sum (map Booking.Price (filter p l1)
                ++ map Booking.Price (if p b then b :: filter p l2
                                      else filter p l2))).
fold (Spec.sum (map Booking.Price (filter p l1)
                ++ map Booking.Price (filter p l2))).
rewrite !sum_app. destruct (p b); cbn [map]; unfold Spec.sum;
  cbn [fold_right]; lia.
Qed.

(** X17.  Revenue follows the status: when an administrator sets a booking
    of the period that was not completed to completed, the revenue of the
    period grows by that booking's price; setting it to any other status
    leaves the revenue as it was. *)
Theorem revenue_after_status_update :
  forall (db : Store.t) (idParam : string) (id : Z) (b : Booking.t)
         (status : string) (startDate endDate : time.Date) (r : Z),
    Go.ParseUint32 idParam = Some id ->
    NoDup (map Booking.ID (Store.bookings db)) ->
    BookingRepository.GetByID db id = Some b ->
    Booking.Status b <> "completed" ->
    BookingStatistics.between startDate endDate b = true ->
    BookingHandler.validStatuses status = true ->
    BookingStatistics.GetRevenueByDateRange db startDate endDate = Some r ->
    Go.in_int64 (r + Booking.Price b) ->
    BookingStatistics.GetRevenueByDateRange
      (snd (BookingHandler.UpdateBookingStatus db idParam status))
      startDate endDate
    = Some (if String.eqb status "completed" then r + Booking.Price b else r).
Proof.
intros db idParam id b status startDate endDate r Hid Hnd Hget Hnot Hbetween
  Hvalid Hrev Hrange.
unfold BookingHandler.UpdateBookingStatus.
rewrite Hid, (valid_status_not_empty _ Hvalid), Hvalid. cbn [negb snd].
destruct (GetByID_In _ _ _ Hget) as (_ & Hlive & _).
destruct (UpdateStatus_in_place db id status b Hnd Hget)
  as (l1 & l2 & Hold & Hnew).
unfold BookingStatistics.GetRevenueByDateRange, BookingStatistics.completed
  in *.
rewrite Hnew. rewrite Hold in Hrev.
rewrite completed_sum_app in *.
cbn [Booking.DeletedAt Booking.Status Booking.with_Status] in *.
assert (Hbetween' : BookingStatistics.between startDate endDate
                      (Booking.with_Status status b) = true)
  by exact Hbetween.
rewrite Hbetween'. rewrite Hbetween in Hrev. rewrite Hlive in *.
cbn [negb andb] in *.
apply String.eqb_neq in Hnot.
change BookingStatusCompleted with "completed" in *.
rewrite Hnot in Hrev. rewrite Z.add_0_r in Hrev.
set (rest := fold_right Z.add 0 _) in *.
destruct ((Go.MinInt64 <=? rest) && (rest <=? Go.MaxInt64)) eqn:Hin;
  [|discriminate].
injection Hrev as Hr; subst r.
destruct (String.eqb status "completed").
- unfold Go.in_int64 in Hrange.
  change (Booking.Price (Booking.with_Status status b))
    with (Booking.Price b).
  replace ((Go.MinInt64 <=? rest + Booking.Price b)
           && (rest + Booking.Price b <=? Go.MaxInt64)) with true;
    [reflexivity|].
  symmetry. apply andb_true_intro. split; apply Z.leb_le; lia.
- rewrite Z.add_0_r, Hin. reflexivity.
Qed.

Lemma revenue_after_status_update_witness :
  BookingStatistics.GetRevenueByDateRange
    (snd (BookingHandler.UpdateBookingStatus Example_reports.db "4"
                                             "completed"))
    (time.mkDate 2024 1 1) (time.mkDate 2024 1 31)
  = Some 2400.
Proof.
apply (revenue_after_status_update
         Example_reports.db "4" 4
         (Example_reports.booking 4 (time.mkDate 2024 1 3) "09:00" "09:30"
                                  900 "pending")
         "completed" (time.mkDate 2024 1 1) (time.mkDate 2024 1 31) 1500).
- reflexivity.
- cbn. repeat (constructor; [simpl; intuition discriminate|]). constructor.
- reflexivity.
- discriminate.
- reflexivity.
- reflexivity.
- reflexivity.
- vm_compute. split; discriminate.
Defined.

(* ------------------------------------------------------------------ *)
(** ** Primary keys of the bookings *)

Lemma UpdateStatus_IDs (db : Store.t) (id : Z) (status : string) :
  map Booking.ID (Store.bookings (BookingRepository.UpdateStatus db id status))
  = map Booking.ID (Store.bookings db).
Proof.
unfold BookingRepository.UpdateStatus.
cbn [Store.bookings Store.with_bookings]. rewrite map_map.
apply map_ext. intro b.
destruct (negb (Booking.DeletedAt b) && (Booking.ID b =? id)); reflexivity.
Qed.

(** X18.  The primary keys of the bookings stay distinct: whatever the
    request, [CreateBooking], [UpdateBookingStatus] and [CancelBooking]
    take a store with distinct booking keys to one with distinct booking
    keys. *)
Theorem booking_keys_stay_distinct :
  forall (db : Store.t) (c : Context)
         (req : BookingHandler.CreateBookingRequest)
         (idParam status : string),
    NoDup (map Booking.ID (Store.bookings db)) ->
    NoDup (map Booking.ID
               (Store.bookings (snd (BookingHandler.CreateBooking db c req))))
    /\ NoDup (map Booking.ID
                  (Store.bookings
                     (snd (BookingHandler.UpdateBookingStatus
                             db idParam status))))
    /\ NoDup (map Booking.ID
                  (Store.bookings
                     (snd (BookingHandler.CancelBooking db c idParam)))).
Proof.
intros db c req idParam status Hnd. repeat split.
- destruct (BookingHandler.CreateBooking_check db c req) as [r|booking] eqn:Hc.
  + unfold BookingHandler.CreateBooking. rewrite Hc. exact Hnd.
  + rewrite (CreateBooking_of_check _ _ _ _ Hc).
    cbn [snd Store.bookings Store.with_bookings].
    rewrite map_app. apply NoDup_snoc; [exact Hnd|].
    cbn [map Booking.ID Booking.with_ID]. intro Hin.
    apply in_map_iff in Hin. destruct Hin as (b & Hb & Hin).
    pose proof (nextID_above Booking.ID _ _ Hin) as Hlt. lia.
- unfold BookingHandler.UpdateBookingStatus.
  destruct (Go.ParseUint32 idParam); [|exact Hnd].
  destruct (String.eqb status EmptyString); [exact Hnd|].
  destruct (negb (BookingHandler.validStatuses status)); [exact Hnd|].
  cbn [snd]. rewrite UpdateStatus_IDs. exact Hnd.
- unfold BookingHandler.CancelBooking.
  destruct (Go.ParseUint32 idParam); [|exact Hnd].
  destruct (BookingRepository.GetByID db _); [|exact Hnd].
  destruct (negb _ && negb _); [exact Hnd|].
  destruct (negb (IsCancellable _)); [exact Hnd|].
  cbn [snd]. rewrite UpdateStatus_IDs. exact Hnd.
Qed.

Lemma booking_keys_stay_distinct_witness :
  NoDup (map Booking.ID
             (Store.bookings
                (snd (BookingHandler.CreateBooking
                        Example_reports.db Example_salon.as_alice
                        (Example_salon.request Example_salon.as_alice [1] "2024-01-08"
                                               "10:00")))))
  /\ NoDup (map Booking.ID
                (Store.bookings
                   (snd (BookingHandler.UpdateBookingStatus
                           Example_reports.db "4" "confirmed"))))
  /\ NoDup (map Booking.ID
                (Store.bookings
                   (snd (BookingHandler.CancelBooking
                           Example_reports.db Example_salon.as_alice "4")))).
Proof.
apply (booking_keys_stay_distinct Example_reports.db Example_salon.as_alice
         (Example_salon.request Example_salon.as_alice [1] "2024-01-08"
                                               "10:00") "4" "confirmed").
cbn. repeat (constructor; [simpl; intuition discriminate|]). constructor.
Defined.

(* ------------------------------------------------------------------ *)
(** ** Schedules and Sundays *)

Lemma bind_CreateScheduleRequest_true
      (req : ScheduleHandler.CreateScheduleRequest) :
  ScheduleHandler.bind_CreateScheduleRequest req = true ->
  1 <= ScheduleHandler.DayOfWeek req <= 6
  /\ ScheduleHandler.StartTime req <> EmptyString
  /\ ScheduleHandler.EndTime req <> EmptyString.
Proof.
unfold ScheduleHandler.bind_CreateScheduleRequest. intro H.
rewrite !andb_true_iff, !negb_true_iff in H.
destruct H as ((((H0 & Hmin) & Hmax) & Hs) & He).
apply Z.eqb_neq in H0. apply Z.leb_le in Hmin, Hmax.
apply String.eqb_neq in Hs, He. repeat split; auto; lia.
Qed.

(** X19.  No schedule can be made for a Sunday: [CreateSchedule] answers a
    request whose [day_of_week] is 0 with 400 and writes nothing; a
    schedule it does create is for a day from 1 to 6, is active, is the one
    row added to the table and is listed by [GetSchedules] for the same
    stylist; so a table without a Sunday row stays without one. *)
Theorem CreateSchedule_never_on_sunday :
  forall (accepts : Store.t -> StylistSchedule.t -> bool) (db : Store.t)
         (idParam : string) (req : ScheduleHandler.CreateScheduleRequest),
    let result := ScheduleHandler.CreateSchedule accepts db idParam req in
    (ScheduleHandler.DayOfWeek req = 0 ->
     exists msg, result = (Error http.StatusBadRequest msg, db))
    /\ (forall code row,
           fst result = JSON code row ->
           code = http.StatusCreated
           /\ 1 <= StylistSchedule.DayOfWeek row <= 6
           /\ StylistSchedule.IsActive row = true
           /\ Store.schedules (snd result) = (Store.schedules db ++ [row])%list
           /\ ScheduleHandler.GetSchedules (snd result) idParam
              = JSON http.StatusOK
                     (StylistRepository.GetSchedulesByStylistID
                        (snd result) (StylistSchedule.StylistID row))
           /\ In row (StylistRepository.GetSchedulesByStylistID
                        (snd result) (StylistSchedule.StylistID row)))
    /\ (ScheduleHandler.no_sunday db ->
        ScheduleHandler.no_sunday (snd result)).
Proof.
intros accepts db idParam req result. subst result.
unfold ScheduleHandler.CreateSchedule, ScheduleHandler.GetSchedules.
destruct (Go.ParseUint32 idParam) as [id|] eqn:Hid.
2:{ cbn [fst snd]. split; [eauto|]. split; [discriminate|auto]. }
destruct (ScheduleHandler.bind_CreateScheduleRequest req) eqn:Hbind;
  cbn [negb].
2:{ cbn [fst snd]. split; [eauto|]. split; [discriminate|auto]. }
destruct (bind_CreateScheduleRequest_true _ Hbind) as (Hday & _ & _).
unfold ScheduleHandler.Create.
destruct (accepts db _).
2:{ cbn [fst snd]. split; [intro; lia|]. split; [discriminate|auto]. }
cbn [fst snd]. split; [intro; lia|]. split.
- intros code row Hrow. inversion Hrow; subst code row; clear Hrow.
  cbn [StylistSchedule.DayOfWeek StylistSchedule.IsActive
       StylistSchedule.StylistID ScheduleHandler.with_ID
       ScheduleHandler.with_schedules Store.schedules
       StylistSchedule.DeletedAt StylistSchedule.StartTime
       StylistSchedule.EndTime].
  repeat split; try lia.
  unfold StylistRepository.GetSchedulesByStylistID.
  apply Order_In. apply filter_In.
  cbn [Store.schedules]. split.
  + apply in_or_app. right. left. reflexivity.
  + cbn [StylistSchedule.DeletedAt StylistSchedule.StylistID
         StylistSchedule.IsActive negb andb Bool.eqb].
    rewrite Z.eqb_refl. reflexivity.
- intros Hno w Hw.
  cbn [ScheduleHandler.with_schedules Store.schedules] in Hw.
  apply in_app_or in Hw. destruct Hw as [Hw|[<-|[]]]; [exact (Hno w Hw)|].
  cbn [StylistSchedule.DayOfWeek ScheduleHandler.with_ID]. lia.
Qed.

Lemma CreateSchedule_never_on_sunday_witness :
  fst (ScheduleHandler.CreateSchedule
         (fun _ _ => true) Example_salon.db0 "1"
         (ScheduleHandler.mkCreateScheduleRequest 0 "09:00" "17:00"))
  = Error http.StatusBadRequest binding_error
  /\ fst (ScheduleHandler.CreateSchedule
            (fun _ _ => true) Example_salon.db0 "1"
            (ScheduleHandler.mkCreateScheduleRequest 3 "09:00" "17:00"))
     = JSON http.StatusCreated
            (StylistSchedule.mk 3 false 1 3 "09:00" "17:00" true)
  /\ ScheduleHandler.no_sunday
       (snd (ScheduleHandler.CreateSchedule
               (fun _ _ => true) Example_salon.db0 "1"
               (ScheduleHandler.mkCreateScheduleRequest 3 "09:00" "17:00"))).
Proof.
split; [reflexivity|]. split; [reflexivity|].
pose proof (CreateSchedule_never_on_sunday
              (fun _ _ => true) Example_salon.db0 "1"
              (ScheduleHandler.mkCreateScheduleRequest 3 "09:00" "17:00"))
  as H.
cbv zeta in H. destruct H as (_ & _ & H). apply H.
intros w [<-|[<-|[]]]; discriminate.
Defined.

Lemma Sunday_has_no_schedule (db : Store.t) (stylistID : Z) :
  ScheduleHandler.no_sunday db ->
  StylistRepository.first_schedule db stylistID 0 = None
  /\ StylistHandler.find_daySchedule
       (StylistRepository.GetSchedulesByStylistID db stylistID) 0 = None.
Proof.
intro Hno. split.
- apply first_schedule_None. intros w Hin (_ & _ & Hday & _).
  exact (Hno w Hin Hday).
- unfold StylistHandler.find_daySchedule.
  destruct (find _ _) as [w|] eqn:Hfind; [|reflexivity].
  apply find_some in Hfind. destruct Hfind as [Hin Hw].
  unfold StylistRepository.GetSchedulesByStylistID in Hin.
  apply Order_In, filter_In in Hin. destruct Hin as [Hin _].
  apply andb_prop in Hw. destruct Hw as [Hday _].
  apply Z.eqb_eq in Hday. exfalso. exact (Hno w Hin Hday).
Qed.

(** X20.  Sundays cannot be booked: in a store without a schedule row for
    Sunday, every [CreateBooking] for a date that is a Sunday is refused and
    writes nothing, and [GetAvailableSlots] offers no slot for it, whatever
    the stylist, the services and the hour. *)
Theorem sunday_is_never_bookable :
  forall (db : Store.t) (dateStr : string) (date : time.Date),
    ScheduleHandler.no_sunday db ->
    time.Parse_date dateStr = Some date ->
    time.Weekday date = 0 ->
    (forall (c : Context) (req : BookingHandler.CreateBookingRequest),
        BookingHandler.Date req = dateStr ->
        Concurrent.created (fst (BookingHandler.CreateBooking db c req))
        = false
        /\ snd (BookingHandler.CreateBooking db c req) = db)
    /\ (forall (BookingTime : Booking.t -> string)
               (Service_Duration : Booking.t -> Z) (bookingRepo : bool)
               (idParam durationStr : string) (code : Z)
               (slots : list StylistHandler.TimeSlot),
           StylistHandler.GetAvailableSlots BookingTime Service_Duration
             bookingRepo db idParam dateStr durationStr
           = JSON code slots ->
           slots = []).
Proof.
intros db dateStr date Hno Hparse Hsunday. split.
- intros c req Hdate.
  destruct (BookingHandler.CreateBooking_check db c req) as [r|booking] eqn:Hc.
  + unfold BookingHandler.CreateBooking. rewrite Hc. cbn [fst snd].
    split; [exact (CreateBooking_check_inl _ _ _ _ Hc)|reflexivity].
  + exfalso.
    destruct (CreateBooking_check_inr _ _ _ _ Hc)
      as (? & ? & ? & bookingDate & endTime & _ & Hp & _ & Hav & _).
    rewrite Hdate, Hparse in Hp. inversion Hp; subst bookingDate.
    unfold StylistRepository.IsAvailable in Hav.
    rewrite Hsunday in Hav.
    destruct (Sunday_has_no_schedule db (BookingHandler.StylistID req) Hno)
      as [Hfirst _].
    rewrite Hfirst in Hav. discriminate.
- intros BookingTime Service_Duration bookingRepo idParam durationStr code
    slots H.
  unfold StylistHandler.GetAvailableSlots in H.
  destruct (Go.ParseUint32 idParam) as [stylistID|]; [|discriminate].
  destruct (String.eqb dateStr EmptyString); [discriminate|].
  destruct (String.eqb durationStr EmptyString); [discriminate|].
  destruct (Go.Atoi durationStr) as [duration ok].
  destruct (negb ok || (duration <=? 0)); [discriminate|].
  rewrite Hparse, Hsunday in H.
  destruct (Sunday_has_no_schedule db stylistID Hno) as [_ Hfind].
  rewrite Hfind in H. inversion H. reflexivity.
Qed.

Lemma sunday_is_never_bookable_witness :
  time.Weekday (time.mkDate 2024 1 7) = 0
  /\ Concurrent.created
       (fst (BookingHandler.CreateBooking
               Example_salon.db0 Example_salon.as_alice
               (Example_salon.request Example_salon.as_alice [1]
                                      "2024-01-07" "10:00")))
     = false
  /\ Example_salon.slots Example_salon.db0 "2024-01-07" "30"
     = JSON http.StatusOK [].
Proof.
assert (Hno : ScheduleHandler.no_sunday Example_salon.db0)
  by (intros w [<-|[<-|[]]]; discriminate).
destruct (sunday_is_never_bookable
            Example_salon.db0 "2024-01-07" (time.mkDate 2024 1 7)
            Hno eq_refl eq_refl) as [Hcreate Hslots].
split; [reflexivity|]. split.
- exact (proj1 (Hcreate Example_salon.as_alice
                  (Example_salon.request Example_salon.as_alice [1]
                                         "2024-01-07" "10:00")
                  eq_refl)).
- reflexivity.
Defined.

(* ------------------------------------------------------------------ *)
(** ** Versioned migrations *)

Section Migrations.

Context {Schema : Type}.
Variable now : database.DB Schema -> time.Time.

Lemma applied_app (table new : list database.Migration) (v : string) :
  database.applied (table ++ new) v
  = database.applied table v || database.applied new v.
Proof.
unfold database.applied. apply existsb_app.
Qed.

Lemma applied_In (table : list database.Migration) (v : string) :
  database.applied table v = true <-> In v (map database.Version table).
Proof.
unfold database.applied. rewrite existsb_exists, in_map_iff.
split; intros (m & H1 & H2).
- apply String.eqb_eq in H2. eauto.
- exists m. split; [exact H2|]. apply String.eqb_eq. exact H1.
Qed.

(** A transaction that commits ran the function and appended one record,
    of a version that had none. *)
Lemma Transaction_Some (db db' : database.DB Schema)
      (m : database.entry Schema) :
  database.Transaction Schema now db m = Some db' ->
  database.applied (database.migrations db) (database.version m) = false
  /\ database.fn m (database.schema db) = Some (database.schema db')
  /\ exists record,
       database.migrations db' = (database.migrations db ++ [record])%list
       /\ database.Version record = database.version m.
Proof.
unfold database.Transaction, database.Create. intro H.
destruct (database.fn m (database.schema db)) as [schema'|];
  [|discriminate].
cbn [database.Version database.Name database.AppliedAt] in H.
destruct (database.applied (database.migrations db) (database.version m));
  [discriminate|].
inversion H; subst db'; clear H. cbn [database.schema database.migrations].
repeat split. eexists. split; reflexivity.
Qed.

Lemma run_pending_grows (appliedMap : string -> bool)
      (l : list (database.entry Schema)) :
  forall (db db' : database.DB Schema) (e : option string),
    database.run_pending Schema now appliedMap l db = (db', e) ->
    exists new,
      database.migrations db' = (database.migrations db ++ new)%list
      /\ (NoDup (map database.Version (database.migrations db)) ->
          NoDup (map database.Version (database.migrations db')))
      /\ forall record,
           In record new ->
           appliedMap (database.Version record) = false
           /\ exists m, In m l
                        /\ database.version m = database.Version record.
Proof.
induction l as [|m rest IH]; intros db db' e H;
  cbn [database.run_pending] in H.
- inversion H; subst. exists []. rewrite app_nil_r.
  split; [reflexivity|]. split; [auto|]. intros ? [].
- destruct (appliedMap (database.version m)) eqn:Hap.
  + destruct (IH _ _ _ H) as (new & Hnew & Hnd & Hrec).
    exists new. split; [exact Hnew|]. split; [exact Hnd|].
    intros r Hr. destruct (Hrec r Hr) as (Hap' & m' & Hin & Hv).
    split; [exact Hap'|]. exists m'. split; [right; exact Hin|exact Hv].
  + destruct (database.Transaction Schema now db m) as [db1|] eqn:Htx.
    * destruct (Transaction_Some _ _ _ Htx)
        as (Hfresh & _ & record & Htable & Hversion).
      destruct (IH _ _ _ H) as (new & Hnew & Hnd & Hrec).
      exists (record :: new). split.
      { rewrite Hnew, Htable, <- app_assoc. reflexivity. }
      split.
      { intro Hnd0. apply Hnd. rewrite Htable, map_app. cbn [map].
        apply NoDup_snoc; [exact Hnd0|].
        rewrite Hversion. intro Hin. apply applied_In in Hin. congruence. }
      intros r [<-|Hr].
      -- rewrite Hversion. split; [exact Hap|].
         exists m. split; [left; reflexivity|reflexivity].
      -- destruct (Hrec r Hr) as (Hap' & m' & Hin & Hv).
         split; [exact Hap'|]. exists m'.
         split; [right; exact Hin|exact Hv].
    * inversion H; subst. exists []. rewrite app_nil_r.
      split; [reflexivity|]. split; [auto|]. intros ? [].
Qed.

Lemma run_pending_ok (appliedMap : string -> bool)
      (l : list (database.entry Schema)) :
  forall (db db' : database.DB Schema),
    database.run_pending Schema now appliedMap l db = (db', None) ->
    forall m, In m l ->
      appliedMap (database.version m) = true
      \/ database.applied (database.migrations db') (database.version m)
         = true.
Proof.
induction l as [|m rest IH]; intros db db' H m0 Hin;
  cbn [database.run_pending] in H; [destruct Hin|].
destruct (appliedMap (database.version m)) eqn:Hap.
- destruct Hin as [<-|Hin]; [left; exact Hap|exact (IH _ _ H m0 Hin)].
- destruct (database.Transaction Schema now db m) as [db1|] eqn:Htx;
    [|discriminate].
  destruct Hin as [<-|Hin]; [|exact (IH _ _ H m0 Hin)].
  right.
  destruct (Transaction_Some _ _ _ Htx) as (_ & _ & record & Htable & Hv).
  destruct (run_pending_grows _ _ _ _ _ H) as (new & Hnew & _).
  rewrite Hnew, Htable, !applied_app.
  unfold database.applied at 2. cbn [existsb]. rewrite Hv, String.eqb_refl.
  rewrite orb_true_r. reflexivity.
Qed.

Lemma run_pending_failed (appliedMap : string -> bool)
      (l : list (database.entry Schema)) :
  forall (db db' : database.DB Schema) (v : string),
    database.run_pending Schema now appliedMap l db = (db', Some v) ->
    appliedMap v = false
    /\ exists m, In m l /\ database.version m = v
                 /\ database.Transaction Schema now db' m = None.
Proof.
induction l as [|m rest IH]; intros db db' v H;
  cbn [database.run_pending] in H; [discriminate|].
destruct (appliedMap (database.version m)) eqn:Hap.
- destruct (IH _ _ _ H) as (Hv & m' & Hin & Hm & Htx).
  split; [exact Hv|]. exists m'. auto using in_cons.
- destruct (database.Transaction Schema now db m) as [db1|] eqn:Htx.
  + destruct (IH _ _ _ H) as (Hv & m' & Hin & Hm & Htx').
    split; [exact Hv|]. exists m'. auto using in_cons.
  + inversion H; subst. split; [exact Hap|].
    exists m. repeat split; auto using in_eq.
Qed.

Lemma run_pending_skips (appliedMap : string -> bool)
      (l : list (database.entry Schema)) (db : database.DB Schema) :
  (forall m, In m l -> appliedMap (database.version m) = true) ->
  database.run_pending Schema now appliedMap l db = (db, None).
Proof.
induction l as [|m rest IH]; intro Hall; cbn [database.run_pending];
  [reflexivity|].
rewrite (Hall m (in_eq _ _)). apply IH. intros m' Hin.
apply Hall. right. exact Hin.
Qed.

End Migrations.

(** X21.  Running the migrations again changes nothing: after a run of
    [RunMigrations] that returned no error, every version of the list is
    recorded, and a second run skips every migration, runs no function,
    adds no record and returns no error. *)
Theorem RunMigrations_idempotent :
  forall (Schema : Type) (migrationList : list (database.entry Schema))
         (now : database.DB Schema -> time.Time)
         (db db' : database.DB Schema),
    database.RunMigrations Schema migrationList now db = (db', None) ->
    (forall m, In m migrationList ->
               database.applied (database.migrations db')
                                (database.version m) = true)
    /\ database.RunMigrations Schema migrationList now db' = (db', None).
Proof.
intros Schema migrationList now db db' H.
unfold database.RunMigrations in *.
assert (Hall : forall m, In m migrationList ->
                 database.applied (database.migrations db')
                                  (database.version m) = true).
{ intros m Hin.
  destruct (run_pending_ok now _ _ _ _ H m Hin) as [Hold|Hnew];
    [|exact Hnew].
  destruct (run_pending_grows now _ _ _ _ _ H) as (new & Hnew & _).
  rewrite Hnew, applied_app, Hold. reflexivity. }
split; [exact Hall|]. apply run_pending_skips. exact Hall.
Qed.

Lemma RunMigrations_idempotent_witness :
  let now := fun _ : database.DB database.Users => time.zero in
  let db := database.mkDB database.Users
                          (database.mkUsers "NO" "YES" "NO") [] in
  let db' := database.mkDB database.Users
               (database.mkUsers "YES" "YES" "YES")
               [database.mkMigration 1 "v1" "make_user_fields_nullable"
                                     time.zero] in
  database.RunMigrations database.Users database.migrationList now db
  = (db', None)
  /\ database.RunMigrations database.Users database.migrationList now db'
     = (db', None).
Proof.
intros now db db'.
assert (H : database.RunMigrations database.Users database.migrationList
                                   now db = (db', None))
  by reflexivity.
split; [exact H|].
exact (proj2 (RunMigrations_idempotent _ _ _ _ _ H)).
Defined.

(** X22.  What a run of [RunMigrations] records: whether it ends with an
    error or not, the records it found are kept as they are and in their
    place; every record it adds is of a version of the list that had no
    record before; the versions stay distinct; and an error names a
    version of the list that had no record before the run and whose
    transaction fails on the database the run leaves, which holds neither
    its changes nor its record. *)
Theorem RunMigrations_records :
  forall (Schema : Type) (migrationList : list (database.entry Schema))
         (now : database.DB Schema -> time.Time)
         (db db' : database.DB Schema) (e : option string),
    database.RunMigrations Schema migrationList now db = (db', e) ->
    (exists new,
        database.migrations db' = (database.migrations db ++ new)%list
        /\ forall record,
             In record new ->
             database.applied (database.migrations db)
                              (database.Version record) = false
             /\ exists m, In m migrationList
                          /\ database.version m = database.Version record)
    /\ (NoDup (map database.Version (database.migrations db)) ->
        NoDup (map database.Version (database.migrations db')))
    /\ (forall v, e = Some v ->
          database.applied (database.migrations db) v = false
          /\ exists m, In m migrationList /\ database.version m = v
                       /\ database.Transaction Schema now db' m = None).
Proof.
intros Schema migrationList now db db' e H.
unfold database.RunMigrations in H.
destruct (run_pending_grows now _ _ _ _ _ H) as (new & Hnew & Hnd & Hrec).
split; [exists new; split; [exact Hnew|exact Hrec]|].
split; [exact Hnd|].
intros v ->. exact (run_pending_failed now _ _ _ _ _ H).
Qed.

Lemma RunMigrations_records_witness :
  let now := fun _ : database.DB database.Users => time.zero in
  let failing :=
    [database.mkEntry database.Users "v1" "make_user_fields_nullable"
                      database.V1MakeUserFieldsNullable;
     database.mkEntry database.Users "v2" "refused" (fun _ => None)] in
  let db := database.mkDB database.Users
                          (database.mkUsers "NO" "NO" EmptyString) [] in
  let db' := database.mkDB database.Users
               (database.mkUsers "YES" "YES" EmptyString)
               [database.mkMigration 1 "v1" "make_user_fields_nullable"
                                     time.zero] in
  database.RunMigrations database.Users failing now db = (db', Some "v2")
  /\ NoDup (map database.Version (database.migrations db'))
  /\ database.applied (database.migrations db) "v2" = false.
Proof.
intros now failing db db'.
assert (H : database.RunMigrations database.Users failing now db
            = (db', Some "v2"))
  by reflexivity.
destruct (RunMigrations_records _ _ _ _ _ _ H) as (_ & Hnd & Herr).
split; [exact H|]. split.
- apply Hnd. constructor.
- exact (proj1 (Herr "v2" eq_refl)).
Defined.
